(** * infoHUD: image composition, text fitting and mode scheduling

    A shallow embedding of the rendering pipeline of the infoHUD e-paper
    display (src/image_generator.py, src/display_manager.py,
    src/stock_ticker.py, src/infoHUD.py) and of its data sources
    (src/image_fetcher.py, src/weather_fetcher.py, src/news_fetcher.py),
    together with the properties of its specification and further
    properties of the code.

    Conventions.  A Python [str] is a [string] read as a sequence of
    code points below 256 (the two arrows of the stock records, which
    are only stored, appear as their UTF-8 bytes); a Python [int] is a
    [Z], a [float] read from JSON an idealised rational [Q] and a
    [numpy.float64] an [F64.float64] with its rounding, infinities and
    NaN; a call that may raise
    returns a [result]; the debug directory, the clock, the panel driver
    and [time.sleep] are the explicit state [Sys.World].  The kernels of
    Pillow whose arithmetic the program does not fix (glyph metrics,
    rasterisation, resampling, quantisation) are the fields of a record
    [PIL.Pillow] that every rendering function takes as a parameter;
    [Toy.toy_pillow] is one concrete choice, used to run the model.
    Logging is not modelled. *)

From Stdlib Require Import ZArith QArith Qround Qabs List String Ascii Bool Lia.
From Stdlib Require Import Sorting.Sorted.
From stdpp Require Import gmap strings pretty sorting.
Import ListNotations.
Local Open Scope string_scope.
Local Open Scope Z_scope.

(** ** Python strings *)
Module PyStr.

(** [str.isspace] on the code points below 256: TAB..CR, FS..US, SPACE,
    NEL and NBSP. *)
Definition isspace (c : ascii) : bool :=
  let n := N_of_ascii c in
  ((9 <=? n) && (n <=? 13))%N || ((28 <=? n) && (n <=? 32))%N
  || (n =? 133)%N || (n =? 160)%N.

(** [s.split()] with no argument: maximal runs of non-space characters. *)
Fixpoint split (s : string) : list string :=
  match s with
  | EmptyString => []
  | String c s' =>
      if isspace c then split s'
      else
        match s' with
        | EmptyString => [String c EmptyString]
        | String c' _ =>
            if isspace c' then String c EmptyString :: split s'
            else
              match split s' with
              | w :: ws => String c w :: ws
              | [] => [String c EmptyString]
              end
        end
  end.

(** [s.lstrip()], [s.rstrip()] and [s.strip()]. *)
Fixpoint lstrip (s : string) : string :=
  match s with
  | EmptyString => EmptyString
  | String c s' => if isspace c then lstrip s' else s
  end.

Fixpoint rstrip (s : string) : string :=
  match s with
  | EmptyString => EmptyString
  | String c s' =>
      match rstrip s' with
      | EmptyString => if isspace c then EmptyString else String c EmptyString
      | r => String c r
      end
  end.

Definition strip (s : string) : string := rstrip (lstrip s).

(** The line feed, ["\n"]. *)
Definition LF : string := String (ascii_of_nat 10) EmptyString.

(** [sep.join(ls)]. *)
Definition join (sep : string) (ls : list string) : string :=
  String.concat sep ls.

(** [s.startswith(p)]. *)
Definition startswith (s p : string) : bool := String.prefix p s.

Definition is_upper (c : ascii) : bool :=
  let n := N_of_ascii c in ((65 <=? n) && (n <=? 90))%N.

Definition is_lower (c : ascii) : bool :=
  let n := N_of_ascii c in ((97 <=? n) && (n <=? 122))%N.

Definition lower_ascii (c : ascii) : ascii :=
  if is_upper c then ascii_of_N (N_of_ascii c + 32) else c.

Definition upper_ascii (c : ascii) : ascii :=
  if is_lower c then ascii_of_N (N_of_ascii c - 32) else c.

(** [s.lower()] and [s.upper()] on the ASCII letters. *)
Fixpoint lower (s : string) : string :=
  match s with
  | EmptyString => EmptyString
  | String c s' => String (lower_ascii c) (lower s')
  end.

Fixpoint upper (s : string) : string :=
  match s with
  | EmptyString => EmptyString
  | String c s' => String (upper_ascii c) (upper s')
  end.

(** [s.replace(a, b)] for single characters [a] and [b]. *)
Fixpoint replace (a b : ascii) (s : string) : string :=
  match s with
  | EmptyString => EmptyString
  | String c s' => String (if Ascii.eqb c a then b else c) (replace a b s')
  end.

(** [s.title()]: a letter that follows a non-letter is upper-cased,
    every other letter lower-cased. *)
Fixpoint title_from (after_letter : bool) (s : string) : string :=
  match s with
  | EmptyString => EmptyString
  | String c s' =>
      let letter := is_upper c || is_lower c in
      String (if after_letter then lower_ascii c else upper_ascii c)
        (title_from letter s')
  end.

Definition title (s : string) : string := title_from false s.

(** A word: non-empty and free of white space. *)
Fixpoint nospace (s : string) : bool :=
  match s with
  | EmptyString => true
  | String c s' => negb (isspace c) && nospace s'
  end.

Definition is_word (s : string) : bool :=
  negb (String.eqb s EmptyString) && nospace s.

End PyStr.

(** ** Text fitter (image_generator.py) *)
Module TextFit.

Definition FONT_PATH : string :=
  "/usr/share/fonts/truetype/dejavu/DejaVuSans-Bold.ttf".

(** [ImageFont.truetype(font_path, font_size)]: a face at a point size. *)
Record Font := truetype { font_path : string; font_size : Z }.

Section Metrics.

(** [font.getsize(text)]: the glyph metrics of the font file, as
    (width, height) of the text rendered on a single line. *)
Variable getsize : Font -> string -> Z * Z.

(** The loop condition of [fit_text_to_width] at a size. *)
Definition too_wide (text : string) (max_width : Z) (path : string)
    (size : Z) : bool :=
  (fst (getsize (truetype path size) text) >? max_width) && (size >? 10).

(** The [while] loop of [fit_text_to_width], unrolled at most [fuel]
    times; [width_loop_exit] below shows that with the fuel given by
    [fit_text_to_width] it always leaves through its condition. *)
Fixpoint width_loop (fuel : nat) (text : string) (max_width : Z)
    (path : string) (size : Z) : Z :=
  match fuel with
  | O => size
  | S fuel' =>
      if (fst (getsize (truetype path size) text) >? max_width)
         && (size >? 10)
      then width_loop fuel' text max_width path (size - 1)
      else size
  end.

Definition fit_text_to_width (text : string) (max_width : Z)
    (path : string) (max_font_size : Z) : string * Font :=
  let size :=
    width_loop (Z.to_nat (max_font_size - 10)) text max_width path
      max_font_size in
  (text, truetype path size).

(** The [for word in words] loop: greedy filling of the current line. *)
Fixpoint wrap_loop (font : Font) (max_width : Z) (words : list string)
    (temp_lines : list string) (line : string) : list string * string :=
  match words with
  | [] => (temp_lines, line)
  | word :: rest =>
      let test_line := PyStr.strip (line +:+ " " +:+ word) in
      if fst (getsize font test_line) <=? max_width
      then wrap_loop font max_width rest temp_lines test_line
      else wrap_loop font max_width rest (temp_lines ++ [line]) word
  end.

Definition wrap_lines (font : Font) (max_width : Z) (words : list string)
  : list string :=
  let '(temp_lines, line) := wrap_loop font max_width words [] "" in
  temp_lines ++ [line].

Definition total_height (font : Font) (lines : list string) : Z :=
  fold_right Z.add 0 (map (fun line => snd (getsize font line)) lines).

(** The acceptance test of [fit_text_to_area] at a size. *)
Definition fits (words : list string) (max_width max_height : Z)
    (path : string) (size : Z) : bool :=
  total_height (truetype path size)
    (wrap_lines (truetype path size) max_width words) <=? max_height.

(** The [while font_size > 10] loop of [fit_text_to_area], unrolled at
    most [fuel] times; [lines] is the variable initialised to the empty
    list before the loop, rebound only on [break]. *)
Fixpoint area_loop (fuel : nat) (words : list string) (max_width max_height : Z)
    (path : string) (size : Z) (lines : list string) : list string * Z :=
  match fuel with
  | O => (lines, size)
  | S fuel' =>
      if size >? 10 then
        let font := truetype path size in
        let temp_lines := wrap_lines font max_width words in
        if total_height font temp_lines <=? max_height
        then (temp_lines, size)
        else area_loop fuel' words max_width max_height path (size - 1) lines
      else (lines, size)
  end.

Definition fit_text_to_area (text : string) (max_width max_height : Z)
    (path : string) (max_font_size : Z) : string * Font :=
  let words := PyStr.split text in
  let '(lines, size) :=
    area_loop (Z.to_nat (max_font_size - 10)) words max_width max_height
      path max_font_size [] in
  (PyStr.join PyStr.LF lines, truetype path size).

End Metrics.

(** A fixed-pitch face used in examples: every glyph is [font_size] wide
    and every line [font_size] high. *)
Definition mono_getsize (font : Font) (text : string) : Z * Z :=
  (font_size font * Z.of_nat (String.length text), font_size font).

End TextFit.

(** ** Exceptions and the world the program acts on *)
Module Py.

Inductive exn :=
| ValueError | TypeError | KeyError | IndexError | AttributeError | NameError
| OSError | UnidentifiedImageError | RequestException | OverflowError.

(** The outcome of a Python call: a value, or a raised exception. *)
Inductive result (A : Type) :=
| Ok (a : A)
| Raise (e : exn).
Arguments Ok {A} a.
Arguments Raise {A} e.

Definition is_ok {A} (r : result A) : bool :=
  match r with Ok _ => true | Raise _ => false end.

#[local] Set Warnings "-register-all".

(** JSON-shaped values: what [json.load] returns and what the weather
    client builds.  Floats are idealised as rationals. *)
Inductive pyval :=
| PyNone
| PyBool (b : bool)
| PyInt (n : Z)
| PyFloat (q : Q)
| PyStr (s : string)
| PyList (l : list pyval)
| PyDict (d : list (string * pyval)).

Definition pydict := list (string * pyval).

(** [d[k]] on a dict held as an association list (first binding wins). *)
Fixpoint lookup (d : pydict) (k : string) : option pyval :=
  match d with
  | [] => None
  | (k', v) :: d' => if String.eqb k' k then Some v else lookup d' k
  end.

(** [v.get(k, default)]: only dicts have [get]. *)
Definition get (v : pyval) (k : string) (default : pyval) : result pyval :=
  match v with
  | PyDict d => Ok (match lookup d k with Some x => x | None => default end)
  | _ => Raise AttributeError
  end.

(** [len(v)]. *)
Definition len (v : pyval) : result Z :=
  match v with
  | PyStr s => Ok (Z.of_nat (String.length s))
  | PyList l => Ok (Z.of_nat (List.length l))
  | PyDict d => Ok (Z.of_nat (List.length d))
  | _ => Raise TypeError
  end.

End Py.
Export Py(result, Ok, Raise, exn, pyval).

(** ** Raster images (the part of Pillow the program uses) *)
Module PIL.

Import TextFit.

Definition color := (Z * Z * Z)%type.
Definition raster := Z -> Z -> color.

(** An image is its mode, its size and its pixels.  Mode "P" stores one
    byte per pixel, an index into a palette given as a flat list of
    channel values; "RGBA" carries an alpha channel beside the colour. *)
Inductive Image :=
| RGBImage (size : Z * Z) (px : raster)
| RGBAImage (size : Z * Z) (px : raster) (alpha : Z -> Z -> Z)
| PImage (size : Z * Z) (palette : list Z) (ix : Z -> Z -> Byte.byte).

Definition size (im : Image) : Z * Z :=
  match im with
  | RGBImage sz _ | RGBAImage sz _ _ | PImage sz _ _ => sz
  end.

Definition mode (im : Image) : string :=
  match im with
  | RGBImage _ _ => "RGB"
  | RGBAImage _ _ _ => "RGBA"
  | PImage _ _ _ => "P"
  end.

(** The colour a palette holds at an index. *)
Definition palette_color (palette : list Z) (i : Z) : color :=
  (nth (Z.to_nat (3 * i)) palette 0,
   nth (Z.to_nat (3 * i + 1)) palette 0,
   nth (Z.to_nat (3 * i + 2)) palette 0).

Definition index_of (b : Byte.byte) : Z := Z.of_N (Byte.to_N b).

(** [im.getpixel((x, y))] seen as a colour. *)
Definition getcolor (im : Image) (x y : Z) : color :=
  match im with
  | RGBImage _ px | RGBAImage _ px _ => px x y
  | PImage _ palette ix => palette_color palette (index_of (ix x y))
  end.

(** [Image.new("RGB", size, color)]. *)
Definition new (sz : Z * Z) (c : color) : Image :=
  RGBImage sz (fun _ _ => c).

(** [im.convert("RGB")]. *)
Definition convert_RGB (im : Image) : Image :=
  RGBImage (size im) (getcolor im).

Definition inside (sz : Z * Z) (x y : Z) : bool :=
  (0 <=? x) && (x <? fst sz) && (0 <=? y) && (y <? snd sz).

(** [dst.paste(src, (x0, y0))] without a mask, on pixel contents. *)
Definition paste (dst : raster) (src : Image) (at_ : Z * Z) : raster :=
  fun x y =>
    if inside (size src) (x - fst at_) (y - snd at_)
    then getcolor src (x - fst at_) (y - snd at_)
    else dst x y.

(** [im.rotate(-90, expand=True)]: a quarter turn clockwise; the canvas
    grows to the swapped size. *)
Definition rotate_minus90_expand (im : Image) : Image :=
  let '(w, h) := size im in
  RGBImage (h, w) (fun x y => getcolor im y (h - 1 - x)).

(** The Pillow kernels whose arithmetic the program does not fix: glyph
    metrics and rasterisation, shape drawing, alpha compositing,
    resampling, colour quantisation, EXIF handling and SVG loading. *)
Record Pillow := {
  getsize : Font -> string -> Z * Z;
  textlength : Font -> string -> Z;
  textbbox : Font -> string -> Z * Z * Z * Z;
  draw_text : raster -> Z * Z -> string -> Font -> color -> string -> raster;
  draw_multiline_text : raster -> Z * Z -> string -> Font -> color -> raster;
  draw_rectangle :
    raster -> Z * Z * Z * Z -> option color -> option color -> Z -> raster;
  paste_mask : raster -> Image -> Z * Z -> raster;
  resize : Image -> Z * Z -> result raster;
  resize_P : Z * Z -> (Z -> Z -> Byte.byte) -> Z * Z -> Z -> Z -> Byte.byte;
  quantize : list Z -> Z * Z -> raster -> Z -> Z -> Byte.byte;
  exif_transpose : Image -> result Image;
  svg2png : string -> Z -> option Image
}.

End PIL.

(** ** The world: debug directory, clock, panel *)
Module Sys.

Import PIL.

(** What the panel driver ([epd]) was asked to do. *)
Inductive EpdCall :=
| GetBuffer (frame : Image)
| Display (frame : Image).

Record World := {
  tmp_dir : gset string;      (* names of the files in ./tmp/generated *)
  clock : nat -> string -> string; (* n-th reading of the clock, formatted *)
  reads : nat;                (* readings consumed so far *)
  epd : list EpdCall;         (* calls on the panel driver, latest first *)
  naps : list Z               (* time.sleep durations, latest first *)
}.

(** A computation that reads and changes the world and may raise; the
    changes made before an exception stay. *)
Definition M (A : Type) : Type := World -> result A * World.

Definition ret {A} (a : A) : M A := fun w => (Ok a, w).

Definition raise {A} (e : exn) : M A := fun w => (Raise e, w).

Definition bind {A B} (m : M A) (k : A -> M B) : M B :=
  fun w =>
    match m w with
    | (Ok a, w') => k a w'
    | (Raise e, w') => (Raise e, w')
    end.

Definition lift {A} (r : result A) : M A := fun w => (r, w).

(** [try: m  except Exception as e: handler]. *)
Definition try_except {A} (m : M A) (handler : exn -> M A) : M A :=
  fun w =>
    match m w with
    | (Ok a, w') => (Ok a, w')
    | (Raise e, w') => handler e w'
    end.

(** [time.strftime(format)] and [datetime.now().strftime(format)]. *)
Definition strftime (format : string) : M string :=
  fun w =>
    (Ok (clock w (reads w) format),
     {| tmp_dir := tmp_dir w; clock := clock w; reads := S (reads w);
        epd := epd w; naps := naps w |}).

Definition set_tmp_dir (d : gset string) : M unit :=
  fun w =>
    (Ok tt,
     {| tmp_dir := d; clock := clock w; reads := reads w;
        epd := epd w; naps := naps w |}).

Definition listdir : M (gset string) := fun w => (Ok (tmp_dir w), w).

Definition epd_call (c : EpdCall) : M unit :=
  fun w =>
    (Ok tt,
     {| tmp_dir := tmp_dir w; clock := clock w; reads := reads w;
        epd := c :: epd w; naps := naps w |}).

(** The longest sleep that fits the nanosecond clock of the
    interpreter: (2^63 - 1) / 10^9 seconds. *)
Definition MAX_SLEEP : Z := 9223372036.

(** [time.sleep(seconds)] on an [int]: the length is first converted
    to nanoseconds, an [OverflowError] when it does not fit the clock;
    a negative length is then a [ValueError]. *)
Definition sleep (seconds : Z) : M unit :=
  fun w =>
    if (seconds <? - MAX_SLEEP) || (MAX_SLEEP <? seconds)
    then (Raise Py.OverflowError, w)
    else if seconds <? 0 then (Raise Py.ValueError, w)
    else
      (Ok tt,
       {| tmp_dir := tmp_dir w; clock := clock w; reads := reads w;
          epd := epd w; naps := seconds :: naps w |}).

End Sys.

Declare Scope sys_scope.
Delimit Scope sys_scope with sys.
Notation "'do' x <- m ; k" := (Sys.bind m (fun x => k))
  (at level 10, x name, m at level 100, k at level 200) : sys_scope.
Notation "'run' m ; k" := (Sys.bind m (fun _ => k))
  (at level 10, m at level 100, k at level 200) : sys_scope.

Declare Scope result_scope.
Delimit Scope result_scope with res.
Notation "'do' x <- r ; k" :=
  (match r with Ok x => k | Raise e => Raise e end)
  (at level 10, x name, r at level 100, k at level 200) : result_scope.

(** ** Image generation (image_generator.py) *)
Module ImageGen.

Import PIL Sys TextFit.

Definition DISPLAY_WIDTH : Z := 600.
Definition DISPLAY_HEIGHT : Z := 400.
Definition IMG_WIDTH : Z := 600.
Definition IMG_HEIGHT : Z := 338.
Definition FONT_SIZE : Z := 26.
Definition MAX_IMAGES : nat := 10.
Definition ICON_SIZE : Z := 40.
Definition ICON_DIR : string := "./assets/icons/".

(** [sorted(names, reverse=True)]: insertion into a descending list. *)
Fixpoint insert_desc (x : string) (l : list string) : list string :=
  match l with
  | [] => [x]
  | y :: l' => if String.leb y x then x :: l else y :: insert_desc x l'
  end.

Definition sorted_reverse (l : list string) : list string :=
  fold_right insert_desc [] l.

(** Names in descending order. *)
Definition desc (a b : string) : Prop := String.leb b a = true.

(** The files [cleanup_old_images] considers, newest name first. *)
Definition images_of (image_type : string) (dir : gset string) : list string :=
  sorted_reverse
    (List.filter (fun f => PyStr.startswith f image_type) (elements dir)).

(** [os.remove] of each name in turn. *)
Definition remove_all (old : list string) (dir : gset string) : gset string :=
  fold_left (fun d old_image => d ∖ {[old_image]}) old dir.

Definition cleanup_dir (image_type : string) (dir : gset string) : gset string :=
  let images := images_of image_type dir in
  if (MAX_IMAGES <? List.length images)%nat
  then remove_all (drop MAX_IMAGES images) dir
  else dir.

Definition cleanup_old_images (image_type : string) : M unit :=
  (do dir <- listdir;
   set_tmp_dir (cleanup_dir image_type dir))%sys.

(** The palette handed to [putpalette]: six colours, then
    [[0, 0, 0] * 250]. *)
Definition six_colors : list color :=
  [(0, 0, 0); (255, 255, 255); (255, 255, 0);
   (255, 0, 0); (0, 0, 255); (0, 255, 0)].

Definition palette_6color : list Z :=
  [0; 0; 0;  255; 255; 255;  255; 255; 0;
   255; 0; 0;  0; 0; 255;  0; 255; 0]
  ++ List.concat (repeat [0; 0; 0] 250).

Section Rendering.

Variable pil : Pillow.

Definition convert_to_6color (image : Image) : Image :=
  let rgb := convert_RGB image in
  PImage (size rgb) palette_6color
    (quantize pil palette_6color (size rgb) (getcolor rgb)).

Definition image_name (image_type timestamp : string) : string :=
  image_type +:+ "_" +:+ timestamp +:+ ".png".

(** The effect of [save_image] on the directory, given the clock
    reading. *)
Definition store (image_type timestamp : string) (dir : gset string)
  : gset string :=
  cleanup_dir image_type ({[image_name image_type timestamp]} ∪ dir).

(** Stores made one after the other at the given clock readings. *)
Definition store_all (kind : string) (timestamps : list string)
    (dir : gset string) : gset string :=
  fold_left (fun d t => store kind t d) timestamps dir.

(** The files of a kind in a directory, and the names a run of stores
    writes, as sets. *)
Definition kept (kind : string) (dir : gset string) : gset string :=
  list_to_set (images_of kind dir).

Definition names (kind : string) (timestamps : list string) : gset string :=
  list_to_set (map (image_name kind) timestamps).

Definition save_image (image : Image) (image_type : string) : M Image :=
  (do timestamp <- strftime "%Y%m%d-%H%M%S";
   let image_path := image_name image_type timestamp in
   let image := convert_to_6color image in
   do dir <- listdir;
   run set_tmp_dir ({[image_path]} ∪ dir);
   run cleanup_old_images image_type;
   ret image)%sys.

End Rendering.

End ImageGen.

(** ** Floating point (numpy.float64) *)
Module F64.

(** A double: a finite one is the rational it denotes ([Finite 0] is
    +0.0), the others are -0.0, NaN and the two infinities. *)
Inductive float64 :=
| Finite (q : Q)
| NegZero
| NaN
| PosInf
| NegInf.

(** The nearest integer, ties to even ([rint], and [round(x)]). *)
Definition round_half_even (q : Q) : Z :=
  let n := Qfloor q in
  match Qcompare (q - inject_Z n) (1 # 2) with
  | Lt => n
  | Gt => n + 1
  | Eq => if Z.even n then n else n + 1
  end.

(** 2^e. *)
Definition pow2 (e : Z) : Q :=
  if 0 <=? e then inject_Z (2 ^ e) else 1 # Z.to_pos (2 ^ (- e)).

(** The binary exponent of a positive rational: the e with
    2^e <= a < 2^(e+1). *)
Definition ilog2 (a : Q) : Z :=
  let e := Z.log2 (Qnum a) - Z.log2 (Zpos (Qden a)) in
  if Qle_bool (pow2 e) a then e else e - 1.

(** A positive rational rounded to the nearest double, ties to even:
    53 bits of precision, steps of 2^-1074 at the bottom of the range,
    overflow ([None]) from 2^1024 on. *)
Definition round_to_double (a : Q) : option Q :=
  let quantum := pow2 (Z.max (ilog2 a - 52) (- 1074)) in
  let v := Qred (inject_Z (round_half_even (a / quantum)) * quantum) in
  if Qle_bool (pow2 1024) v then None else Some v.

(** The double nearest to an exact result. *)
Definition rnd (q : Q) : float64 :=
  match Qcompare q 0 with
  | Eq => Finite 0
  | Gt =>
      match round_to_double q with
      | Some v => Finite v
      | None => PosInf
      end
  | Lt =>
      match round_to_double (- q) with
      | Some v => if Qeq_bool v 0 then NegZero else Finite (Qred (- v))
      | None => NegInf
      end
  end.

Definition negative (x : float64) : bool :=
  match x with
  | Finite q => negb (Qle_bool 0 q)
  | NegZero | NegInf => true
  | NaN | PosInf => false
  end.

Definition is_zero (x : float64) : bool :=
  match x with
  | Finite q => Qeq_bool q 0
  | NegZero => true
  | _ => false
  end.

Definition infinite (x : float64) : bool :=
  match x with PosInf | NegInf => true | _ => false end.

(** Neither NaN nor infinite. *)
Definition finite (x : float64) : bool :=
  match x with Finite _ | NegZero => true | _ => false end.

Definition value (x : float64) : Q :=
  match x with Finite q => q | _ => 0 end.

Definition signed_zero (minus : bool) : float64 :=
  if minus then NegZero else Finite 0.

Definition signed_inf (minus : bool) : float64 :=
  if minus then NegInf else PosInf.

(** [x - y]. *)
Definition sub (x y : float64) : float64 :=
  match x, y with
  | NaN, _ | _, NaN => NaN
  | PosInf, PosInf | NegInf, NegInf => NaN
  | PosInf, _ | _, NegInf => PosInf
  | NegInf, _ | _, PosInf => NegInf
  | NegZero, NegZero => Finite 0
  | NegZero, Finite q => if Qeq_bool q 0 then NegZero else rnd (- q)
  | Finite p, NegZero => rnd p
  | Finite p, Finite q => rnd (p - q)
  end.

(** [x * y]. *)
Definition mul (x y : float64) : float64 :=
  let minus := xorb (negative x) (negative y) in
  match x, y with
  | NaN, _ | _, NaN => NaN
  | _, _ =>
      if infinite x || infinite y
      then if is_zero x || is_zero y then NaN else signed_inf minus
      else if is_zero x || is_zero y then signed_zero minus
      else rnd (value x * value y)
  end.

(** [x / y]; dividing by zero gives an infinity or NaN, not an
    exception. *)
Definition div (x y : float64) : float64 :=
  let minus := xorb (negative x) (negative y) in
  match x, y with
  | NaN, _ | _, NaN => NaN
  | _, _ =>
      if infinite x then if infinite y then NaN else signed_inf minus
      else if infinite y then signed_zero minus
      else if is_zero y then if is_zero x then NaN else signed_inf minus
      else if is_zero x then signed_zero minus
      else rnd (value x / value y)
  end.

(** [numpy.rint(x)]. *)
Definition rint (x : float64) : float64 :=
  match x with
  | Finite q =>
      let n := round_half_even q in
      if n =? 0 then signed_zero (negative x) else Finite (inject_Z n)
  | _ => x
  end.

(** [round(x, 2)] on a [numpy.float64]: multiply by 100, round to an
    integer, divide by 100, each step in floating point. *)
Definition round2 (x : float64) : float64 :=
  div (rint (mul x (Finite 100))) (Finite 100).

(** [x > 0] and [x != 0]: every comparison with NaN is false, except
    [!=]. *)
Definition gt0 (x : float64) : bool :=
  match x with
  | Finite q => negb (Qle_bool q 0)
  | PosInf => true
  | _ => false
  end.

Definition ne0 (x : float64) : bool :=
  match x with
  | Finite q => negb (Qeq_bool q 0)
  | NegZero => false
  | _ => true
  end.

End F64.

(** ** Stock data producer (stock_ticker.py) *)
Module Stock.

Import F64.

(** A price is a number, or the text of the placeholder record. *)
Inductive Price :=
| PriceValue (x : float64)
| PriceText (s : string).

Record StockRecord := {
  symbol : string;
  current_price : Price;
  change : float64;
  percent_change : float64;
  direction : string
}.

Definition STOCK_SYMBOLS : list string :=
  ["RDDT"; "TSLA"; "MSFT"; "NVDA"; "TSM"; "AMZN"; "METV"; "META"; "CHPT";
   "TLRY"].

(** The column index of a table: text labels, or an index that has no
    text methods (the integer range of a table built without columns,
    numeric labels). *)
Inductive ColumnIndex :=
| TextLabels (labels : list string)
| OtherLabels (count : nat).

(** The table [yahoo_api_price] returns: a column index and rows whose
    cells are all doubles, so that a cell read through [iloc] is a
    [numpy.float64]. *)
Record DataFrame := { columns : ColumnIndex; rows : list (list float64) }.

(** What the quote service does for one symbol: raise, return no table,
    or return a table. *)
Inductive Response :=
| Fails (e : exn)
| NoFrame
| Frame (price_data : DataFrame).

Definition column_count (c : ColumnIndex) : nat :=
  match c with
  | TextLabels labels => List.length labels
  | OtherLabels count => count
  end.

(** [price_data.empty]: no rows or no columns. *)
Definition empty (df : DataFrame) : bool :=
  match rows df, column_count (columns df) with
  | [], _ | _, O => true
  | _, _ => false
  end.

(** [price_data.columns.str.lower()]: the [str] accessor exists only on
    an index of text labels. *)
Definition str_lower (c : ColumnIndex) : result (list string) :=
  match c with
  | TextLabels labels => Ok (map PyStr.lower labels)
  | OtherLabels _ => Raise Py.AttributeError
  end.

Fixpoint index_of (name : string) (cols : list string) : option nat :=
  match cols with
  | [] => None
  | c :: cols' =>
      if String.eqb c name then Some O
      else match index_of name cols' with Some i => Some (S i) | None => None end
  end.

(** [price_data.iloc[-k][name]] for k = 1, 2, when one column carries
    the name; a cell that is missing holds NaN. *)
Definition iloc_back (k : nat) (name : string) (cols : list string)
    (df : DataFrame) : float64 :=
  match index_of name cols with
  | Some i => nth i (nth (List.length (rows df) - k) (rows df) []) NaN
  | None => NaN
  end.

Definition placeholder (sym : string) : StockRecord :=
  {| symbol := sym; current_price := PriceText "No Data"; change := Finite 0;
     percent_change := Finite 0; direction := "" |}.

Definition quote (sym : string) (cols : list string) (price_data : DataFrame)
  : StockRecord :=
  let current := iloc_back 1 "close" cols price_data in
  let prev_close :=
    if (1 <? List.length (rows price_data))%nat
    then iloc_back 2 "close" cols price_data else current in
  let change := sub current prev_close in
  let percent_change :=
    if gt0 prev_close then mul (div change prev_close) (Finite 100)
    else Finite 0 in
  let direction := if gt0 change then "▲" else "▼" in
  {| symbol := sym; current_price := PriceValue (round2 current);
     change := round2 change; percent_change := round2 percent_change;
     direction := direction |}.

(** Several columns named "close": [iloc[-1]["close"]] is then a
    series, and its truth value in [prev_close > 0] is a [ValueError]. *)
Definition several_closes (cols : list string) : bool :=
  (1 <? List.length (List.filter (String.eqb "close") cols))%nat.

(** The validation of a table whose labels are lower-cased: rows,
    columns and a "close" column. *)
Definition valid (cols : list string) (price_data : DataFrame) : bool :=
  negb (empty price_data) && existsb (String.eqb "close") cols.

(** A response that passes the validation. *)
Definition usable (r : Response) : bool :=
  match r with
  | Frame price_data =>
      match str_lower (columns price_data) with
      | Ok cols => valid cols price_data
      | Raise _ => false
      end
  | _ => false
  end.

(** A response that makes the loop body raise. *)
Definition raises (r : Response) : bool :=
  match r with
  | Fails _ | NoFrame => true
  | Frame price_data =>
      match str_lower (columns price_data) with
      | Ok cols => valid cols price_data && several_closes cols
      | Raise _ => true
      end
  end.

(** The record appended for a symbol whose loop body ran through. *)
Definition record_of (yahoo : string -> Response) (sym : string)
  : StockRecord :=
  match yahoo sym with
  | Frame price_data =>
      if usable (yahoo sym)
      then quote sym
             (match str_lower (columns price_data) with
              | Ok cols => cols
              | Raise _ => []
              end) price_data
      else placeholder sym
  | _ => placeholder sym
  end.

(** The body of the [for symbol in STOCK_SYMBOLS] loop; the labels are
    lower-cased before [price_data] is validated. *)
Definition fetch_one (yahoo : string -> Response) (sym : string)
  : result StockRecord :=
  match yahoo sym with
  | Fails e => Raise e
  | NoFrame => Raise Py.AttributeError
  | Frame price_data =>
      (do cols <- str_lower (columns price_data);
       if valid cols price_data
       then if several_closes cols then Raise Py.ValueError
            else Ok (quote sym cols price_data)
       else Ok (placeholder sym))%res
  end.

Fixpoint fetch_loop (yahoo : string -> Response) (symbols : list string)
    (stock_info : list StockRecord) : result (list StockRecord) :=
  match symbols with
  | [] => Ok stock_info
  | sym :: rest =>
      match fetch_one yahoo sym with
      | Ok record => fetch_loop yahoo rest (stock_info ++ [record])
      | Raise e => Raise e
      end
  end.

(** [fetch_stock_data()] over a list of configured symbols: the whole
    loop sits in one [try]; any exception yields the empty list. *)
Definition fetch_symbols (symbols : list string) (yahoo : string -> Response)
  : list StockRecord :=
  match fetch_loop yahoo symbols [] with
  | Ok stock_info => stock_info
  | Raise _ => []
  end.

Definition fetch_stock_data : (string -> Response) -> list StockRecord :=
  fetch_symbols STOCK_SYMBOLS.

End Stock.

(** ** Body images (image_generator.py, continued) *)
Module Render.

Import PIL Sys TextFit ImageGen Stock.

Record NewsData := {
  title : string;
  summary : string;
  thumbnail_url : option string
}.

(** What [requests.get] followed by [raise_for_status] yields: a
    [RequestException], or a body that [Image.open] decodes or rejects. *)
Inductive HttpResponse :=
| RequestError
| Body (decoded : result Image).

Definition two_digits (d : Z) : string :=
  if d <? 10 then "0" +:+ pretty d else pretty d.

(** [f"{x:.2f}"] on the exact value of a finite number. *)
Definition format_2f (q : Q) : string :=
  let n := F64.round_half_even (Qabs q * 100) in
  (if Qlt_le_dec q 0 then "-" else "")
  +:+ pretty (n / 100) +:+ "." +:+ two_digits (n mod 100).

(** [f"{x:.2f}"] on a double. *)
Definition format_float (x : F64.float64) : string :=
  match x with
  | F64.Finite q => format_2f q
  | F64.NegZero => "-0.00"
  | F64.NaN => "nan"
  | F64.PosInf => "inf"
  | F64.NegInf => "-inf"
  end.

(** [f"{stock['current_price']:.2f}"]: the format code [f] is not
    defined for [str]. *)
Definition format_price (p : Price) : result string :=
  match p with
  | PriceValue x => Ok (format_float x)
  | PriceText _ => Raise Py.ValueError
  end.

(** A weather record without a forecast field, or whose forecast has
    fewer than three entries. *)
Definition short_forecast (weather_data : Py.pydict) : bool :=
  match Py.lookup weather_data "forecast" with
  | None => true
  | Some forecast =>
      match Py.len forecast with
      | Ok n => n <? 3
      | Raise _ => false
      end
  end.

(** The text ["°F"]: the degree sign is code point 176. *)
Definition DEGREE_F : string := String (ascii_of_nat 176) "F".

Definition WHITE : color := (255, 255, 255).
Definition BLACK : color := (0, 0, 0).

Section Rendering.

Variable pil : Pillow.

(** The body of [for index, stock in enumerate(stock_data[:10])]. *)
Fixpoint stock_loop (index : Z) (stocks : list StockRecord) (canvas : raster)
  : result raster :=
  match stocks with
  | [] => Ok canvas
  | stock :: rest =>
      let font := truetype FONT_PATH FONT_SIZE in
      let num_rows := 5 in
      let num_columns := 2 in
      let padding := 20 in
      let column_width := (IMG_WIDTH - padding * (num_columns + 1)) / num_columns in
      let row_height := (IMG_HEIGHT - padding * (num_rows + 1)) / num_rows in
      let col := index mod num_columns in
      let row := index / num_columns in
      if row >=? num_rows then Ok canvas
      else
        let x_position := padding + col * (column_width + padding) in
        let y_position := padding + row * (row_height + padding) in
        let canvas :=
          draw_text pil canvas (x_position, y_position) (symbol stock) font
            WHITE "la" in
        (do price_text <- format_price (current_price stock);
         let price_color :=
           if F64.gt0 (change stock) then (0, 255, 0) else (255, 0, 0) in
         let canvas :=
           draw_text pil canvas (x_position + 150, y_position) price_text font
             price_color "la" in
         let canvas :=
           if F64.ne0 (change stock)
           then draw_text pil canvas (x_position + 250, y_position)
                  (format_float (change stock)) font WHITE "la"
           else canvas in
         stock_loop (index + 1) rest canvas)%res
  end.

Definition generate_stock_image (stock_data : list StockRecord)
  : M (option Image) :=
  match stock_data with
  | [] => ret None
  | _ =>
      (do canvas <- lift (stock_loop 0 (take 10 stock_data) (fun _ _ => BLACK));
       do image <- save_image pil (RGBImage (IMG_WIDTH, IMG_HEIGHT) canvas) "stock";
       ret (Some image))%sys
  end.

(** Step 2 of [generate_news_image]: only [RequestException] is caught. *)
Definition paste_thumbnail (http_get : string -> HttpResponse)
    (news_data : NewsData) (image_y_position : Z) (canvas : raster)
  : result raster :=
  let padding := 20 in
  let image_size := (250, 150) in
  match thumbnail_url news_data with
  | None => Ok canvas
  | Some url =>
      if String.eqb url "" then Ok canvas
      else
        match http_get url with
        | RequestError => Ok canvas
        | Body decoded =>
            (do opened <- decoded;
             do px <- resize pil (convert_RGB opened) image_size;
             Ok (paste canvas (RGBImage image_size px)
                   (padding, image_y_position)))%res
        end
  end.

Definition generate_news_image (http_get : string -> HttpResponse)
    (news_data : option NewsData) : M (option Image) :=
  match news_data with
  | None => ret None
  | Some news_data =>
      let canvas : raster := fun _ _ => BLACK in
      let headline_font_size := FONT_SIZE * 2 in
      let padding := 20 in
      let image_size := (250, 150) in
      let headline := title news_data in
      let '(fitted_headline, headline_font) :=
        fit_text_to_width (getsize pil) headline (DISPLAY_WIDTH - 2 * padding)
          FONT_PATH headline_font_size in
      let '(headline_width, headline_height) :=
        getsize pil headline_font fitted_headline in
      let headline_x := (DISPLAY_WIDTH - headline_width) / 2 in
      let canvas :=
        draw_text pil canvas (headline_x, padding) fitted_headline
          headline_font WHITE "la" in
      let image_y_position := padding + headline_height + 10 in
      (do canvas <-
         lift (paste_thumbnail http_get news_data image_y_position canvas);
       let summary_x_start := padding + fst image_size + 20 in
       let summary_y_start := image_y_position in
       let max_summary_width := DISPLAY_WIDTH - summary_x_start - padding in
       let max_summary_height := DISPLAY_HEIGHT - image_y_position - padding in
       let '(fitted_summary, summary_font) :=
         fit_text_to_area (getsize pil) (summary news_data) max_summary_width
           max_summary_height FONT_PATH (FONT_SIZE - 6) in
       let canvas :=
         draw_multiline_text pil canvas (summary_x_start, summary_y_start)
           fitted_summary summary_font (200, 200, 200) in
       do image <-
         save_image pil (RGBImage (DISPLAY_WIDTH, DISPLAY_HEIGHT) canvas) "news";
       ret (Some image))%sys
  end.


(** [str(v)] as used by f-strings, a Python built-in. *)
Variable py_format : pyval -> string.

(** A value passed where Pillow needs text. *)
Definition as_text (v : pyval) : result string :=
  match v with
  | Py.PyStr t => Ok t
  | _ => Raise Py.TypeError
  end.

(** A value on which a [str] method is called. *)
Definition as_str (v : pyval) : result string :=
  match v with
  | Py.PyStr t => Ok t
  | _ => Raise Py.AttributeError
  end.

Definition load_svg_icon (icon_name : string) : option Image :=
  svg2png pil (ICON_DIR +:+ icon_name) ICON_SIZE.

Definition moon_phase_map : list (string * string) :=
  [("FIRST_QUARTER", "first-quarter.svg"); ("FULL_MOON", "full-moon.svg");
   ("LAST_QUARTER", "last-quarter.svg"); ("NEW_MOON", "new-moon.svg");
   ("WANING_CRESCENT", "waning-crescent.svg");
   ("WANING_GIBBOUS", "waning-gibbous.svg");
   ("WAXING_CRESCENT", "waxing-crescent.svg");
   ("WAXING_GIBBOUS", "waxing-gibbous.svg")].

Fixpoint map_get (m : list (string * string)) (k default : string) : string :=
  match m with
  | [] => default
  | (k', v) :: m' => if String.eqb k' k then v else map_get m' k default
  end.

Definition bbox_width (b : Z * Z * Z * Z) : Z :=
  let '(x0, _, x1, _) := b in x1 - x0.

(** One forecast column: the body of [for i, day in enumerate(...)]. *)
Definition weather_column (i : Z) (day : pyval) (canvas : raster)
  : result raster :=
  let small_font := truetype FONT_PATH (FONT_SIZE - 4) in
  let moon_font := truetype FONT_PATH 14 in
  let day_font := truetype FONT_PATH 28 in
  let num_columns := 3 in
  let col_width := (IMG_WIDTH - 80) / num_columns in
  let col_spacing := 20 in
  let total_table_width := col_width * num_columns + col_spacing * (num_columns - 1) in
  let table_start_x := (IMG_WIDTH - total_table_width) / 2 in
  let x_pos := table_start_x + i * (col_width + col_spacing) in
  let column_center := x_pos + col_width / 2 in
  let box := (x_pos, 40, x_pos + col_width, IMG_HEIGHT - 10) in
  let canvas := draw_rectangle pil canvas box None (Some BLACK) 2 in
  let canvas := draw_rectangle pil canvas box (Some (135, 206, 235)) None 1 in
  (do day_value <- Py.get day "date" (Py.PyStr "Unknown");
   do day_text <- as_text day_value;
   let day_width := bbox_width (textbbox pil day_font day_text) in
   let canvas :=
     draw_text pil canvas (column_center - day_width / 2, 50) day_text
       day_font BLACK "la" in
   do high <- Py.get day "high_temp" (Py.PyStr "N/A");
   do low <- Py.get day "low_temp" (Py.PyStr "N/A");
   let high_temp_text := "H: " +:+ py_format high +:+ DEGREE_F in
   let low_temp_text := "L: " +:+ py_format low +:+ DEGREE_F in
   let temp_width := bbox_width (textbbox pil small_font high_temp_text) in
   let canvas :=
     draw_text pil canvas (column_center - temp_width / 2, 90)
       high_temp_text small_font (255, 0, 0) "la" in
   let canvas :=
     draw_text pil canvas (column_center - temp_width / 2, 120)
       low_temp_text small_font (0, 0, 255) "la" in
   (* [sunrise_x] is bound only when the icon loaded *)
   do sunrise_icon <-
     match load_svg_icon "sunrise.svg" with
     | Some icon => Ok icon
     | None => Raise Py.NameError
     end;
   let sunrise_x := x_pos + 10 in
   let canvas := paste_mask pil canvas sunrise_icon (sunrise_x, 160) in
   do sunrise_value <- Py.get day "sunrise" (Py.PyStr "N/A");
   do sunrise_text <- as_text sunrise_value;
   let canvas :=
     draw_text pil canvas (sunrise_x + ICON_SIZE + 5, 170) sunrise_text
       small_font (255, 69, 0) "la" in
   do sunset_icon <-
     match load_svg_icon "sunset.svg" with
     | Some icon => Ok icon
     | None => Raise Py.NameError
     end;
   let sunset_x := x_pos + 10 in
   let canvas := paste_mask pil canvas sunset_icon (sunset_x, 200) in
   do sunset_value <- Py.get day "sunset" (Py.PyStr "N/A");
   do sunset_text <- as_text sunset_value;
   let canvas :=
     draw_text pil canvas (sunset_x + ICON_SIZE + 5, 210) sunset_text
       small_font (102, 51, 153) "la" in
   do moon_value <- Py.get day "moon_phase" (Py.PyStr "");
   do moon_str <- as_str moon_value;
   do first_word <-
     match PyStr.split moon_str with
     | w :: _ => Ok w
     | [] => Raise Py.IndexError
     end;
   let moon_phase_name := PyStr.replace " " "_" (PyStr.upper first_word) in
   let canvas :=
     match load_svg_icon (map_get moon_phase_map moon_phase_name "unknown.svg") with
     | Some icon =>
         paste_mask pil canvas icon (column_center - ICON_SIZE / 2, 240)
     | None => canvas
     end in
   do moon_value' <- Py.get day "moon_phase" (Py.PyStr "Unknown");
   do moon_str' <- as_str moon_value';
   let moon_phase_text := PyStr.title (PyStr.replace "_" " " moon_str') in
   let moon_text_width := bbox_width (textbbox pil moon_font moon_phase_text) in
   Ok (draw_text pil canvas (column_center - moon_text_width / 2, 290)
         moon_phase_text moon_font BLACK "la"))%res.

Fixpoint weather_loop (i : Z) (days : list pyval) (canvas : raster)
  : result raster :=
  match days with
  | [] => Ok canvas
  | day :: rest =>
      (do canvas <- weather_column i day canvas;
       weather_loop (i + 1) rest canvas)%res
  end.

(** [weather_data["forecast"][:3]], as the sequence the loop walks. *)
Definition first_three (forecast : pyval) : result (list pyval) :=
  match forecast with
  | Py.PyList l => Ok (take 3 l)
  | Py.PyStr t =>
      Ok (map (fun c => Py.PyStr (String c EmptyString))
            (take 3 (list_ascii_of_string t)))
  | _ => Raise Py.TypeError
  end.

Definition weather_canvas (forecast : pyval) : result raster :=
  let font := truetype FONT_PATH FONT_SIZE in
  let canvas : raster := fun _ _ => WHITE in
  let title_text := "3-Day Forecast" in
  let title_width := bbox_width (textbbox pil font title_text) in
  let canvas :=
    draw_text pil canvas ((IMG_WIDTH - title_width) / 2, 10) title_text font
      BLACK "la" in
  (do days <- first_three forecast;
   weather_loop 0 days canvas)%res.

Definition generate_weather_image (weather_data : Py.pydict)
  : M (option Image) :=
  match Py.lookup weather_data "forecast" with
  | None => ret None
  | Some forecast =>
      (do n <- lift (Py.len forecast);
       if n <? 3 then ret None
       else
         try_except
           (do canvas <- lift (weather_canvas forecast);
            do image <-
              save_image pil (RGBImage (IMG_WIDTH, IMG_HEIGHT) canvas) "weather";
            ret (Some image))
           (fun _ => ret None))%sys
  end.

End Rendering.

End Render.

(** ** Frame compositor (display_manager.py) *)
Module Display.

Import PIL Sys TextFit.

Definition DISPLAY_WIDTH : Z := 600.
Definition DISPLAY_HEIGHT : Z := 400.
Definition HEADER_HEIGHT : Z := 62.
Definition BODY_HEIGHT : Z := DISPLAY_HEIGHT - HEADER_HEIGHT.
Definition HEADER_FONT_SIZE : Z := 24.
Definition ICON_SIZE : Z := 48.
Definition ICON_PADDING : Z := 20.
Definition ICON_DIR : string := "./assets/icons/".

Definition condition_map : list (string * string) :=
  [("Clear", "clear-day.svg"); ("Sunny", "clear-day.svg");
   ("Partly cloudy", "cloudy-3-day.svg"); ("Cloudy", "cloudy.svg");
   ("Overcast", "cloudy.svg"); ("Rain", "rainy-3.svg");
   ("Light rain", "rainy-3-day.svg"); ("Heavy rain", "rainy-3-night.svg");
   ("Thunderstorm", "thunderstorms.svg"); ("Snow", "snowy-3.svg");
   ("Fog", "fog.svg"); ("Haze", "haze.svg"); ("Wind", "wind.svg")].

(** [condition_map.get(condition, "unknown.svg")] joined to the icon
    directory; lists and dicts cannot be used as keys. *)
Definition _get_weather_icon_path (condition : pyval) : result string :=
  match condition with
  | Py.PyStr c => Ok (ICON_DIR +:+ Render.map_get condition_map c "unknown.svg")
  | Py.PyList _ | Py.PyDict _ => Raise Py.TypeError
  | _ => Ok (ICON_DIR +:+ "unknown.svg")
  end.

(** Whether a text holds a line feed. *)
Fixpoint has_line_feed (s : string) : bool :=
  match s with
  | EmptyString => false
  | String c s' => Ascii.eqb c (ascii_of_nat 10) || has_line_feed s'
  end.

Section Compositor.

Variable pil : Pillow.
Variable py_format : pyval -> string.

Definition _load_svg_icon (icon_path : string) : option Image :=
  svg2png pil icon_path ICON_SIZE.

(** [draw.textlength(text, font)]: Pillow measures single lines only
    and raises [ValueError] on a text with a line feed. *)
Definition text_length (font : Font) (text : string) : result Z :=
  if has_line_feed text then Raise Py.ValueError
  else Ok (textlength pil font text).

(** The temperature text and the condition shown in the header. *)
Definition header_weather (weather_data : option Py.pydict)
  : result (string * pyval) :=
  match weather_data with
  | Some ((_ :: _) as d) =>
      match Py.lookup d "current" with
      | Some current =>
          (do t <- Py.get current "temperature" (Py.PyStr "N/A");
           do condition <- Py.get current "condition" (Py.PyStr "Unknown");
           Ok (py_format t +:+ Render.DEGREE_F, condition))%res
      | None => Ok ("N/A", Py.PyStr "Unknown")
      end
  | _ => Ok ("N/A", Py.PyStr "Unknown")
  end.

(** Whether the data-dependent steps of the header go through. *)
Definition header_ok (weather_data : option Py.pydict) : bool :=
  match header_weather weather_data with
  | Ok (temperature, condition) =>
      Py.is_ok (_get_weather_icon_path condition)
      && negb (has_line_feed temperature)
  | Raise _ => false
  end.

Definition _generate_header (weather_data : option Py.pydict) : M Image :=
  let header_font := truetype FONT_PATH HEADER_FONT_SIZE in
  let canvas : raster := fun _ _ => (0, 0, 0) in
  (do current_time <- strftime "%H:%M";
   do current_date <- strftime "%d %b %y";
   do tc <- lift (header_weather weather_data);
   let '(temperature, condition) := tc in
   do icon_path <- lift (_get_weather_icon_path condition);
   let weather_icon := _load_svg_icon icon_path in
   let padding := 10 in
   let text_y := HEADER_HEIGHT / 2 in
   let canvas :=
     draw_text pil canvas (padding, text_y) current_date header_font
       (255, 255, 255) "lm" in
   let canvas :=
     draw_text pil canvas (DISPLAY_WIDTH / 2, text_y) current_time header_font
       (255, 255, 255) "mm" in
   do temp_width <- lift (text_length header_font temperature);
   let total_width := ICON_SIZE + ICON_PADDING + temp_width in
   let right_x := DISPLAY_WIDTH - padding in
   let canvas :=
     draw_text pil canvas (right_x, text_y) temperature header_font
       (255, 255, 255) "rm" in
   let canvas :=
     match weather_icon with
     | Some icon =>
         let icon_x := right_x - total_width + ICON_SIZE / 2 in
         let icon_y := text_y - ICON_SIZE / 2 in
         paste_mask pil canvas icon (icon_x, icon_y)
     | None => canvas
     end in
   ret (RGBImage (DISPLAY_WIDTH, HEADER_HEIGHT) canvas))%sys.

(** [image.resize(size, Image.LANCZOS)]: palette images are resampled on
    their indices and keep their palette. *)
Definition resize_image (image : Image) (sz : Z * Z) : result Image :=
  match image with
  | PImage old palette ix => Ok (PImage sz palette (resize_P pil old ix sz))
  | _ => (do px <- resize pil image sz; Ok (RGBImage sz px))%res
  end.

Definition blank_body : Image := new (DISPLAY_WIDTH, BODY_HEIGHT) (0, 0, 0).

(** The [try] block of [_generate_body]. *)
Definition body_of (image : option Image) : result Image :=
  match image with
  | Some image =>
      (do image <- exif_transpose pil image;
       do image <- resize_image image (DISPLAY_WIDTH, BODY_HEIGHT);
       Ok (RGBImage (DISPLAY_WIDTH, BODY_HEIGHT)
             (paste (getcolor blank_body) image (0, 0))))%res
  | None => Ok blank_body
  end.

Definition _generate_body (image : option Image) : Image :=
  match body_of image with
  | Ok body => body
  | Raise _ => blank_body
  end.

Definition _generate_table (content : option Image)
    (weather_data : option Py.pydict) : M Image :=
  try_except
    (do header <- _generate_header weather_data;
     let display : raster := fun _ _ => (0, 0, 0) in
     let display := paste display header (0, 0) in
     let body := _generate_body content in
     let display := paste display body (0, HEADER_HEIGHT) in
     ret (rotate_minus90_expand
            (RGBImage (DISPLAY_WIDTH, DISPLAY_HEIGHT) display)))%sys
    (fun _ => ret (new (DISPLAY_WIDTH, DISPLAY_HEIGHT) (0, 0, 0))).

(** [f"{image_type}"]. *)
Definition type_text (image_type : option string) : string :=
  match image_type with Some t => t | None => "None" end.

(** [_cleanup_old_images], the copy of [cleanup_old_images] kept by the
    display manager (same directory, same limit of ten):
    [f.startswith(None)] is a [TypeError], raised at the first file the
    listing holds. *)
Definition _cleanup_old_images (image_type : option string) : M unit :=
  (do dir <- listdir;
   match image_type with
   | Some t => set_tmp_dir (ImageGen.cleanup_dir t dir)
   | None =>
       match elements dir with
       | [] => ret tt
       | _ :: _ => raise Py.TypeError
       end
   end)%sys.

Definition _save_debug_image (image : Image) (image_type : option string)
  : M unit :=
  (do timestamp <- strftime "%Y%m%d-%H%M%S";
   let image_path := ImageGen.image_name (type_text image_type) timestamp in
   do dir <- listdir;
   run set_tmp_dir ({[image_path]} ∪ dir);
   _cleanup_old_images image_type)%sys.

Definition display_image (content : option Image)
    (content_type : option string) (weather_data : option Py.pydict)
  : M unit :=
  try_except
    (do final_image <- _generate_table content weather_data;
     run _save_debug_image final_image content_type;
     run epd_call (GetBuffer final_image);
     epd_call (Display final_image))%sys
    (fun _ => ret tt).

End Compositor.

End Display.

(** ** Content scheduler (infoHUD.py) *)
Module Scheduler.

Import PIL Sys.

(** The settings read from the environment at start-up. *)
Record Config := {
  ENABLE_IMAGES : bool;
  ENABLE_STOCKS : bool;
  ENABLE_NEWS : bool;
  ENABLE_WEATHER : bool;
  IMAGE_DISPLAY_TIME : Z;
  STOCK_DISPLAY_TIME : Z;
  NEWS_DISPLAY_TIME : Z;
  WEATHER_DISPLAY_TIME : Z
}.

(** What the data sources answer when asked during one tick. *)
Record Feeds := {
  yahoo : string -> Stock.Response;      (* the quote service *)
  fetch_news : option Render.NewsData;   (* news_fetcher.fetch_news() *)
  http_get : string -> Render.HttpResponse;
  fetch_next_image : option Image;       (* image_fetcher.fetch_next_image() *)
  get_weather : Py.pydict                (* weather_fetcher.get_weather(LOCATION) *)
}.

(** The tuple [fetch_and_prepare_content] returns: two or three items. *)
Inductive Prepared :=
| Pair (content : option Image) (content_type : option string)
| Triple (content : option Image) (content_type : option string)
    (weather_data : Py.pydict).

Record State := {
  current_mode_index : nat;
  weather_data : option Py.pydict
}.

(** How a run of the loop over finitely many ticks ends. *)
Inductive Outcome :=
| Refused                      (* no display mode enabled: logged, returns *)
| Running (st : State)         (* still looping after the last tick *)
| Died (tick : nat) (e : exn). (* an exception left [main_loop] *)

Section Loop.

Variable pil : Pillow.
Variable py_format : pyval -> string.
Variable cfg : Config.

Definition truthy_dict (d : Py.pydict) : bool :=
  match d with [] => false | _ :: _ => true end.

Definition fetch_and_prepare_content (feeds : Feeds) (mode : string)
  : M Prepared :=
  let no_content := ret (Pair None None) in
  if String.eqb mode "stock" && ENABLE_STOCKS cfg then
    match Stock.fetch_stock_data (yahoo feeds) with
    | [] => no_content
    | stock_data =>
        (do stock_image <- Render.generate_stock_image pil stock_data;
         match stock_image with
         | Some im => ret (Pair (Some im) (Some "stock"))
         | None => no_content
         end)%sys
    end
  else if String.eqb mode "news" && ENABLE_NEWS cfg then
    match fetch_news feeds with
    | Some news_data =>
        (do news_image <-
           Render.generate_news_image pil (http_get feeds) (Some news_data);
         match news_image with
         | Some im => ret (Pair (Some im) (Some "news"))
         | None => no_content
         end)%sys
    | None => no_content
    end
  else if String.eqb mode "image" && ENABLE_IMAGES cfg then
    match fetch_next_image feeds with
    | Some raw_image => ret (Pair (Some raw_image) (Some "image"))
    | None => no_content
    end
  else if String.eqb mode "weather" && ENABLE_WEATHER cfg then
    let weather := get_weather feeds in
    if truthy_dict weather then
      (do weather_image <- Render.generate_weather_image pil py_format weather;
       match weather_image with
       | Some im => ret (Triple (Some im) (Some "weather") weather)
       | None => no_content
       end)%sys
    else no_content
  else no_content.

Definition display_modes : list string :=
  (if ENABLE_IMAGES cfg then ["image"] else [])
  ++ (if ENABLE_STOCKS cfg then ["stock"] else [])
  ++ (if ENABLE_NEWS cfg then ["news"] else [])
  ++ (if ENABLE_WEATHER cfg then ["weather"] else []).

(** [{...}.get(current_mode, 10)]. *)
Definition sleep_time (current_mode : string) : Z :=
  if String.eqb current_mode "image" then IMAGE_DISPLAY_TIME cfg
  else if String.eqb current_mode "stock" then STOCK_DISPLAY_TIME cfg
  else if String.eqb current_mode "news" then NEWS_DISPLAY_TIME cfg
  else if String.eqb current_mode "weather" then WEATHER_DISPLAY_TIME cfg
  else 10.

(** One pass through the body of [while True]. *)
Definition tick (feeds : Feeds) (st : State) : M State :=
  let current_mode := nth (current_mode_index st) display_modes "" in
  (do prepared <- fetch_and_prepare_content feeds current_mode;
   let '(content, content_type, weather) :=
     match prepared with
     | Triple c t w => (c, t, Some w)
     | Pair c t =>
         (c, t, if ENABLE_WEATHER cfg then weather_data st else None)
     end in
   run Display.display_image pil py_format content content_type weather;
   let next :=
     (S (current_mode_index st) mod List.length display_modes)%nat in
   run sleep (sleep_time current_mode);
   ret {| current_mode_index := next; weather_data := weather |})%sys.

Fixpoint ticks (n : nat) (feeds : list Feeds) (st : State) (w : World)
  : Outcome * World :=
  match feeds with
  | [] => (Running st, w)
  | f :: rest =>
      match tick f st w with
      | (Ok st', w') => ticks (S n) rest st' w'
      | (Raise e, w') => (Died n e, w')
      end
  end.

(** [main_loop] run for as many ticks as [feeds] is long; the first
    weather record is fetched before the loop. *)
Definition main_loop (initial_weather : Py.pydict) (feeds : list Feeds)
    (w : World) : Outcome * World :=
  match display_modes with
  | [] => (Refused, w)
  | _ :: _ =>
      ticks 0 feeds
        {| current_mode_index := 0; weather_data := Some initial_weather |} w
  end.

End Loop.

End Scheduler.

(** ** A small concrete Pillow, for running the model *)
Module Toy.

Import PIL Sys TextFit.

Definition sq (a : Z) : Z := a * a.

Definition distance (c d : color) : Z :=
  let '(r, g, b) := c in
  let '(r', g', b') := d in
  sq (r - r') + sq (g - g') + sq (b - b').

(** Index of the first palette entry nearest to a colour. *)
Fixpoint nearest (palette : list Z) (c : color) (i : N) (best : N * Z)
  : N :=
  match palette with
  | r :: g :: b :: rest =>
      let d := distance c (r, g, b) in
      nearest rest c (i + 1)%N (if d <? snd best then (i, d) else best)
  | _ => fst best
  end.

Definition to_byte (n : N) : Byte.byte :=
  match Byte.of_N n with Some b => b | None => Byte.x00 end.

Definition toy_quantize (palette : list Z) (_ : Z * Z) (px : raster)
    (x y : Z) : Byte.byte :=
  to_byte (nearest palette (px x y) 0%N (0%N, 3 * sq 256)).

(** Text drawn as a filled box of its metrics, anchored top-left. *)
Definition toy_draw_text (canvas : raster) (at_ : Z * Z) (text : string)
    (font : Font) (fill : color) (_ : string) : raster :=
  let '(w, h) := mono_getsize font text in
  fun x y =>
    if inside (w, h) (x - fst at_) (y - snd at_) then fill else canvas x y.

Definition toy_rectangle (canvas : raster) (box : Z * Z * Z * Z)
    (fill outline : option color) (_ : Z) : raster :=
  let '(x0, y0, x1, y1) := box in
  fun x y =>
    if (x0 <=? x) && (x <=? x1) && (y0 <=? y) && (y <=? y1)
    then match fill, outline with
         | Some c, _ => c
         | None, Some c =>
             if (x =? x0) || (x =? x1) || (y =? y0) || (y =? y1)
             then c else canvas x y
         | None, None => canvas x y
         end
    else canvas x y.

(** Nearest-neighbour resampling. *)
Definition toy_resize (im : Image) (sz : Z * Z) : result raster :=
  let '(w, h) := size im in
  if (0 <? fst sz) && (0 <? snd sz)
  then Ok (fun x y => getcolor im (x * w / fst sz) (y * h / snd sz))
  else Raise Py.ValueError.

Definition toy_resize_P (old : Z * Z) (ix : Z -> Z -> Byte.byte)
    (sz : Z * Z) (x y : Z) : Byte.byte :=
  ix (x * fst old / fst sz) (y * snd old / snd sz).

(** No icon files are installed. *)
Definition toy_pillow : Pillow :=
  {| getsize := mono_getsize;
     textlength := fun font text => fst (mono_getsize font text);
     textbbox := fun font text =>
       (0, 0, fst (mono_getsize font text), snd (mono_getsize font text));
     draw_text := toy_draw_text;
     draw_multiline_text := fun canvas at_ text font fill =>
       toy_draw_text canvas at_ text font fill "la";
     draw_rectangle := toy_rectangle;
     paste_mask := fun canvas icon at_ => paste canvas icon at_;
     resize := toy_resize;
     resize_P := toy_resize_P;
     quantize := toy_quantize;
     exif_transpose := fun im => Ok im;
     svg2png := fun _ _ => None |}.

(** [str(v)] on the scalars. *)
Definition toy_format (v : pyval) : string :=
  match v with
  | Py.PyNone => "None"
  | Py.PyBool true => "True"
  | Py.PyBool false => "False"
  | Py.PyInt n => pretty n
  | Py.PyStr s => s
  | _ => "?"
  end.

(** A clock stuck at one instant. *)
Definition frozen_clock (_ : nat) (format : string) : string :=
  if String.eqb format "%H:%M" then "12:00"
  else if String.eqb format "%d %b %y" then "01 Jan 25"
  else "20250101-120000".

Definition empty_world : World :=
  {| tmp_dir := ∅; clock := frozen_clock; reads := 0; epd := []; naps := [] |}.

(** Fifteen consecutive seconds. *)
Definition fifteen_seconds : list string :=
  map (fun n => "20250101-1200" +:+ Render.two_digits n)
    [0; 1; 2; 3; 4; 5; 6; 7; 8; 9; 10; 11; 12; 13; 14].

(** A two-day table of quotes. *)
Definition good_frame : Stock.DataFrame :=
  {| Stock.columns := Stock.TextLabels ["Open"; "Close"];
     Stock.rows := [[F64.Finite 10; F64.Finite 12];
                    [F64.Finite 11; F64.Finite 13]] |}.

(** Every symbol answers with that table, except that TSLA raises. *)
Definition tsla_down (sym : string) : Stock.Response :=
  if String.eqb sym "TSLA" then Stock.Fails Py.RequestException
  else Stock.Frame good_frame.

(** A table built without columns and rows, [pd.DataFrame()]. *)
Definition blank_table : Stock.DataFrame :=
  {| Stock.columns := Stock.OtherLabels 0; Stock.rows := [] |}.

(** The same service, TSLA answering with the blank table, with no
    table at all, or with a table that has a close column but no row. *)
Definition tsla_blank (sym : string) : Stock.Response :=
  if String.eqb sym "TSLA" then Stock.Frame blank_table
  else Stock.Frame good_frame.

Definition tsla_none (sym : string) : Stock.Response :=
  if String.eqb sym "TSLA" then Stock.NoFrame else Stock.Frame good_frame.

Definition tsla_rowless (sym : string) : Stock.Response :=
  if String.eqb sym "TSLA"
  then Stock.Frame
         {| Stock.columns := Stock.TextLabels ["Close"]; Stock.rows := [] |}
  else Stock.Frame good_frame.

(** Every symbol answers with a table that has no rows. *)
Definition no_quotes (_ : string) : Stock.Response :=
  Stock.Frame
    {| Stock.columns := Stock.TextLabels ["Close"]; Stock.rows := [] |}.

Definition dwell (images stocks news weather : bool) : Scheduler.Config :=
  {| Scheduler.ENABLE_IMAGES := images; Scheduler.ENABLE_STOCKS := stocks;
     Scheduler.ENABLE_NEWS := news; Scheduler.ENABLE_WEATHER := weather;
     Scheduler.IMAGE_DISPLAY_TIME := 60; Scheduler.STOCK_DISPLAY_TIME := 30;
     Scheduler.NEWS_DISPLAY_TIME := 30; Scheduler.WEATHER_DISPLAY_TIME := 20 |}.

(** The placeholder [get_weather] returns when the service is down. *)
Definition unavailable : Py.pydict :=
  [("current",
    Py.PyDict [("condition", Py.PyStr "Unavailable");
               ("temperature", Py.PyStr "N/A")])].

(** A record with a two-day forecast. *)
Definition two_days : Py.pydict :=
  [("current",
    Py.PyDict [("condition", Py.PyStr "Sunny"); ("temperature", Py.PyInt 72)]);
   ("forecast",
    Py.PyList [Py.PyDict [("date", Py.PyStr "Monday")];
               Py.PyDict [("date", Py.PyStr "Tuesday")]])].

(** A cache file whose "current" entry is text, not an object. *)
Definition odd_cache : Py.pydict :=
  [("timestamp", Py.PyStr "2025-01-01T12:00:00");
   ("current", Py.PyStr "Sunny")].

(** A uniformly grey photo. *)
Definition grey_photo : Image := new (4, 4) (128, 128, 128).

Definition feeds_with (quotes : string -> Stock.Response)
    (weather : Py.pydict) : Scheduler.Feeds :=
  {| Scheduler.yahoo := quotes;
     Scheduler.fetch_news :=
       Some {| Render.title := "Title"; Render.summary := "hello world";
               Render.thumbnail_url := Some "http://example.org/a.svg" |};
     Scheduler.http_get := fun _ =>
       Render.Body (Raise Py.UnidentifiedImageError);
     Scheduler.fetch_next_image := Some grey_photo;
     Scheduler.get_weather := weather |}.

Definition weather_only : Scheduler.Config := dwell false false false true.
Definition photos_only : Scheduler.Config := dwell true false false false.

Definition two_day_feeds : Scheduler.Feeds := feeds_with no_quotes two_days.

Definition first_tick : Scheduler.State :=
  {| Scheduler.current_mode_index := 0;
     Scheduler.weather_data := Some unavailable |}.

End Toy.

(** ** Photo source (image_fetcher.py) *)
Module Fetcher.

Import PIL.

Definition IMAGE_DIR : string := "assets/images".

(** [c.lower()] on the code points below 256: the ASCII capitals and
    the Latin-1 capitals (all of 192..222 but the multiplication sign). *)
Definition lower_char (c : ascii) : ascii :=
  let n := N_of_ascii c in
  if ((65 <=? n) && (n <=? 90)
      || (192 <=? n) && (n <=? 222) && negb (n =? 215))%N
  then ascii_of_N (n + 32) else c.

(** [s.lower()]. *)
Fixpoint str_lower (s : string) : string :=
  match s with
  | EmptyString => EmptyString
  | String c s' => String (lower_char c) (str_lower s')
  end.

(** [s.endswith(suffix)]. *)
Definition endswith (s suffix : string) : bool :=
  (String.length suffix <=? String.length s)%nat
  && String.eqb
       (String.substring (String.length s - String.length suffix)
          (String.length suffix) s)
       suffix.

Definition EXTENSIONS : list string := [".png"; ".jpg"; ".jpeg"; ".bmp"].

(** [f.lower().endswith((".png", ".jpg", ".jpeg", ".bmp"))]. *)
Definition is_image_name (f : string) : bool :=
  existsb (endswith (str_lower f)) EXTENSIONS.

(** [sorted(names)]: insertion into an ascending list. *)
Fixpoint insert_asc (x : string) (l : list string) : list string :=
  match l with
  | [] => [x]
  | y :: l' => if String.leb x y then x :: l else y :: insert_asc x l'
  end.

Definition sorted (l : list string) : list string :=
  fold_right insert_asc [] l.

(** Names in ascending order. *)
Definition asc (a b : string) : Prop := String.leb a b = true.

(** [os.path.join(IMAGE_DIR, f)] for a name given by [os.listdir]. *)
Definition image_path (f : string) : string := IMAGE_DIR +:+ "/" +:+ f.

(** [_get_image_files]; the listing is [None] when the directory does
    not exist (it is then created, empty). *)
Definition _get_image_files (listing : option (list string)) : list string :=
  match listing with
  | None => []
  | Some names => sorted (map image_path (List.filter is_image_name names))
  end.

Record ImageFetcher := {
  image_files : list string;
  current_index : nat
}.

(** [ImageFetcher()]. *)
Definition init (listing : option (list string)) : ImageFetcher :=
  {| image_files := _get_image_files listing; current_index := 0 |}.

Section Opening.

(** [Image.open(path)]. *)
Variable open : string -> result Image.

(** [fetch_next_image]: the result, and the object after the call; the
    index moves on before the file is opened. *)
Definition fetch_next_image (self : ImageFetcher)
  : result (option Image) * ImageFetcher :=
  match image_files self with
  | [] => (Ok None, self)
  | _ :: _ =>
      match nth_error (image_files self) (current_index self) with
      | None => (Raise Py.IndexError, self)
      | Some path =>
          let self' :=
            {| image_files := image_files self;
               current_index :=
                 ((current_index self + 1)
                  mod List.length (image_files self))%nat |} in
          (match open path with
           | Ok image => Ok (Some image)
           | Raise e => Raise e
           end, self')
      end
  end.

(** [count] calls in a row: the results in order, and the object left. *)
Fixpoint fetch_many (count : nat) (self : ImageFetcher)
  : list (result (option Image)) * ImageFetcher :=
  match count with
  | O => ([], self)
  | S count' =>
      let '(r, self') := fetch_next_image self in
      let '(rs, self'') := fetch_many count' self' in
      (r :: rs, self'')
  end.

End Opening.

End Fetcher.

(** ** Weather cache (weather_fetcher.py) *)
Module WeatherCache.




(** One hour, in microseconds. *)
Definition CACHE_EXPIRY : Z := 3600 * 1000000.

(** What reading the cache file gives: no file, an exception from
    [open] or [json.load], or the decoded value. *)
Inductive CacheFile :=
| Missing
| Unreadable (e : exn)
| Content (v : pyval).

(** [not v]. *)
Definition falsy (v : pyval) : bool :=
  match v with
  | Py.PyNone => true
  | Py.PyBool b => negb b
  | Py.PyInt n => n =? 0
  | Py.PyFloat q => Qeq_bool q 0
  | Py.PyStr s => String.eqb s ""
  | Py.PyList l => match l with [] => true | _ :: _ => false end
  | Py.PyDict d => match d with [] => true | _ :: _ => false end
  end.

(** [needle in hay] on strings. *)
Fixpoint contains (needle hay : string) : bool :=
  String.prefix needle hay
  || match hay with
     | EmptyString => false
     | String _ hay' => contains needle hay'
     end.

(** ["timestamp" in v]: key of a dict, element of a list, substring of
    a string; the other values are not containers. *)
Definition has_timestamp (v : pyval) : result bool :=
  match v with
  | Py.PyDict d =>
      Ok (match Py.lookup d "timestamp" with Some _ => true | None => false end)
  | Py.PyList l =>
      Ok (existsb (fun x => match x with
                            | Py.PyStr s => String.eqb s "timestamp"
                            | _ => false
                            end) l)
  | Py.PyStr s => Ok (contains "timestamp" s)
  | _ => Raise Py.TypeError
  end.

(** [v["timestamp"]]. *)
Definition timestamp_of (v : pyval) : result pyval :=
  match v with
  | Py.PyDict d =>
      match Py.lookup d "timestamp" with
      | Some t => Ok t
      | None => Raise Py.KeyError
      end
  | _ => Raise Py.TypeError
  end.

(** A day of the forecast as python_weather reports it, with the texts
    that [strftime] and [name] give; [None] marks a missing attribute
    (for the sun times also a falsy one). *)
Record Daily := {
  date : option string;
  highest_temperature : pyval;
  lowest_temperature : pyval;
  sunrise : option string;
  sunset : option string;
  moon_phase : option string;
  moon_illumination : pyval
}.

Record Forecast := {
  temperature : option pyval;
  description : option pyval;
  wind_speed : option pyval;
  humidity : option pyval;
  daily_forecasts : list Daily
}.

(** What [client.get(location)] does: raise, answer with a falsy
    value, or answer with a forecast. *)
Inductive ApiAnswer :=
| ApiRaises (e : exn)
| ApiEmpty
| ApiForecast (forecast : Forecast).

(** What writing the cache file does: succeed, or raise and leave the
    file in some state. *)
Inductive WriteOutcome :=
| Written
| WriteFails (e : exn) (debris : CacheFile).

(** [getattr(obj, name, default)] and the conditional expressions. *)
Definition or_default {A} (o : option A) (default : A) : A :=
  match o with Some x => x | None => default end.

Definition daily_forecast (daily : Daily) : pyval :=
  Py.PyDict
    [("date", Py.PyStr (or_default (date daily) "Unknown"));
     ("high_temp", highest_temperature daily);
     ("low_temp", lowest_temperature daily);
     ("sunrise", Py.PyStr (or_default (sunrise daily) "N/A"));
     ("sunset", Py.PyStr (or_default (sunset daily) "N/A"));
     ("moon_phase", Py.PyStr (or_default (moon_phase daily) "Unknown"));
     ("moon_illumination", moon_illumination daily)].

(** The record [fetch_weather] builds. *)
Definition format_weather (forecast : Forecast) (now_iso : string)
  : Py.pydict :=
  [("current",
    Py.PyDict
      [("condition", or_default (description forecast) (Py.PyStr "Unknown"));
       ("temperature", or_default (temperature forecast) (Py.PyStr "N/A"));
       ("wind_speed", or_default (wind_speed forecast) (Py.PyStr "N/A"));
       ("humidity", or_default (humidity forecast) (Py.PyStr "N/A"))]);
   ("forecast",
    Py.PyList (map daily_forecast (take 3 (daily_forecasts forecast))));
   ("timestamp", Py.PyStr now_iso)].

(** The cache file of the location, and the number of times
    [fetch_weather] has asked the weather service. *)
Record Store := { cache : CacheFile; fetches : nat }.

Definition PLACEHOLDER : Py.pydict :=
  [("current",
    Py.PyDict [("condition", Py.PyStr "Unavailable");
               ("temperature", Py.PyStr "N/A")])].

Section Clock.

(** [datetime.now() - datetime.fromisoformat(t)] in microseconds, with
    the exceptions of the parse and of the subtraction. *)
Variable age : pyval -> result Z.

(** [datetime.now().isoformat()]. *)
Variable now_iso : string.

Variable api : ApiAnswer.
Variable write : WriteOutcome.

(** The [try] block of [get_cached_weather]. *)
Definition fresh_content (v : pyval) : result (option pyval) :=
  if falsy v then Ok None
  else
    (do found <- has_timestamp v;
     if negb found then Ok None
     else
       do t <- timestamp_of v;
       do elapsed <- age t;
       if elapsed <? CACHE_EXPIRY then Ok (Some v) else Ok None)%res.

Definition get_cached_weather (file : CacheFile) : option pyval :=
  match file with
  | Missing => None
  | Unreadable _ => None
  | Content v =>
      match fresh_content v with
      | Ok r => r
      | Raise _ => None
      end
  end.

(** [fetch_weather(location)]: every exception gives [None]; what
    [json.dump] writes is what [json.load] reads back. *)
Definition fetch_weather (st : Store) : option Py.pydict * Store :=
  let asked := S (fetches st) in
  match api with
  | ApiRaises _ | ApiEmpty => (None, {| cache := cache st; fetches := asked |})
  | ApiForecast forecast =>
      let weather_data := format_weather forecast now_iso in
      match write with
      | Written =>
          (Some weather_data,
           {| cache := Content (Py.PyDict weather_data); fetches := asked |})
      | WriteFails _ debris =>
          (None, {| cache := debris; fetches := asked |})
      end
  end.

(** [get_weather(location)]. *)
Definition get_weather (st : Store) : pyval * Store :=
  match get_cached_weather (cache st) with
  | Some weather_data => (weather_data, st)
  | None =>
      match fetch_weather st with
      | (Some weather_data, st') => (Py.PyDict weather_data, st')
      | (None, st') => (Py.PyDict PLACEHOLDER, st')
      end
  end.

End Clock.

End WeatherCache.

(** ** News source (news_fetcher.py) *)
Module News.

(** [s.split("\n")]: the pieces between line feeds, at least one. *)
Fixpoint split_lines (s : string) : list string :=
  match s with
  | EmptyString => [EmptyString]
  | String c s' =>
      if Ascii.eqb c (ascii_of_nat 10) then EmptyString :: split_lines s'
      else
        match split_lines s' with
        | line :: rest => String c line :: rest
        | [] => [String c EmptyString]
        end
  end.

(** What [requests.post] gives: an exception, or a response. *)
Inductive Response :=
| PostFails (e : exn)
| Reply (status_code : Z) (text : string).

(** An entry of the parsed feed: attributes may be missing. *)
Record Entry := {
  entry_title : option string;
  entry_description : option string
}.

Section Services.

(** [json.loads]: [None] stands for [JSONDecodeError]. *)
Variable json_loads : string -> option pyval.

(** The answer of the Ollama server to a prompt. *)
Variable post : string -> Response.

(** BeautifulSoup: the stripped texts of the [p] elements of a
    document, and the [src] of its first [img] element, if any. *)
Variable paragraphs : string -> result (list string).
Variable first_img_src : string -> result (option string).

Definition PHRASE : string := "I need to summarize".

Definition valid_summary (ollama_summary : string) : bool :=
  negb (String.eqb ollama_summary "")
  && negb (List.length (PyStr.split ollama_summary) <? 5)%nat
  && negb (WeatherCache.contains PHRASE ollama_summary).

(** The [try] block of [summarize_text]; exceptions other than
    [JSONDecodeError] reach the outer handler. *)
Definition summarize_try (text : string) : result string :=
  match post ("Summarize this news article in one sentence:"
              +:+ PyStr.LF +:+ text) with
  | PostFails e => Raise e
  | Reply status_code body =>
      if status_code =? 200 then
        match json_loads (List.last (split_lines (PyStr.strip body)) "") with
        | None => Ok text
        | Some response_data =>
            (do r <- Py.get response_data "response" (Py.PyStr "");
             do s <- Render.as_str r;
             let ollama_summary := PyStr.strip s in
             if valid_summary ollama_summary then Ok ollama_summary
             else Ok text)%res
        end
      else Ok text
  end.

Definition summarize_text (text : string) : string :=
  match summarize_try text with
  | Ok summary => summary
  | Raise _ => text
  end.

(** [extract_rss_summary(entry)]. *)
Definition extract_rss_summary (entry : Entry) : string :=
  match entry_description entry with
  | Some description =>
      match paragraphs description with
      | Ok (p :: ps) => PyStr.join (PyStr.LF +:+ PyStr.LF) (p :: ps)
      | _ => ""
      end
  | None => ""
  end.

(** [extract_image_url(html)]. *)
Definition extract_image_url (html : string) : option string :=
  match first_img_src html with
  | Ok url => url
  | Raise _ => None
  end.

(** The [try] block of [fetch_news], given the entries of the feed. *)
Definition fetch_news_try (entries : list Entry)
  : result (option Render.NewsData) :=
  match entries with
  | [] => Ok None
  | entry :: _ =>
      match entry_title entry with
      | None => Raise Py.AttributeError
      | Some t =>
          let title := PyStr.strip t in
          let summary := extract_rss_summary entry in
          match entry_description entry with
          | None => Raise Py.AttributeError
          | Some description =>
              let image_url := extract_image_url description in
              if String.eqb summary ""
                 || (List.length (PyStr.split summary) <? 5)%nat
              then Ok None
              else
                Ok (Some {| Render.title := title;
                            Render.summary := summarize_text summary;
                            Render.thumbnail_url := image_url |})
          end
      end
  end.

(** [fetch_news()]; a feed that cannot be parsed raises inside the
    [try] as well. *)
Definition fetch_news (feed : result (list Entry))
  : option Render.NewsData :=
  match feed with
  | Raise _ => None
  | Ok entries =>
      match fetch_news_try entries with
      | Ok r => r
      | Raise _ => None
      end
  end.

End Services.

End News.

(** ** Shapes of the data the generators accept *)
Module Shapes.

Import PIL.

(** A record whose price is a number. *)
Definition numeric_price (r : Stock.StockRecord) : bool :=
  match Stock.current_price r with
  | Stock.PriceValue _ => true
  | Stock.PriceText _ => false
  end.

Definition text_or_absent (d : Py.pydict) (k : string) : bool :=
  match Py.lookup d k with
  | None | Some (Py.PyStr _) => true
  | Some _ => false
  end.

(** A forecast day the weather column can draw: an object whose date,
    sunrise and sunset are text where present, and whose moon phase is
    present and holds a word. *)
Definition drawable_day (day : pyval) : bool :=
  match day with
  | Py.PyDict d =>
      text_or_absent d "date" && text_or_absent d "sunrise"
      && text_or_absent d "sunset"
      && match Py.lookup d "moon_phase" with
         | Some (Py.PyStr s) =>
             match PyStr.split s with [] => false | _ :: _ => true end
         | _ => false
         end
  | _ => false
  end.

(** Both sun icons can be loaded. *)
Definition sun_icons (pil : Pillow) : bool :=
  match Render.load_svg_icon pil "sunrise.svg",
        Render.load_svg_icon pil "sunset.svg" with
  | Some _, Some _ => true
  | _, _ => false
  end.

(** A weather record with a forecast list of at least three days, the
    first three of them drawable. *)
Definition drawable_forecast (weather_data : Py.pydict) : bool :=
  match Py.lookup weather_data "forecast" with
  | Some (Py.PyList l) =>
      (3 <=? List.length l)%nat && forallb drawable_day (take 3 l)
  | _ => false
  end.

(** A weather record the header can read: none, an empty one, one
    without a "current" entry, or one whose "current" entry is an
    object with a condition usable as a dictionary key. *)
Definition readable_current (weather_data : option Py.pydict) : bool :=
  match weather_data with
  | None | Some [] => true
  | Some d =>
      match Py.lookup d "current" with
      | None => true
      | Some (Py.PyDict current) =>
          match Py.lookup current "condition" with
          | Some (Py.PyList _) | Some (Py.PyDict _) => false
          | _ => true
          end
      | Some _ => false
      end
  end.

(** A day whose moon phase, where reported, has a name holding a word
    (as the names of an enumeration do). *)
Definition named_phase (daily : WeatherCache.Daily) : bool :=
  match WeatherCache.moon_phase daily with
  | Some name => match PyStr.split name with [] => false | _ :: _ => true end
  | None => true
  end.

(** A forecast whose description, where reported, can be a dictionary
    key. *)
Definition plain_description (forecast : WeatherCache.Forecast) : bool :=
  match WeatherCache.description forecast with
  | Some (Py.PyList _) | Some (Py.PyDict _) => false
  | _ => true
  end.

(** The temperature text the header builds for a record holds no line
    feed, so that Pillow can measure it. *)
Definition one_line_temperature (py_format : pyval -> string)
    (weather_data : option Py.pydict) : bool :=
  match Display.header_weather py_format weather_data with
  | Ok (temperature, _) => negb (Display.has_line_feed temperature)
  | Raise _ => true
  end.

(** A news record whose thumbnail is not fetched or not received: no
    URL, an empty URL, or a request that fails. *)
Definition thumbnail_skipped (http_get : string -> Render.HttpResponse)
    (news_data : Render.NewsData) : bool :=
  match Render.thumbnail_url news_data with
  | None => true
  | Some url =>
      String.eqb url ""
      || match http_get url with
         | Render.RequestError => true
         | Render.Body _ => false
         end
  end.

End Shapes.

(** ** Further examples *)
Module Samples.

Import PIL Sys TextFit.

(** A debug directory with eleven news images and one stock image. *)
Definition crowded_dir : gset string :=
  list_to_set
    ("stock_20250101-120000.png"
     :: map (fun n => "news_20250101-1200" +:+ Render.two_digits n +:+ ".png")
          [0; 1; 2; 3; 4; 5; 6; 7; 8; 9; 10]).

(** A feed with one article, read while the summary server is down and
    the page holds one paragraph and no picture. *)
Definition one_article : result (list News.Entry) :=
  Ok [{| News.entry_title := Some "  Rain expected  ";
         News.entry_description :=
           Some "Heavy rain is expected over the weekend." |}].

Definition server_down (_ : string) : News.Response :=
  News.PostFails Py.RequestException.

Definition no_json (_ : string) : option pyval := None.

Definition one_paragraph (html : string) : result (list string) := Ok [html].

Definition no_picture (_ : string) : result (option string) := Ok None.

(** What the weather service reports for one day, and for a week. *)
Definition sunny_day : WeatherCache.Daily :=
  {| WeatherCache.date := Some "Monday";
     WeatherCache.highest_temperature := Py.PyInt 75;
     WeatherCache.lowest_temperature := Py.PyInt 58;
     WeatherCache.sunrise := Some "06:41 AM";
     WeatherCache.sunset := None;
     WeatherCache.moon_phase := Some "FULL_MOON";
     WeatherCache.moon_illumination := Py.PyInt 98 |}.

Definition sunny_week : WeatherCache.Forecast :=
  {| WeatherCache.temperature := Some (Py.PyInt 72);
     WeatherCache.description := Some (Py.PyStr "Sunny");
     WeatherCache.wind_speed := None;
     WeatherCache.humidity := Some (Py.PyInt 40);
     WeatherCache.daily_forecasts :=
       [sunny_day; sunny_day; sunny_day; sunny_day] |}.

(** A clock at which every timestamp is ten minutes old. *)
Definition ten_minutes_ago (_ : pyval) : result Z := Ok (600 * 1000000).

Definition no_cache : WeatherCache.Store :=
  {| WeatherCache.cache := WeatherCache.Missing;
     WeatherCache.fetches := 0 |}.

(** A table with a single day of quotes. *)
Definition one_day_frame : Stock.DataFrame :=
  {| Stock.columns := Stock.TextLabels ["Open"; "Close"];
     Stock.rows := [[F64.Finite 10; F64.Finite 12]] |}.

Definition one_day_quotes (_ : string) : Stock.Response :=
  Stock.Frame one_day_frame.

Definition two_day_quotes (_ : string) : Stock.Response :=
  Stock.Frame Toy.good_frame.

(** A 1 x 1 transparent icon for every icon file. *)
Definition dot_icon : Image := RGBAImage (1, 1) (fun _ _ => (0, 0, 0)) (fun _ _ => 0).

Definition icon_pillow : Pillow :=
  {| getsize := getsize Toy.toy_pillow;
     textlength := textlength Toy.toy_pillow;
     textbbox := textbbox Toy.toy_pillow;
     draw_text := draw_text Toy.toy_pillow;
     draw_multiline_text := draw_multiline_text Toy.toy_pillow;
     draw_rectangle := draw_rectangle Toy.toy_pillow;
     paste_mask := paste_mask Toy.toy_pillow;
     resize := resize Toy.toy_pillow;
     resize_P := resize_P Toy.toy_pillow;
     quantize := quantize Toy.toy_pillow;
     exif_transpose := exif_transpose Toy.toy_pillow;
     svg2png := fun _ _ => Some dot_icon |}.

Definition monday : pyval :=
  Py.PyDict [("date", Py.PyStr "Monday"); ("high_temp", Py.PyInt 75);
             ("low_temp", Py.PyInt 58); ("sunrise", Py.PyStr "06:41 AM");
             ("sunset", Py.PyStr "05:02 PM");
             ("moon_phase", Py.PyStr "FULL_MOON")].

(** A record with a three-day forecast. *)
Definition three_days : Py.pydict :=
  [("current",
    Py.PyDict [("condition", Py.PyStr "Sunny"); ("temperature", Py.PyInt 72)]);
   ("forecast", Py.PyList [monday; monday; monday])].

End Samples.

(** * Properties *)

(** ** Splitting, stripping and joining *)
Module PyStrFacts.
Import PyStr.

Lemma split_nonspace_nonempty c s :
  isspace c = false -> split (String c s) <> [].
Proof.
  intros Hc. simpl. rewrite Hc.
  destruct s as [|c' s']; [discriminate |].
  destruct (isspace c'); [discriminate |].
  destruct (split (String c' s')); discriminate.
Qed.

Lemma split_space c s : isspace c = true -> split (String c s) = split s.
Proof. intros Hc. simpl. rewrite Hc. reflexivity. Qed.

Lemma split_last c :
  isspace c = false -> split (String c "") = [String c ""].
Proof. intros Hc. simpl. rewrite Hc. reflexivity. Qed.

Lemma split_then_space c c' s :
  isspace c = false -> isspace c' = true ->
  split (String c (String c' s)) = String c "" :: split (String c' s).
Proof. intros Hc Hc'. simpl. rewrite Hc, Hc'. reflexivity. Qed.

Lemma split_then_char c c' s :
  isspace c = false -> isspace c' = false ->
  split (String c (String c' s))
  = match split (String c' s) with
    | w :: ws => String c w :: ws
    | [] => [String c ""]
    end.
Proof. intros Hc Hc'. simpl. rewrite Hc, Hc'. reflexivity. Qed.

(** White space between two strings separates their words. *)
Lemma split_app_space a c b :
  isspace c = true ->
  split (a +:+ String c b) = (split a ++ split b)%list.
Proof.
  intros Hc.
  induction a as [|x a IH].
  - change ("" +:+ String c b) with (String c b).
    rewrite split_space by assumption. reflexivity.
  - change (String x a +:+ String c b) with (String x (a +:+ String c b)).
    destruct (isspace x) eqn:Hx.
    + rewrite (split_space x (a +:+ String c b)), (split_space x a)
        by assumption.
      exact IH.
    + destruct a as [|y a'].
      * change ("" +:+ String c b) with (String c b).
        rewrite split_then_space, split_last, split_space by assumption.
        reflexivity.
      * change (String y a' +:+ String c b)
          with (String y (a' +:+ String c b)) in *.
        destruct (isspace y) eqn:Hy.
        -- rewrite (split_then_space x y (a' +:+ String c b)),
             (split_then_space x y a') by assumption.
           rewrite IH. reflexivity.
        -- rewrite (split_then_char x y (a' +:+ String c b)),
             (split_then_char x y a') by assumption.
           rewrite IH.
           pose proof (split_nonspace_nonempty y a' Hy) as Hne.
           destruct (split (String y a')) as [|w ws]; [congruence |].
           reflexivity.
Qed.

(** A word splits into itself. *)
Lemma split_word w : is_word w = true -> split w = [w].
Proof.
  unfold is_word. intros H. apply andb_true_iff in H as [Hne Hns].
  destruct w as [|c w]; [discriminate |]. clear Hne.
  revert c Hns. induction w as [|c' w IH]; intros c Hns.
  - simpl in Hns. rewrite andb_true_r in Hns.
    apply negb_true_iff in Hns. apply split_last; assumption.
  - simpl in Hns. apply andb_true_iff in Hns as [Hc Hrest].
    apply negb_true_iff in Hc.
    pose proof Hrest as Hrest'.
    apply andb_true_iff in Hrest' as [Hc' _].
    apply negb_true_iff in Hc'.
    rewrite split_then_char by assumption.
    rewrite (IH c' Hrest). reflexivity.
Qed.

(** Every item of a split is a word. *)
Lemma split_words s : Forall (fun w => is_word w = true) (split s).
Proof.
  induction s as [|c s IH]; [constructor |].
  destruct (isspace c) eqn:Hc.
  - rewrite split_space by assumption. exact IH.
  - destruct s as [|c' s'].
    + rewrite split_last by assumption. repeat constructor.
      unfold is_word. simpl. rewrite Hc. reflexivity.
    + destruct (isspace c') eqn:Hc'.
      * rewrite split_then_space by assumption. constructor; [| exact IH].
        unfold is_word. simpl. rewrite Hc. reflexivity.
      * rewrite split_then_char by assumption.
        destruct (split (String c' s')) as [|w ws].
        -- repeat constructor. unfold is_word. simpl. rewrite Hc. reflexivity.
        -- inversion IH as [|? ? Hw Hws]; subst. constructor; [| exact Hws].
           unfold is_word in *. simpl. rewrite Hc.
           apply andb_true_iff in Hw as [_ Hns]. exact Hns.
Qed.

Lemma split_lstrip s : split (lstrip s) = split s.
Proof.
  induction s as [|c s IH]; [reflexivity |].
  simpl lstrip. destruct (isspace c) eqn:Hc.
  - rewrite split_space by assumption. exact IH.
  - reflexivity.
Qed.

Lemma rstrip_head c s :
  rstrip (String c s) = "" \/ exists r, rstrip (String c s) = String c r.
Proof.
  simpl. destruct (rstrip s).
  - destruct (isspace c); [left | right; eexists]; reflexivity.
  - right. eexists. reflexivity.
Qed.

Lemma rstrip_empty_split s : rstrip s = "" -> split s = [].
Proof.
  induction s as [|c s IH]; [reflexivity |].
  simpl rstrip. destruct (rstrip s) eqn:Hr; [| discriminate].
  destruct (isspace c) eqn:Hc; [| discriminate].
  intros _. rewrite split_space by assumption. apply IH. reflexivity.
Qed.

(** Prefixing one character to two strings that split alike and start
    alike keeps them splitting alike. *)
Lemma split_cons_congr c c' r s :
  split (String c' r) = split (String c' s) ->
  split (String c (String c' r)) = split (String c (String c' s)).
Proof.
  intros H.
  destruct (isspace c) eqn:Hc.
  - rewrite (split_space c (String c' r)), (split_space c (String c' s))
      by assumption.
    exact H.
  - destruct (isspace c') eqn:Hc'.
    + rewrite (split_then_space c c' r), (split_then_space c c' s)
        by assumption.
      rewrite H. reflexivity.
    + rewrite (split_then_char c c' r), (split_then_char c c' s)
        by assumption.
      rewrite H. reflexivity.
Qed.

Lemma split_rstrip s : split (rstrip s) = split s.
Proof.
  induction s as [|c s IH]; [reflexivity |].
  destruct s as [|c' s'].
  - simpl rstrip. destruct (isspace c) eqn:Hc; [| reflexivity].
    rewrite split_space by assumption. reflexivity.
  - destruct (rstrip_head c' s') as [Hempty | [r Hr]].
    + pose proof (rstrip_empty_split _ Hempty) as Hsplit.
      change (rstrip (String c (String c' s')))
        with (match rstrip (String c' s') with
              | "" => if isspace c then "" else String c ""
              | r => String c r
              end).
      rewrite Hempty.
      destruct (isspace c) eqn:Hc.
      * rewrite split_space by assumption. rewrite Hsplit. reflexivity.
      * rewrite split_last by assumption.
        destruct (isspace c') eqn:Hc'.
        -- rewrite split_then_space by assumption. rewrite Hsplit. reflexivity.
        -- exfalso. exact (split_nonspace_nonempty c' s' Hc' Hsplit).
    + change (rstrip (String c (String c' s')))
        with (match rstrip (String c' s') with
              | "" => if isspace c then "" else String c ""
              | r => String c r
              end).
      rewrite Hr. rewrite Hr in IH.
      apply split_cons_congr. exact IH.
Qed.

Lemma split_strip s : split (strip s) = split s.
Proof. unfold strip. rewrite split_rstrip. apply split_lstrip. Qed.

(** Joining lines with line feeds and splitting again gives the words
    of the lines, in order. *)
Lemma split_join_LF lines :
  split (join LF lines) = concat (map split lines).
Proof.
  induction lines as [|l lines IH]; [reflexivity |].
  destruct lines as [|l' lines'].
  - simpl. rewrite app_nil_r. reflexivity.
  - change (join LF (l :: l' :: lines'))
      with (l +:+ String (ascii_of_nat 10) (join LF (l' :: lines'))).
    rewrite split_app_space by reflexivity.
    rewrite IH. reflexivity.
Qed.

End PyStrFacts.

(** ** Text fitter *)
Module TextFitFacts.

Import TextFit.

Section Metrics.

Variable getsize : Font -> string -> Z * Z.

(** With fuel [size - 10] the unrolled loop leaves through its
    condition, never through lack of fuel. *)
Lemma width_loop_exit text max_width path fuel size :
  fuel = Z.to_nat (size - 10) ->
  too_wide getsize text max_width path
    (width_loop getsize fuel text max_width path size) = false.
Proof.
  revert size.
  induction fuel as [|fuel IH]; intros size Hfuel; simpl.
  - unfold too_wide.
    replace (size >? 10) with false by lia.
    apply andb_false_r.
  - fold (too_wide getsize text max_width path size).
    destruct (too_wide getsize text max_width path size) eqn:Hguard.
    + apply IH. lia.
    + exact Hguard.
Qed.

Lemma width_loop_range text max_width path fuel size :
  10 <= size ->
  fuel = Z.to_nat (size - 10) ->
  10 <= width_loop getsize fuel text max_width path size <= size.
Proof.
  revert size.
  induction fuel as [|fuel IH]; intros size Hsize Hfuel; simpl.
  - lia.
  - destruct (_ && _) eqn:Hguard.
    + apply andb_true_iff in Hguard as [_ Hgt].
      specialize (IH (size - 1)). lia.
    + lia.
Qed.

End Metrics.

(** C3, as stated: for every positive maxWidth and every maxSize the
    returned size lies in [10, maxSize] and the text fits or the size is
    10.  It fails for a maxSize below the floor: the loop never raises
    the size, so text too wide at size 5 comes back at size 5. *)
Lemma fit_text_to_width_claim_fails_below_floor :
  ~ (forall (getsize : Font -> string -> Z * Z) (text : string)
       (max_width max_font_size : Z),
        0 < max_width ->
        let r := fit_text_to_width getsize text max_width FONT_PATH
                   max_font_size in
        fst r = text
        /\ 10 <= font_size (snd r) <= max_font_size
        /\ (fst (getsize (snd r) text) <= max_width
            \/ font_size (snd r) = 10)).
Proof.
  intros H.
  specialize (H mono_getsize "hello world" 40 5 ltac:(lia)).
  vm_compute in H.
  destruct H as (_ & [Hlow _] & _).
  apply Hlow. reflexivity.
Qed.

(** C3, amended: for every text, every maxWidth and every maxSize of at
    least 10, [fit_text_to_width] returns the text unchanged with a size
    in [10, maxSize], and the text fits the width at that size or the
    size is the floor 10. *)
Theorem fit_text_to_width_spec
    (getsize : Font -> string -> Z * Z) (text : string)
    (max_width : Z) (path : string) (max_font_size : Z) :
  10 <= max_font_size ->
  let r := fit_text_to_width getsize text max_width path max_font_size in
  fst r = text
  /\ font_path (snd r) = path
  /\ 10 <= font_size (snd r) <= max_font_size
  /\ (fst (getsize (snd r) text) <= max_width \/ font_size (snd r) = 10).
Proof.
  intros Hmax. unfold fit_text_to_width. simpl.
  set (fuel := Z.to_nat (max_font_size - 10)).
  pose proof (width_loop_range getsize text max_width path fuel max_font_size
                Hmax eq_refl) as Hrange.
  pose proof (width_loop_exit getsize text max_width path fuel max_font_size
                eq_refl) as Hexit.
  unfold too_wide in Hexit.
  apply andb_false_iff in Hexit.
  repeat split; lia.
Qed.

Lemma fit_text_to_width_spec_witness :
  10 <= 52
  /\ (let r := fit_text_to_width mono_getsize "hello world" 150 FONT_PATH 52 in
      fst r = "hello world"
      /\ font_path (snd r) = FONT_PATH
      /\ 10 <= font_size (snd r) <= 52
      /\ (fst (mono_getsize (snd r) "hello world") <= 150
          \/ font_size (snd r) = 10)).
Proof.
  split; [lia |].
  apply (fit_text_to_width_spec mono_getsize "hello world" 150 FONT_PATH 52).
  lia.
Defined.

Section Wrapping.

Variable getsize : Font -> string -> Z * Z.

Lemma concat_split_snoc (lines : list string) (line : string) :
  concat (map PyStr.split (lines ++ [line]))
  = (concat (map PyStr.split lines) ++ PyStr.split line)%list.
Proof.
  rewrite map_app, concat_app. simpl. rewrite app_nil_r. reflexivity.
Qed.

(** The word loop only moves words: the words of the lines it leaves
    are those it started with followed by those it consumed. *)
Lemma wrap_loop_words font max_width words :
  Forall (fun w => PyStr.is_word w = true) words ->
  forall temp_lines line,
    let r := wrap_loop getsize font max_width words temp_lines line in
    concat (map PyStr.split (fst r ++ [snd r]))
    = (concat (map PyStr.split (temp_lines ++ [line])) ++ words)%list.
Proof.
  induction 1 as [|word rest Hword _ IH]; intros temp_lines line; simpl.
  - rewrite app_nil_r. reflexivity.
  - destruct (_ <=? _).
    + rewrite IH. rewrite !concat_split_snoc.
      rewrite PyStrFacts.split_strip.
      change (line +:+ " " +:+ word) with (line +:+ String " " word).
      rewrite PyStrFacts.split_app_space by reflexivity.
      rewrite (PyStrFacts.split_word word Hword).
      rewrite <- !app_assoc. reflexivity.
    + rewrite IH. rewrite !concat_split_snoc.
      rewrite (PyStrFacts.split_word word Hword).
      rewrite <- !app_assoc. reflexivity.
Qed.

(** Wrapping keeps the word sequence and never cuts a word. *)
Lemma wrap_lines_words font max_width text :
  PyStr.split
    (PyStr.join PyStr.LF (wrap_lines getsize font max_width (PyStr.split text)))
  = PyStr.split text.
Proof.
  rewrite PyStrFacts.split_join_LF. unfold wrap_lines.
  pose proof (wrap_loop_words font max_width (PyStr.split text)
                (PyStrFacts.split_words text) [] "") as H.
  destruct (wrap_loop getsize font max_width (PyStr.split text) [] "")
    as [temp_lines line].
  exact H.
Qed.

(** The size loop hands back either the untouched initial [lines] at a
    size of at most 10, or the wrapping accepted at the returned size. *)
Lemma area_loop_result words max_width max_height path fuel size lines :
  fuel = Z.to_nat (size - 10) ->
  let r := area_loop getsize fuel words max_width max_height path size lines in
  (fst r = lines /\ snd r = Z.min size 10
   /\ forall s, 10 < s <= size ->
        fits getsize words max_width max_height path s = false)
  \/ (10 < snd r <= size
      /\ fits getsize words max_width max_height path (snd r) = true
      /\ fst r = wrap_lines getsize (truetype path (snd r)) max_width words).
Proof.
  revert size.
  induction fuel as [|fuel IH]; intros size Hfuel; simpl.
  - left. repeat split; try lia.
  - destruct (size >? 10) eqn:Hsize.
    + fold (fits getsize words max_width max_height path size).
      destruct (fits getsize words max_width max_height path size) eqn:Hfit.
      * right. simpl. repeat split; try lia. exact Hfit.
      * destruct (IH (size - 1) ltac:(lia)) as [(Hl & Hs & Hno) | (Hs & Hf & Hl)].
        -- left. repeat split; try assumption; try lia.
           intros s Hrange.
           destruct (Z.eq_dec s size) as [-> | Hne]; [exact Hfit |].
           apply Hno. lia.
        -- right. repeat split; try assumption; lia.
    + left. simpl. repeat split; try lia.
Qed.

End Wrapping.

(** C4: with the summary "hello world", a box 100 wide and 5 high and a
    maximal size of 12, neither tested size (12, 11) meets the height
    bound; the claim promises the wrapping at the floor size,
    "hello\nworld", but the function returns the empty string. *)
Theorem fit_text_to_area_returns_empty_when_nothing_fits :
  fits mono_getsize (PyStr.split "hello world") 100 5 FONT_PATH 12 = false
  /\ fits mono_getsize (PyStr.split "hello world") 100 5 FONT_PATH 11 = false
  /\ fit_text_to_area mono_getsize "hello world" 100 5 FONT_PATH 12
     = ("", truetype FONT_PATH 10)
  /\ PyStr.join PyStr.LF
       (wrap_lines mono_getsize (truetype FONT_PATH 10) 100
          (PyStr.split "hello world"))
     = "hello" +:+ PyStr.LF +:+ "world".
Proof. repeat split; reflexivity. Qed.

(** C5: on the same input the returned text has no words at all, while
    the input splits into "hello" and "world" (the defect of C4). *)
Theorem fit_text_to_area_loses_words_when_nothing_fits :
  PyStr.split
    (fst (fit_text_to_area mono_getsize "hello world" 100 5 FONT_PATH 12))
  = []
  /\ PyStr.split "hello world" = ["hello"; "world"].
Proof. split; reflexivity. Qed.

(** Whenever some tested size is accepted, the words do come back
    unchanged and uncut; otherwise the text returned is empty. *)
Lemma fit_text_to_area_words
    (getsize : Font -> string -> Z * Z) (text : string)
    (max_width max_height : Z) (path : string) (max_font_size : Z) :
  let r := fit_text_to_area getsize text max_width max_height path
             max_font_size in
  ((exists s, 10 < s <= max_font_size
      /\ fits getsize (PyStr.split text) max_width max_height path s = true)
   -> PyStr.split (fst r) = PyStr.split text)
  /\ ((forall s, 10 < s <= max_font_size ->
        fits getsize (PyStr.split text) max_width max_height path s = false)
      -> r = ("", truetype path (Z.min max_font_size 10))).
Proof.
  unfold fit_text_to_area.
  pose proof (area_loop_result getsize (PyStr.split text) max_width max_height
                path (Z.to_nat (max_font_size - 10)) max_font_size []
                eq_refl) as H.
  destruct (area_loop getsize (Z.to_nat (max_font_size - 10))
              (PyStr.split text) max_width max_height path max_font_size [])
    as [lines size].
  simpl in *.
  destruct H as [(Hl & Hs & Hno) | (Hs & Hf & Hl)]; subst; split.
  - intros [s [Hrange Hfit]]. rewrite Hno in Hfit by exact Hrange.
    discriminate.
  - reflexivity.
  - intros _. apply wrap_lines_words.
  - intros Hno. rewrite Hno in Hf by exact Hs. discriminate.
Qed.

End TextFitFacts.

(** ** Colour quantiser *)
Module QuantFacts.

Import PIL ImageGen.

Lemma palette_6color_length : List.length palette_6color = 768%nat.
Proof. reflexivity. Qed.

(** Whatever index a pixel byte holds, the palette shows one of the six
    colours there: the 250 filler entries are black again. *)
Lemma palette_6color_closed (b : Byte.byte) :
  In (palette_color palette_6color (index_of b)) six_colors.
Proof. destruct b; vm_compute; auto 7. Qed.

(** C6: for every input image, [convert_to_6color] keeps width and
    height, yields a palette image whose palette is black, white,
    yellow, red, blue, green followed by black filler up to the 256
    entries, and shows one of those six colours at every pixel. *)
Theorem convert_to_6color_spec (pil : Pillow) (image : Image) :
  let out := convert_to_6color pil image in
  size out = size image
  /\ (exists ix, out = PImage (size image) palette_6color ix)
  /\ map (palette_color palette_6color) [0; 1; 2; 3; 4; 5] = six_colors
  /\ six_colors
     = [(0, 0, 0); (255, 255, 255); (255, 255, 0);
        (255, 0, 0); (0, 0, 255); (0, 255, 0)]
  /\ skipn 18 palette_6color = repeat 0 (3 * 250)
  /\ List.length palette_6color = (3 * 256)%nat
  /\ forall x y, In (getcolor out x y) six_colors.
Proof.
  cbv zeta. unfold convert_to_6color.
  repeat split; try reflexivity.
  - eexists. reflexivity.
  - intros x y. simpl. apply palette_6color_closed.
Qed.

End QuantFacts.

(** ** Stock data producer *)
Module StockFacts.

Import Stock.

Lemma fetch_one_frame yahoo sym :
  raises (yahoo sym) = false -> fetch_one yahoo sym = Ok (record_of yahoo sym).
Proof.
  unfold fetch_one, record_of, usable, raises.
  destruct (yahoo sym) as [e| |price_data]; try discriminate.
  destruct (str_lower (columns price_data)) as [cols | e]; [| discriminate].
  destruct (valid cols price_data); [| reflexivity].
  cbn [andb]. intros ->. reflexivity.
Qed.

Lemma fetch_one_raises yahoo sym :
  raises (yahoo sym) = true -> exists e, fetch_one yahoo sym = Raise e.
Proof.
  unfold fetch_one, raises.
  destruct (yahoo sym) as [e| |price_data]; try discriminate; eauto.
  destruct (str_lower (columns price_data)) as [cols | e]; [| eauto].
  destruct (valid cols price_data); [| discriminate].
  cbn [andb]. intros ->. eauto.
Qed.

Lemma fetch_loop_spec yahoo symbols :
  forall stock_info,
    if forallb (fun s => negb (raises (yahoo s))) symbols
    then fetch_loop yahoo symbols stock_info
         = Ok (stock_info ++ map (record_of yahoo) symbols)%list
    else exists e, fetch_loop yahoo symbols stock_info = Raise e.
Proof.
  induction symbols as [|sym rest IH]; intros stock_info; simpl.
  - rewrite app_nil_r. reflexivity.
  - destruct (raises (yahoo sym)) eqn:Hsym; simpl.
    + destruct (fetch_one_raises yahoo sym Hsym) as [e He].
      rewrite He. eauto.
    + rewrite (fetch_one_frame yahoo sym Hsym).
      specialize (IH (stock_info ++ [record_of yahoo sym])%list).
      destruct (forallb _ rest).
      * rewrite IH, <- app_assoc. reflexivity.
      * exact IH.
Qed.

(** The result is all or nothing: the records of every symbol when no
    loop body raises, and the empty list as soon as one does. *)
Lemma fetch_symbols_all_or_nothing (symbols : list string)
    (yahoo : string -> Response) :
  fetch_symbols symbols yahoo
  = if forallb (fun s => negb (raises (yahoo s))) symbols
    then map (record_of yahoo) symbols
    else [].
Proof.
  unfold fetch_symbols.
  pose proof (fetch_loop_spec yahoo symbols []) as H.
  destruct (forallb _ symbols).
  - rewrite H. reflexivity.
  - destruct H as [e ->]. reflexivity.
Qed.

(** C8: the claim promises one record per configured symbol, with a
    placeholder for a symbol whose own fetch fails.  The code lower-cases
    the column labels before it validates the table, and one [try]
    encloses the whole loop: when TSLA alone gets a table built without
    columns (or no table, or an exception), the validation that would
    have appended the TSLA placeholder is never reached and the records
    of all ten symbols are lost, although the nine others answered with
    usable tables.  The placeholder is reached only by a table whose
    labels are text, such as one with a close column and no rows.  In
    general the result is empty as soon as the loop body raises for one
    symbol. *)
Theorem fetch_stock_data_loses_every_record_on_one_failure :
  empty Toy.blank_table = true
  /\ forallb (fun sym => String.eqb sym "TSLA" || usable (Toy.tsla_blank sym))
       STOCK_SYMBOLS = true
  /\ fetch_stock_data Toy.tsla_blank = []
  /\ fetch_stock_data Toy.tsla_none = []
  /\ fetch_stock_data Toy.tsla_down = []
  /\ map symbol (fetch_stock_data Toy.tsla_rowless) = STOCK_SYMBOLS
  /\ In (placeholder "TSLA") (fetch_stock_data Toy.tsla_rowless)
  /\ (forall (yahoo : string -> Response) (sym : string),
        In sym STOCK_SYMBOLS -> raises (yahoo sym) = true ->
        fetch_stock_data yahoo = []).
Proof.
  split; [reflexivity |]. split; [reflexivity |].
  split; [vm_compute; reflexivity |]. split; [vm_compute; reflexivity |].
  split; [vm_compute; reflexivity |]. split; [vm_compute; reflexivity |].
  split; [vm_compute; tauto |].
  intros yahoo sym Hsym Hraises.
  unfold fetch_stock_data. rewrite fetch_symbols_all_or_nothing.
  destruct (forallb _ STOCK_SYMBOLS) eqn:Hall; [| reflexivity].
  rewrite forallb_forall in Hall. specialize (Hall sym Hsym).
  rewrite Hraises in Hall. discriminate.
Qed.

End StockFacts.

(** ** Debug frame archive *)
Module ArchiveFacts.
Import ImageGen.
#[local] Set Warnings "-clear-no-such-hyp".


Lemma ascii_compare_trans x y z :
  Ascii.compare x y <> Gt -> Ascii.compare y z <> Gt ->
  Ascii.compare x z <> Gt
  /\ (Ascii.compare x z = Eq -> Ascii.compare x y = Eq /\ Ascii.compare y z = Eq).
Proof.
  unfold Ascii.compare.
  rewrite !N.compare_gt_iff, !N.compare_eq_iff. lia.
Qed.

Lemma string_compare_trans a :
  forall b c,
    String.compare a b <> Gt -> String.compare b c <> Gt ->
    String.compare a c <> Gt.
Proof.
  induction a as [|x a IH]; intros [|y b] [|z c]; simpl; try congruence.
  intros Hab Hbc.
  assert (Ascii.compare x y <> Gt) as Hxy
    by (destruct (Ascii.compare x y); congruence).
  assert (Ascii.compare y z <> Gt) as Hyz
    by (destruct (Ascii.compare y z); congruence).
  destruct (ascii_compare_trans x y z Hxy Hyz) as [Hxz Heq].
  destruct (Ascii.compare x z) eqn:Exz; try congruence.
  destruct (Heq eq_refl) as [Exy Eyz]. rewrite Exy in Hab. rewrite Eyz in Hbc.
  eapply IH; eassumption.
Qed.

Lemma leb_trans a b c :
  String.leb a b = true -> String.leb b c = true -> String.leb a c = true.
Proof.
  unfold String.leb. intros Hab Hbc.
  pose proof (string_compare_trans a b c) as H.
  destruct (String.compare a b), (String.compare b c), (String.compare a c);
    try reflexivity; try discriminate; exfalso; apply H; congruence.
Qed.

#[local] Instance desc_trans : Transitive desc.
Proof. intros a b c Hab Hbc. unfold desc in *. eapply leb_trans; eassumption. Qed.

#[local] Instance desc_antisymm : AntiSymm (=) desc.
Proof. intros a b Hab Hba. apply String.leb_antisym; assumption. Qed.

Lemma insert_desc_perm x l : insert_desc x l ≡ₚ x :: l.
Proof.
  induction l as [|y l IH]; simpl; [reflexivity |].
  destruct (String.leb y x); [reflexivity |].
  rewrite IH. apply perm_swap.
Qed.

Lemma sorted_reverse_perm l : sorted_reverse l ≡ₚ l.
Proof.
  induction l as [|x l IH]; simpl; [reflexivity |].
  rewrite insert_desc_perm, IH. reflexivity.
Qed.

Lemma insert_desc_sorted x l : Sorted desc l -> Sorted desc (insert_desc x l).
Proof.
  induction 1 as [|y l Hl IH Hhd]; simpl.
  - repeat constructor.
  - destruct (String.leb y x) eqn:Hyx.
    + constructor; [constructor; assumption |]. constructor. exact Hyx.
    + constructor; [exact IH |].
      assert (desc y x) as Hd.
      { unfold desc. destruct (String.leb_total x y); congruence. }
      destruct Hhd as [|z l' Hz]; simpl.
      * constructor. exact Hd.
      * destruct (String.leb z x); constructor; assumption.
Qed.

Lemma sorted_reverse_sorted l : StronglySorted desc (sorted_reverse l).
Proof.
  apply Sorted_StronglySorted; [apply desc_trans |].
  induction l as [|x l IH]; simpl; [constructor |].
  apply insert_desc_sorted, IH.
Qed.

Lemma remove_all_difference old (dir : gset string) :
  remove_all old dir = dir ∖ list_to_set old.
Proof.
  unfold remove_all. revert dir.
  induction old as [|f old IH]; intros dir; simpl.
  - set_solver.
  - rewrite IH. set_solver.
Qed.

Lemma elem_of_images_of kind (dir : gset string) f :
  f ∈ images_of kind dir ↔ f ∈ dir ∧ PyStr.startswith f kind = true.
Proof.
  unfold images_of. rewrite sorted_reverse_perm.
  rewrite list_elem_of_In, filter_In, <- list_elem_of_In, elem_of_elements.
  reflexivity.
Qed.

Lemma NoDup_images_of kind (dir : gset string) : NoDup (images_of kind dir).
Proof.
  unfold images_of. rewrite sorted_reverse_perm.
  apply NoDup_ListNoDup, List.NoDup_filter, NoDup_ListNoDup, NoDup_elements.
Qed.

Lemma sorted_images_of kind (dir : gset string) :
  StronglySorted desc (images_of kind dir).
Proof. apply sorted_reverse_sorted. Qed.

(** Deleting the tail of the listing leaves exactly its head. *)
Lemma images_of_after_removal kind (dir : gset string) n :
  images_of kind (dir ∖ list_to_set (drop n (images_of kind dir)))
  = take n (images_of kind dir).
Proof.
  pose proof (NoDup_images_of kind dir) as Hnodup.
  pose proof (sorted_images_of kind dir) as Hsorted.
  rewrite <- (take_drop n (images_of kind dir)) in Hnodup, Hsorted.
  apply NoDup_app in Hnodup as (Htake & Hdisj & _).
  apply (StronglySorted_unique desc).
  - apply sorted_images_of.
  - apply (StronglySorted_app_1_l desc) in Hsorted. exact Hsorted.
  - apply NoDup_Permutation; [apply NoDup_images_of | exact Htake |].
    intros f. rewrite elem_of_images_of, elem_of_difference, elem_of_list_to_set.
    split.
    + intros [[Hin Hout] Hpre].
      assert (f ∈ images_of kind dir) as Hf
        by (apply elem_of_images_of; auto).
      rewrite <- (take_drop n (images_of kind dir)) in Hf.
      apply elem_of_app in Hf as [Hf | Hf]; [exact Hf | contradiction].
    + intros Hf.
      assert (f ∈ images_of kind dir) as Hf'.
      { rewrite <- (take_drop n (images_of kind dir)).
        apply elem_of_app. left. exact Hf. }
      apply elem_of_images_of in Hf' as [Hin Hpre].
      repeat split; try assumption.
      intros Hdrop. exact (Hdisj f Hf Hdrop).
Qed.

Lemma images_of_cleanup_dir kind (dir : gset string) :
  images_of kind (cleanup_dir kind dir)
  = take MAX_IMAGES (images_of kind dir).
Proof.
  unfold cleanup_dir.
  destruct (MAX_IMAGES <? List.length (images_of kind dir))%nat eqn:Hlen.
  - rewrite remove_all_difference. apply images_of_after_removal.
  - apply Nat.ltb_ge in Hlen. rewrite take_ge; [reflexivity | exact Hlen].
Qed.

Lemma elem_of_cleanup_dir kind (dir : gset string) f :
  f ∈ cleanup_dir kind dir
  ↔ f ∈ dir ∧ f ∉ drop MAX_IMAGES (images_of kind dir).
Proof.
  unfold cleanup_dir.
  destruct (MAX_IMAGES <? List.length (images_of kind dir))%nat eqn:Hlen.
  - rewrite remove_all_difference, elem_of_difference, elem_of_list_to_set.
    reflexivity.
  - apply Nat.ltb_ge in Hlen. rewrite drop_ge by exact Hlen.
    rewrite elem_of_nil. tauto.
Qed.

Lemma size_kept kind (dir : gset string) :
  size (kept kind dir) = List.length (images_of kind dir).
Proof. apply size_list_to_set, NoDup_images_of. Qed.

Lemma elem_of_kept kind (dir : gset string) f :
  f ∈ kept kind dir ↔ f ∈ dir ∧ PyStr.startswith f kind = true.
Proof. unfold kept. rewrite elem_of_list_to_set. apply elem_of_images_of. Qed.

Lemma prefix_append a b : String.prefix a (a +:+ b) = true.
Proof.
  induction a as [|c a IH]; simpl.
  - destruct b; reflexivity.
  - destruct (ascii_dec c c); [exact IH | congruence].
Qed.

Lemma image_name_prefixed kind t :
  PyStr.startswith (image_name kind t) kind = true.
Proof. apply prefix_append. Qed.

Lemma kept_insert kind t (dir : gset string) :
  kept kind ({[image_name kind t]} ∪ dir)
  = {[image_name kind t]} ∪ kept kind dir.
Proof.
  apply set_eq. intros f.
  rewrite elem_of_union, !elem_of_kept, elem_of_union, elem_of_singleton.
  pose proof (image_name_prefixed kind t).
  split; [intros [[-> | ?] ?] | intros [-> | [? ?]]]; auto.
Qed.

(** What one store leaves of a kind: the first ten names of the
    descending listing taken after the write. *)
Lemma images_of_store kind t (dir : gset string) :
  images_of kind (store kind t dir)
  = take MAX_IMAGES (images_of kind ({[image_name kind t]} ∪ dir)).
Proof. apply images_of_cleanup_dir. Qed.

Lemma store_potential kind t (dir future : gset string) :
  (Nat.min 10 (size (kept kind dir ∪ ({[image_name kind t]} ∪ future)))
   <= Nat.min 10 (size (kept kind (store kind t dir) ∪ future)))%nat.
Proof.
  assert (kept kind dir ∪ ({[image_name kind t]} ∪ future)
          = kept kind ({[image_name kind t]} ∪ dir) ∪ future) as ->
    by (rewrite kept_insert; set_solver).
  unfold kept at 2. rewrite images_of_store.
  destruct (le_lt_dec (List.length
              (images_of kind ({[image_name kind t]} ∪ dir))) MAX_IMAGES)
    as [Hle | Hgt].
  - rewrite take_ge by exact Hle. reflexivity.
  - assert (10 <= size (list_to_set (C := gset string)
              (take MAX_IMAGES
                 (images_of kind ({[image_name kind t]} ∪ dir)))))%nat as H10.
    { rewrite size_list_to_set.
      - rewrite length_take. unfold MAX_IMAGES in *. lia.
      - pose proof (NoDup_images_of kind ({[image_name kind t]} ∪ dir)) as Hn.
        rewrite <- (take_drop MAX_IMAGES) in Hn.
        apply NoDup_app in Hn as [Hn _]. exact Hn. }
    etransitivity; [apply Nat.le_min_l |].
    apply Nat.min_glb; [reflexivity |].
    etransitivity; [exact H10 |].
    apply subseteq_size. set_solver.
Qed.

Lemma store_all_lower_bound kind ts :
  forall dir : gset string,
    (Nat.min 10 (size (kept kind dir ∪ names kind ts))
     <= size (kept kind (store_all kind ts dir)))%nat.
Proof.
  induction ts as [|t ts IH]; intros dir.
  - change (names kind []) with (∅ : gset string).
    change (store_all kind [] dir) with dir.
    rewrite (right_id_L ∅ (∪)). apply Nat.le_min_r.
  - change (store_all kind (t :: ts) dir)
      with (store_all kind ts (store kind t dir)).
    change (names kind (t :: ts))
      with ({[image_name kind t]} ∪ names kind ts : gset string).
    pose proof (IH (store kind t dir)) as H1.
    pose proof (store_potential kind t dir (names kind ts)) as H2.
    lia.
Qed.

Lemma store_all_upper_bound kind ts :
  ts <> [] ->
  forall dir : gset string,
    (List.length (images_of kind (store_all kind ts dir)) <= 10)%nat.
Proof.
  induction ts as [|t ts IH]; [congruence |]. intros _ dir.
  change (store_all kind (t :: ts) dir)
    with (store_all kind ts (store kind t dir)).
  destruct ts as [|t' ts'].
  - change (store_all kind [] (store kind t dir)) with (store kind t dir).
    rewrite images_of_store, length_take. unfold MAX_IMAGES. lia.
  - apply IH. discriminate.
Qed.

Lemma append_cancel_l a b c : a +:+ b = a +:+ c -> b = c.
Proof. induction a; simpl; intros H; [exact H | inversion H; auto]. Qed.

Lemma length_append a b :
  String.length (a +:+ b) = (String.length a + String.length b)%nat.
Proof. induction a; simpl; auto. Qed.

Lemma append_cancel_r a : forall b c, a +:+ c = b +:+ c -> a = b.
Proof.
  induction a as [|x a IH]; intros [|y b] c H.
  - reflexivity.
  - apply (f_equal String.length) in H.
    rewrite !length_append in H. simpl in H. lia.
  - apply (f_equal String.length) in H.
    rewrite !length_append in H. simpl in H. lia.
  - inversion H. f_equal. eapply IH. eassumption.
Qed.

Lemma image_name_inj kind t t' :
  image_name kind t = image_name kind t' -> t = t'.
Proof.
  unfold image_name. intros H.
  apply append_cancel_l, append_cancel_l, append_cancel_r in H. exact H.
Qed.

Lemma size_names kind ts : NoDup ts -> size (names kind ts) = List.length ts.
Proof.
  intros Hts. unfold names. rewrite size_list_to_set.
  - apply length_map.
  - apply NoDup_fmap_2; [| exact Hts].
    intros t t'. apply image_name_inj.
Qed.

(** What [save_image] does to the directory is [store] at the clock
    reading it takes. *)
Lemma save_image_store pil image kind (w : Sys.World) :
  Sys.tmp_dir (snd (save_image pil image kind w))
  = store kind (Sys.clock w (Sys.reads w) "%Y%m%d-%H%M%S") (Sys.tmp_dir w).
Proof. reflexivity. Qed.

(** C9, as stated: fifteen stores of one kind always leave exactly ten
    files of that kind.  The file name carries the time to the second,
    so fifteen stores within one second write one file fifteen times. *)
Lemma fifteen_stores_in_one_second_leave_one_file :
  ~ (forall (timestamps : list string) (dir : gset string),
       List.length timestamps = 15%nat ->
       List.length (images_of "stock" (store_all "stock" timestamps dir))
       = 10%nat).
Proof.
  intros H.
  specialize (H (repeat "20250101-120000" 15) ∅ eq_refl).
  vm_compute in H. discriminate.
Qed.

(** C9, amended: after each store the directory holds, of the stored
    kind, exactly the first ten names of the descending listing taken
    after the write (at most ten files, the greatest names), files of
    other kinds being untouched; and any run of at least ten stores of
    one kind at pairwise distinct clock readings, fifteen in particular,
    leaves exactly ten files of that kind. *)
Theorem store_keeps_ten_newest (kind : string) :
  (forall t (dir : gset string),
     let listing := images_of kind ({[image_name kind t]} ∪ dir) in
     images_of kind (store kind t dir) = take 10 listing
     /\ StronglySorted desc listing
     /\ (List.length (images_of kind (store kind t dir)) <= 10)%nat
     /\ (forall f, f ∈ store kind t dir
                   ↔ f ∈ ({[image_name kind t]} ∪ dir) ∧ f ∉ drop 10 listing)
     /\ (forall f, PyStr.startswith f kind = false ->
                   f ∈ store kind t dir ↔ f ∈ ({[image_name kind t]} ∪ dir)))
  /\ (forall timestamps (dir : gset string),
        NoDup timestamps -> (10 <= List.length timestamps)%nat ->
        List.length (images_of kind (store_all kind timestamps dir)) = 10%nat)
  /\ images_of "stock" (store_all "stock" Toy.fifteen_seconds ∅)
     = map (image_name "stock") (rev (drop 5 Toy.fifteen_seconds)).
Proof.
  split; [| split].
  - intros t dir listing. subst listing.
    split; [apply images_of_store |].
    split; [apply sorted_images_of |].
    split; [rewrite images_of_store, length_take; unfold MAX_IMAGES; lia |].
    split; [intros f; apply elem_of_cleanup_dir |].
    intros f Hf. unfold store. rewrite elem_of_cleanup_dir.
    split; [tauto |]. intros Hin. split; [exact Hin |].
    intros Hdrop.
    assert (f ∈ images_of kind ({[image_name kind t]} ∪ dir)) as Himg.
    { rewrite <- (take_drop MAX_IMAGES). apply elem_of_app. right. exact Hdrop. }
    apply elem_of_images_of in Himg as [_ Hpre]. congruence.
  - intros ts dir Hnodup Hlen.
    assert (ts <> []) as Hne by (destruct ts; simpl in Hlen; [lia | discriminate]).
    pose proof (store_all_upper_bound kind ts Hne dir) as Hup.
    pose proof (store_all_lower_bound kind ts dir) as Hlow.
    rewrite size_kept in Hlow.
    assert (List.length ts <= size (kept kind dir ∪ names kind ts))%nat as Hsize.
    { rewrite <- (size_names kind ts Hnodup). apply subseteq_size. set_solver. }
    lia.
  - vm_compute. reflexivity.
Qed.

End ArchiveFacts.

(** ** Frame compositor *)
Module DisplayFacts.

Import PIL Sys Display.

Section Compositor.

Variable pil : Pillow.
Variable py_format : pyval -> string.

(** The compositor always returns a frame and only reads the clock,
    twice, for the time and the date of the header. *)
Lemma generate_table_run content weather (w : World) :
  exists frame,
    _generate_table pil py_format content weather w
    = (Ok frame,
       {| tmp_dir := tmp_dir w; clock := clock w; reads := S (S (reads w));
          epd := epd w; naps := naps w |})
    /\ mode frame = "RGB"
    /\ size frame
       = if header_ok py_format weather then (400, 600) else (600, 400).
Proof.
  unfold _generate_table, try_except, _generate_header, header_ok.
  unfold bind, strftime, lift, ret. simpl.
  destruct (header_weather py_format weather) as [[temperature condition]|e];
    simpl; [| eexists; repeat split].
  destruct (_get_weather_icon_path condition) as [icon_path|e]; simpl;
    [| eexists; repeat split].
  unfold text_length.
  destruct (has_line_feed temperature); simpl; eexists; repeat split.
Qed.

(** The compositor always returns a frame, never touches the panel, and
    the frame is portrait exactly when the header went through; a body
    that fails is replaced inside [_generate_body] and changes nothing. *)
Lemma generate_table_frame content weather (w : World) :
  exists frame w',
    _generate_table pil py_format content weather w = (Ok frame, w')
    /\ epd w' = epd w
    /\ tmp_dir w' = tmp_dir w
    /\ mode frame = "RGB"
    /\ size frame
       = if header_ok py_format weather then (400, 600) else (600, 400).
Proof.
  destruct (generate_table_run content weather w)
    as (frame & Htable & Hmode & Hsize).
  exists frame. eexists. split; [exact Htable |].
  repeat split; assumption.
Qed.

Lemma generate_table_frame_naps content weather (w : World) :
  exists frame w',
    _generate_table pil py_format content weather w = (Ok frame, w')
    /\ epd w' = epd w /\ naps w' = naps w.
Proof.
  destruct (generate_table_run content weather w) as (frame & Htable & _).
  exists frame. eexists. split; [exact Htable |]. split; reflexivity.
Qed.

Lemma generate_body_size image :
  size (_generate_body pil image) = (600, 338).
Proof.
  unfold _generate_body, body_of.
  destruct image as [image|]; [| reflexivity].
  destruct (exif_transpose pil image) as [im1|e]; [| reflexivity].
  destruct (resize_image pil im1 _) as [im2|e]; reflexivity.
Qed.

(** A photo that decodes and resamples fills the body with its own
    resampled pixels. *)
Lemma generate_body_photo raw im1 im2 x y :
  exif_transpose pil raw = Ok im1 ->
  resize_image pil im1 (DISPLAY_WIDTH, BODY_HEIGHT) = Ok im2 ->
  0 <= x < 600 -> 0 <= y < 338 ->
  getcolor (_generate_body pil (Some raw)) x y = getcolor im2 x y.
Proof.
  intros Hexif Hresize Hx Hy.
  unfold _generate_body, body_of. rewrite Hexif, Hresize.
  assert (size im2 = (600, 338)) as Hsize.
  { unfold resize_image in Hresize. destruct im1;
      try (destruct (resize pil _ _); inversion Hresize; reflexivity).
    inversion Hresize. reflexivity. }
  simpl. unfold paste. rewrite Hsize. unfold inside. simpl.
  rewrite !Z.sub_0_r.
  replace (0 <=? x) with true by lia. replace (x <? 600) with true by lia.
  replace (0 <=? y) with true by lia. replace (y <? 338) with true by lia.
  reflexivity.
Qed.

(** Below the header band the landscape canvas shows the body; the
    quarter turn moves canvas pixel (x, y) to frame pixel (399 - y, x). *)
Lemma generate_table_body_pixel content weather (w : World) frame w' x y :
  _generate_table pil py_format content weather w = (Ok frame, w') ->
  header_ok py_format weather = true ->
  0 <= x < 600 -> 62 <= y < 400 ->
  getcolor frame (399 - y) x
  = getcolor (_generate_body pil content) x (y - 62).
Proof.
  unfold _generate_table, try_except, _generate_header, header_ok.
  unfold bind, strftime, lift, ret. simpl.
  destruct (header_weather py_format weather) as [[temperature condition]|e];
    simpl; [| discriminate].
  destruct (_get_weather_icon_path condition) as [icon_path|e]; simpl;
    [| discriminate].
  unfold text_length.
  destruct (has_line_feed temperature); simpl; [discriminate |].
  intros Hframe _ Hx Hy. inversion Hframe; subst frame. clear Hframe.
  simpl. unfold paste at 1. rewrite generate_body_size.
  unfold inside. simpl. rewrite !Z.sub_0_r.
  unfold DISPLAY_HEIGHT, HEADER_HEIGHT.
  replace (400 - 1 - (399 - y) - 62) with (y - 62) by lia.
  replace (0 <=? x) with true by lia. replace (x <? 600) with true by lia.
  replace (0 <=? y - 62) with true by lia.
  replace (y - 62 <? 338) with true by lia.
  reflexivity.
Qed.

End Compositor.

(** C2: with a weather record whose "current" entry is not an object
    (here the text "Sunny", as [json.load] may return from the cache
    file), the header raises, the blanket handler of [_generate_table]
    answers with a blank 600 x 400 image, and the frame is not 400 x 600. *)
Theorem generate_table_fallback_is_landscape :
  header_ok Toy.toy_format (Some Toy.odd_cache) = false
  /\ fst (_generate_table Toy.toy_pillow Toy.toy_format None
            (Some Toy.odd_cache) Toy.empty_world)
     = Ok (new (600, 400) (0, 0, 0))
  /\ size (new (600, 400) (0, 0, 0)) <> (400, 600).
Proof. repeat split; try reflexivity. discriminate. Qed.

End DisplayFacts.

(** ** Content scheduler *)
Module SchedulerFacts.

Import PIL Sys Display Scheduler DisplayFacts.

(** C1: with only the stock mode enabled and a quote service that
    answers every symbol with an empty table, [fetch_stock_data] yields
    ten "No Data" placeholders, [generate_stock_image] raises
    [ValueError] on formatting the first price, nothing between it and
    [main_loop] catches, and the loop dies in its first tick.  News
    dies the same way when the thumbnail is not an image. *)
Theorem main_loop_dies_on_placeholder_price :
  display_modes (Toy.dwell false true false false) = ["stock"]
  /\ map Stock.current_price (Stock.fetch_stock_data Toy.no_quotes)
     = repeat (Stock.PriceText "No Data") 10
  /\ fst (main_loop Toy.toy_pillow Toy.toy_format
            (Toy.dwell false true false false) Toy.unavailable
            [Toy.feeds_with Toy.no_quotes Toy.unavailable] Toy.empty_world)
     = Died 0 Py.ValueError
  /\ fst (main_loop Toy.toy_pillow Toy.toy_format
            (Toy.dwell false false true false) Toy.unavailable
            [Toy.feeds_with Toy.no_quotes Toy.unavailable] Toy.empty_world)
     = Died 0 Py.UnidentifiedImageError.
Proof. repeat split; reflexivity. Qed.

Section Loop.

Variable pil : Pillow.
Variable py_format : pyval -> string.
Variable cfg : Config.

(** Without a content type the frame is composed and written to the
    debug directory, but [_cleanup_old_images(None)] then raises on
    [startswith(None)], [display_image] swallows the exception, and the
    panel is never reached. *)
Lemma display_image_without_type content weather (w : World) :
  exists w',
    display_image pil py_format content None weather w = (Ok tt, w')
    /\ epd w' = epd w /\ naps w' = naps w.
Proof.
  unfold display_image, try_except, bind.
  pose proof (generate_table_frame_naps pil py_format content weather w)
    as (frame & w1 & Htable & Hepd & Hnaps).
  rewrite Htable. unfold _save_debug_image, _cleanup_old_images.
  unfold bind, strftime, listdir, set_tmp_dir, raise, ret. simpl.
  destruct (elements _) as [|f fs] eqn:Hfiles.
  - apply elements_empty_inv in Hfiles. exfalso.
    apply (not_elem_of_empty (C := gset string)
             (ImageGen.image_name "None"
                (clock w1 (reads w1) "%Y%m%d-%H%M%S"))).
    rewrite <- Hfiles. apply elem_of_union_l, elem_of_singleton. reflexivity.
  - eexists. repeat split; assumption.
Qed.

(** The same call, with what it leaves behind: the clock was read
    three times and the frame stays in the debug directory under the
    name None_<timestamp>.png, which no cleanup ever removes. *)
Lemma display_image_without_type_run content weather (w : World) :
  exists frame w1,
    _generate_table pil py_format content weather w = (Ok frame, w1)
    /\ display_image pil py_format content None weather w
       = (Ok tt,
          {| tmp_dir :=
               {[ImageGen.image_name "None"
                   (clock w (2 + reads w)%nat "%Y%m%d-%H%M%S")]}
               ∪ tmp_dir w;
             clock := clock w; reads := (3 + reads w)%nat;
             epd := epd w; naps := naps w |}).
Proof.
  destruct (generate_table_run pil py_format content weather w)
    as (frame & Htable & _).
  exists frame. eexists. split; [exact Htable |].
  unfold display_image, try_except, bind. rewrite Htable.
  unfold _save_debug_image, _cleanup_old_images.
  unfold bind, strftime, listdir, set_tmp_dir, raise, ret. simpl.
  destruct (elements _) as [|f fs] eqn:Hfiles; [| reflexivity].
  apply elements_empty_inv in Hfiles. exfalso.
  apply (not_elem_of_empty (C := gset string)
           (ImageGen.image_name "None"
              (clock w (S (S (reads w))) "%Y%m%d-%H%M%S"))).
  rewrite <- Hfiles. apply elem_of_union_l, elem_of_singleton. reflexivity.
Qed.

(** A sleep of an admissible length returns and is recorded. *)
Lemma sleep_within_bounds seconds (w : World) :
  0 <= seconds <= MAX_SLEEP ->
  sleep seconds w
  = (Ok tt,
     {| tmp_dir := tmp_dir w; clock := clock w; reads := reads w;
        epd := epd w; naps := seconds :: naps w |}).
Proof.
  intros Hbounds. unfold sleep.
  assert (0 < MAX_SLEEP) as Hmax by reflexivity.
  replace (seconds <? - MAX_SLEEP) with false by lia.
  replace (MAX_SLEEP <? seconds) with false by lia.
  replace (seconds <? 0) with false by lia.
  reflexivity.
Qed.

Lemma generate_weather_image_short weather (w : World) :
  Render.short_forecast weather = true ->
  Render.generate_weather_image pil py_format weather w = (Ok None, w).
Proof.
  unfold Render.short_forecast, Render.generate_weather_image.
  destruct (Py.lookup weather "forecast") as [forecast|]; [| reflexivity].
  unfold bind, lift. destruct (Py.len forecast) as [n|e]; [| discriminate].
  intros ->. reflexivity.
Qed.

Lemma fetch_weather_short feeds (w : World) :
  Render.short_forecast (get_weather feeds) = true ->
  fetch_and_prepare_content pil py_format cfg feeds "weather" w
  = (Ok (Pair None None), w).
Proof.
  intros Hshort. unfold fetch_and_prepare_content.
  change ("weather" =? "stock")%string with false.
  change ("weather" =? "news")%string with false.
  change ("weather" =? "image")%string with false.
  change ("weather" =? "weather")%string with true.
  cbn [andb].
  destruct (ENABLE_WEATHER cfg); [| reflexivity].
  destruct (truthy_dict (get_weather feeds)); [| reflexivity].
  unfold bind. rewrite (generate_weather_image_short _ _ Hshort). reflexivity.
Qed.

End Loop.

(** C7: for a weather record without a forecast field or with fewer
    than three forecast entries, [generate_weather_image] returns no
    image as the claim says, but the tick does not skip the display: it
    calls [display_image] with no content and no type, which composes a
    frame with a blank body (reading the clock for the header) and
    writes it to the debug directory as None_<timestamp>.png; cleaning
    up then raises on [startswith(None)], the exception is swallowed,
    and only for that reason the panel driver is not called.  The file
    stays, and the dwell time elapses when it is an admissible length. *)
Theorem short_forecast_tick_still_composes_a_frame
    (pil : Pillow) (py_format : pyval -> string) (cfg : Config)
    (feeds : Feeds) (st : State) (w : World) :
  nth (current_mode_index st) (display_modes cfg) "" = "weather" ->
  Render.short_forecast (get_weather feeds) = true ->
  0 <= WEATHER_DISPLAY_TIME cfg <= MAX_SLEEP ->
  let weather := if ENABLE_WEATHER cfg then weather_data st else None in
  Render.generate_weather_image pil py_format (get_weather feeds) w
  = (Ok None, w)
  /\ fetch_and_prepare_content pil py_format cfg feeds "weather" w
     = (Ok (Pair None None), w)
  /\ exists frame w1 w2 st' w',
      _generate_table pil py_format None weather w = (Ok frame, w1)
      /\ display_image pil py_format None None weather w = (Ok tt, w2)
      /\ tick pil py_format cfg feeds st w = (Ok st', w')
      /\ tmp_dir w2 = tmp_dir w'
      /\ tmp_dir w'
         = {[ImageGen.image_name "None"
               (clock w (2 + reads w)%nat "%Y%m%d-%H%M%S")]}
           ∪ tmp_dir w
      /\ reads w' = (3 + reads w)%nat
      /\ epd w' = epd w
      /\ naps w' = WEATHER_DISPLAY_TIME cfg :: naps w.
Proof.
  intros Hmode Hshort Hdwell. cbv zeta.
  split; [apply generate_weather_image_short; exact Hshort |].
  split; [apply fetch_weather_short; exact Hshort |].
  destruct (display_image_without_type_run pil py_format None
              (if ENABLE_WEATHER cfg then weather_data st else None) w)
    as (frame & w1 & Htable & Hshow).
  exists frame, w1. eexists.
  unfold tick. rewrite Hmode. unfold bind at 1.
  rewrite (fetch_weather_short pil py_format cfg feeds w Hshort).
  unfold bind at 1. rewrite Hshow. unfold bind at 1.
  assert (sleep_time cfg "weather" = WEATHER_DISPLAY_TIME cfg) as Htime
    by reflexivity.
  rewrite Htime, (sleep_within_bounds _ _ Hdwell). unfold ret.
  do 2 eexists.
  split; [exact Htable |]. split; [reflexivity |]. split; [reflexivity |].
  repeat split.
Qed.

Lemma short_forecast_tick_still_composes_a_frame_witness :
  nth (current_mode_index Toy.first_tick) (display_modes Toy.weather_only) ""
  = "weather"
  /\ Render.short_forecast (get_weather Toy.two_day_feeds) = true
  /\ 0 <= WEATHER_DISPLAY_TIME Toy.weather_only <= MAX_SLEEP
  /\ (let weather :=
        if ENABLE_WEATHER Toy.weather_only
        then weather_data Toy.first_tick else None in
      Render.generate_weather_image Toy.toy_pillow Toy.toy_format
        (get_weather Toy.two_day_feeds) Toy.empty_world
      = (Ok None, Toy.empty_world)
      /\ fetch_and_prepare_content Toy.toy_pillow Toy.toy_format
           Toy.weather_only Toy.two_day_feeds "weather" Toy.empty_world
         = (Ok (Pair None None), Toy.empty_world)
      /\ exists frame w1 w2 st' w',
          _generate_table Toy.toy_pillow Toy.toy_format None weather
            Toy.empty_world
          = (Ok frame, w1)
          /\ display_image Toy.toy_pillow Toy.toy_format None None weather
               Toy.empty_world
             = (Ok tt, w2)
          /\ tick Toy.toy_pillow Toy.toy_format Toy.weather_only
               Toy.two_day_feeds Toy.first_tick Toy.empty_world
             = (Ok st', w')
          /\ tmp_dir w2 = tmp_dir w'
          /\ tmp_dir w'
             = {[ImageGen.image_name "None"
                   (clock Toy.empty_world (2 + reads Toy.empty_world)%nat
                      "%Y%m%d-%H%M%S")]}
               ∪ tmp_dir Toy.empty_world
          /\ reads w' = (3 + reads Toy.empty_world)%nat
          /\ epd w' = epd Toy.empty_world
          /\ naps w'
             = WEATHER_DISPLAY_TIME Toy.weather_only
               :: naps Toy.empty_world).
Proof.
  split; [reflexivity |]. split; [reflexivity |].
  split; [vm_compute; split; discriminate |].
  apply (short_forecast_tick_still_composes_a_frame Toy.toy_pillow
           Toy.toy_format Toy.weather_only Toy.two_day_feeds Toy.first_tick
           Toy.empty_world); [reflexivity | reflexivity |].
  vm_compute. split; discriminate.
Defined.

Section Pipeline.

Variable pil : Pillow.
Variable py_format : pyval -> string.
Variable cfg : Config.

(** The frame given to the panel is the one [_generate_table] returned:
    an RGB image, handed over as it is or not at all. *)
Lemma display_image_frame content content_type weather (w : World) :
  exists frame w1 w',
    _generate_table pil py_format content weather w = (Ok frame, w1)
    /\ display_image pil py_format content content_type weather w = (Ok tt, w')
    /\ mode frame = "RGB"
    /\ (epd w' = epd w
        \/ epd w' = Sys.Display frame :: GetBuffer frame :: epd w).
Proof.
  pose proof (generate_table_frame pil py_format content weather w)
    as (frame & w1 & Htable & Hepd & _ & Hmode & _).
  exists frame, w1.
  unfold display_image, try_except, bind. rewrite Htable.
  unfold _save_debug_image, _cleanup_old_images.
  unfold bind, strftime, listdir, set_tmp_dir, raise, ret, epd_call.
  destruct content_type as [kind|]; simpl.
  - eexists. repeat split; try assumption. right. rewrite Hepd. reflexivity.
  - destruct (elements _); simpl; eexists; repeat split; try assumption;
      [right | left]; rewrite ?Hepd; reflexivity.
Qed.

Lemma save_image_result image kind (w : World) :
  fst (ImageGen.save_image pil image kind w)
  = Ok (ImageGen.convert_to_6color pil image).
Proof. reflexivity. Qed.

(** Each generator returns its canvas only after quantising it. *)
Lemma generate_stock_image_quantized stock_data (w w' : World) im :
  Render.generate_stock_image pil stock_data w = (Ok (Some im), w') ->
  exists canvas,
    im = ImageGen.convert_to_6color pil
           (RGBImage (ImageGen.IMG_WIDTH, ImageGen.IMG_HEIGHT) canvas).
Proof.
  unfold Render.generate_stock_image.
  destruct stock_data as [|stock rest]; [discriminate |].
  unfold bind, lift.
  destruct (Render.stock_loop _ _ _ _) as [canvas|e]; [| discriminate].
  unfold ImageGen.save_image, ImageGen.cleanup_old_images.
  unfold bind, strftime, listdir, set_tmp_dir, ret. simpl.
  intros H. inversion H. eexists. reflexivity.
Qed.

Lemma generate_news_image_quantized http news (w w' : World) im :
  Render.generate_news_image pil http news w = (Ok (Some im), w') ->
  exists canvas,
    im = ImageGen.convert_to_6color pil
           (RGBImage (ImageGen.DISPLAY_WIDTH, ImageGen.DISPLAY_HEIGHT) canvas).
Proof.
  unfold Render.generate_news_image.
  destruct news as [news|]; [| discriminate].
  destruct (TextFit.fit_text_to_width _ _ _ _ _) as [headline headline_font].
  destruct (getsize pil headline_font headline) as [hw hh].
  unfold bind, lift.
  destruct (Render.paste_thumbnail _ _ _ _ _) as [canvas|e]; [| discriminate].
  destruct (TextFit.fit_text_to_area _ _ _ _ _ _) as [fitted summary_font].
  unfold ImageGen.save_image, ImageGen.cleanup_old_images.
  unfold bind, strftime, listdir, set_tmp_dir, ret. simpl.
  intros H. inversion H. eexists. reflexivity.
Qed.

Lemma generate_weather_image_quantized weather (w w' : World) im :
  Render.generate_weather_image pil py_format weather w = (Ok (Some im), w') ->
  exists canvas,
    im = ImageGen.convert_to_6color pil
           (RGBImage (ImageGen.IMG_WIDTH, ImageGen.IMG_HEIGHT) canvas).
Proof.
  unfold Render.generate_weather_image.
  destruct (Py.lookup weather "forecast") as [forecast|]; [| discriminate].
  unfold bind, lift.
  destruct (Py.len forecast) as [n|e]; [| discriminate].
  destruct (n <? 3); [discriminate |].
  unfold try_except, bind, lift.
  destruct (Render.weather_canvas _ _ _) as [canvas|e]; [| discriminate].
  unfold ImageGen.save_image, ImageGen.cleanup_old_images.
  unfold bind, strftime, listdir, set_tmp_dir, ret. simpl.
  intros H. inversion H. eexists. reflexivity.
Qed.

(** In photo mode the content is the fetched image itself, and nothing
    else happens. *)
Lemma fetch_photo feeds (w : World) :
  fetch_and_prepare_content pil py_format cfg feeds "image" w
  = (Ok (if ENABLE_IMAGES cfg
         then match fetch_next_image feeds with
              | Some raw_image => Pair (Some raw_image) (Some "image")
              | None => Pair None None
              end
         else Pair None None), w).
Proof.
  unfold fetch_and_prepare_content.
  change ("image" =? "stock")%string with false.
  change ("image" =? "news")%string with false.
  change ("image" =? "image")%string with true.
  change ("image" =? "weather")%string with false.
  cbn [andb].
  destruct (ENABLE_IMAGES cfg); cbn [andb].
  - destruct (fetch_next_image feeds); reflexivity.
  - destruct (ENABLE_WEATHER cfg); reflexivity.
Qed.

End Pipeline.

(** C10: the frame handed to the panel is the RGB canvas returned by
    [_generate_table], never a quantised (mode "P") image; the stock,
    news and weather generators return their canvas quantised, before
    compositing; in photo mode the content is the fetched image itself
    and the body of the frame shows its resampled pixels unchanged; so
    a frame may hold colours outside the six of the palette, as the
    grey photo shows. *)
Theorem frame_is_never_quantized
    (pil : Pillow) (py_format : pyval -> string) (cfg : Config) :
  (forall content content_type weather (w : World),
     exists frame w1 w',
       _generate_table pil py_format content weather w = (Ok frame, w1)
       /\ display_image pil py_format content content_type weather w
          = (Ok tt, w')
       /\ mode frame = "RGB"
       /\ (epd w' = epd w
           \/ epd w' = Sys.Display frame :: GetBuffer frame :: epd w))
  /\ (forall image, mode (ImageGen.convert_to_6color pil image) = "P")
  /\ (forall stock_data (w w' : World) im,
        Render.generate_stock_image pil stock_data w = (Ok (Some im), w') ->
        exists canvas,
          im = ImageGen.convert_to_6color pil (RGBImage (600, 338) canvas))
  /\ (forall http news (w w' : World) im,
        Render.generate_news_image pil http news w = (Ok (Some im), w') ->
        exists canvas,
          im = ImageGen.convert_to_6color pil (RGBImage (600, 400) canvas))
  /\ (forall weather (w w' : World) im,
        Render.generate_weather_image pil py_format weather w
        = (Ok (Some im), w') ->
        exists canvas,
          im = ImageGen.convert_to_6color pil (RGBImage (600, 338) canvas))
  /\ (forall feeds (w : World),
        fetch_and_prepare_content pil py_format cfg feeds "image" w
        = (Ok (if ENABLE_IMAGES cfg
               then match fetch_next_image feeds with
                    | Some raw_image => Pair (Some raw_image) (Some "image")
                    | None => Pair None None
                    end
               else Pair None None), w))
  /\ (forall raw im1 im2 weather (w w' : World) frame x y,
        exif_transpose pil raw = Ok im1 ->
        resize_image pil im1 (600, 338) = Ok im2 ->
        _generate_table pil py_format (Some raw) weather w = (Ok frame, w') ->
        header_ok py_format weather = true ->
        0 <= x < 600 -> 62 <= y < 400 ->
        getcolor frame (399 - y) x = getcolor im2 x (y - 62))
  /\ (match epd (snd (tick Toy.toy_pillow Toy.toy_format Toy.photos_only
                        Toy.two_day_feeds Toy.first_tick Toy.empty_world)) with
      | Sys.Display frame :: _ =>
          getcolor frame 337 0 = (128, 128, 128)
          /\ ~ In (128, 128, 128) ImageGen.six_colors
      | _ => False
      end).
Proof.
  split; [intros; apply display_image_frame |].
  split; [reflexivity |].
  split; [apply generate_stock_image_quantized |].
  split; [apply generate_news_image_quantized |].
  split; [apply generate_weather_image_quantized |].
  split; [apply fetch_photo |].
  split.
  - intros raw im1 im2 weather w w' frame x y Hexif Hresize Htable Hok Hx Hy.
    rewrite (generate_table_body_pixel pil py_format (Some raw) weather w
               frame w' x y Htable Hok Hx Hy).
    apply (generate_body_photo pil raw im1 im2); try assumption. lia.
  - vm_compute. split; [reflexivity |].
    intros H. repeat (destruct H as [H | H]; [discriminate |]). exact H.
Qed.

End SchedulerFacts.

(** ** Text fitter: which size is chosen, how wide lines get *)
Module TextFitChoice.

Import TextFit.

Section Metrics.

Variable getsize : Font -> string -> Z * Z.

(** The width loop only walks down, and every size it walked past was
    too wide. *)
Lemma width_loop_skipped text max_width path fuel size :
  fuel = Z.to_nat (size - 10) ->
  let r := width_loop getsize fuel text max_width path size in
  r <= size
  /\ forall s, r < s <= size -> too_wide getsize text max_width path s = true.
Proof.
  revert size.
  induction fuel as [|fuel IH]; intros size Hfuel; simpl.
  - split; [lia |]. intros s Hs. lia.
  - fold (too_wide getsize text max_width path size).
    destruct (too_wide getsize text max_width path size) eqn:Hguard.
    + destruct (IH (size - 1) ltac:(lia)) as [Hle Hskip].
      split; [lia |]. intros s Hs.
      destruct (Z.eq_dec s size) as [-> | Hne]; [exact Hguard |].
      apply Hskip. lia.
    + split; [lia |]. intros s Hs. lia.
Qed.

(** Every size the area loop walked past was rejected. *)
Lemma area_loop_skipped words max_width max_height path fuel size lines :
  fuel = Z.to_nat (size - 10) ->
  let r := area_loop getsize fuel words max_width max_height path size lines in
  forall s, snd r < s <= size -> 10 < s ->
    fits getsize words max_width max_height path s = false.
Proof.
  revert size.
  induction fuel as [|fuel IH]; intros size Hfuel; simpl.
  - intros s Hs. lia.
  - destruct (size >? 10) eqn:Hsize.
    + fold (fits getsize words max_width max_height path size).
      destruct (fits getsize words max_width max_height path size) eqn:Hfit.
      * simpl. intros s Hs. lia.
      * intros s Hs Hs10.
        destruct (Z.eq_dec s size) as [-> | Hne]; [exact Hfit |].
        apply (IH (size - 1) ltac:(lia)); lia.
    + simpl. intros s Hs. lia.
Qed.

(** The word loop only leaves lines that are within the width, empty,
    or one single word of the input. *)
Lemma wrap_loop_lines font max_width all_words words :
  (forall w, In w words -> In w all_words) ->
  forall temp_lines line,
    (forall l, In l (temp_lines ++ [line])%list ->
       fst (getsize font l) <= max_width \/ l = "" \/ In l all_words) ->
    let r := wrap_loop getsize font max_width words temp_lines line in
    forall l, In l (fst r ++ [snd r])%list ->
      fst (getsize font l) <= max_width \/ l = "" \/ In l all_words.
Proof.
  induction words as [|word rest IH]; intros Hsub temp_lines line Hinv; simpl.
  - exact Hinv.
  - destruct (_ <=? _) eqn:Hfit.
    + apply IH; [intros; apply Hsub; right; assumption |].
      intros l Hl. apply in_app_or in Hl as [Hl | [<- | []]].
      * apply Hinv. apply in_or_app. left. exact Hl.
      * left. lia.
    + apply IH; [intros; apply Hsub; right; assumption |].
      intros l Hl. apply in_app_or in Hl as [Hl | [<- | []]].
      * apply Hinv. rewrite <- app_nil_r. rewrite <- app_assoc. exact Hl.
      * right. right. apply Hsub. left. reflexivity.
Qed.

End Metrics.

(** X1: [fit_text_to_width] returns the largest size it can: the size
    returned is never above maxSize, and at every size between the
    returned one and maxSize the text is wider than maxWidth. *)
Theorem fit_text_to_width_picks_largest_size
    (getsize : Font -> string -> Z * Z) (text : string)
    (max_width : Z) (path : string) (max_font_size s : Z) :
  font_size (snd (fit_text_to_width getsize text max_width path max_font_size))
    < s <= max_font_size ->
  max_width < fst (getsize (truetype path s) text) /\ 10 < s.
Proof.
  unfold fit_text_to_width. simpl. intros Hs.
  destruct (width_loop_skipped getsize text max_width path
              (Z.to_nat (max_font_size - 10)) max_font_size eq_refl)
    as [_ Hskip].
  specialize (Hskip s Hs). unfold too_wide in Hskip.
  apply andb_true_iff in Hskip. lia.
Qed.

Lemma fit_text_to_width_picks_largest_size_witness :
  font_size (snd (fit_text_to_width mono_getsize "hello" 60 FONT_PATH 20))
    < 15 <= 20
  /\ 60 < fst (mono_getsize (truetype FONT_PATH 15) "hello") /\ 10 < 15.
Proof.
  split; [vm_compute; split; [reflexivity | discriminate] |].
  apply (fit_text_to_width_picks_largest_size mono_getsize "hello" 60
           FONT_PATH 20 15).
  vm_compute. split; [reflexivity | discriminate].
Defined.

(** X2: wrapping only regroups the words: read line by line, the lines
    of [wrap_lines] hold exactly the words given, in order, none cut,
    dropped or repeated. *)
Theorem wrap_lines_keeps_every_word
    (getsize : Font -> string -> Z * Z) (font : Font) (max_width : Z)
    (words : list string) :
  Forall (fun w => PyStr.is_word w = true) words ->
  concat (map PyStr.split (wrap_lines getsize font max_width words)) = words.
Proof.
  intros Hwords. unfold wrap_lines.
  pose proof (TextFitFacts.wrap_loop_words getsize font max_width words
                Hwords [] "") as H.
  destruct (wrap_loop getsize font max_width words [] "") as [temp_lines line].
  exact H.
Qed.

Lemma wrap_lines_keeps_every_word_witness :
  Forall (fun w => PyStr.is_word w = true) ["breaking"; "news"; "today"]
  /\ concat (map PyStr.split
       (wrap_lines mono_getsize (truetype FONT_PATH 10) 100
          ["breaking"; "news"; "today"]))
     = ["breaking"; "news"; "today"].
Proof.
  assert (Forall (fun w => PyStr.is_word w = true)
            ["breaking"; "news"; "today"]) as H
    by (repeat constructor).
  split; [exact H |].
  apply (wrap_lines_keeps_every_word mono_getsize (truetype FONT_PATH 10) 100
           ["breaking"; "news"; "today"] H).
Defined.

(** X3: a line of [wrap_lines] is wider than maxWidth only if it is one
    single word of the input (or the empty first line): words are never
    joined into a line that overflows. *)
Theorem wrap_lines_only_single_words_overflow
    (getsize : Font -> string -> Z * Z) (font : Font) (max_width : Z)
    (words : list string) (line : string) :
  In line (wrap_lines getsize font max_width words) ->
  fst (getsize font line) <= max_width \/ line = "" \/ In line words.
Proof.
  unfold wrap_lines.
  pose proof (wrap_loop_lines getsize font max_width words words
                (fun w H => H) [] "") as H.
  destruct (wrap_loop getsize font max_width words [] "") as [temp_lines l].
  intros Hin. apply H; [| exact Hin].
  intros l' [<- | []]. right. left. reflexivity.
Qed.

Lemma wrap_lines_only_single_words_overflow_witness :
  In "breaking news"
    (wrap_lines mono_getsize (truetype FONT_PATH 10) 130
       ["breaking"; "news"; "extraordinarily"])
  /\ (fst (mono_getsize (truetype FONT_PATH 10) "breaking news") <= 130
      \/ "breaking news" = ""
      \/ In "breaking news" ["breaking"; "news"; "extraordinarily"]).
Proof.
  assert (In "breaking news"
            (wrap_lines mono_getsize (truetype FONT_PATH 10) 130
               ["breaking"; "news"; "extraordinarily"])) as H
    by (vm_compute; left; reflexivity).
  split; [exact H |].
  apply (wrap_lines_only_single_words_overflow mono_getsize
           (truetype FONT_PATH 10) 130
           ["breaking"; "news"; "extraordinarily"] "breaking news" H).
Defined.

(** X4: when some tested size (above 10, at most maxSize) lets the
    wrapped text meet the height, [fit_text_to_area] returns the largest
    such size together with the wrapping at that size, joined by line
    feeds; the text keeps all its words and its lines meet the height. *)
Theorem fit_text_to_area_picks_largest_size
    (getsize : Font -> string -> Z * Z) (text : string)
    (max_width max_height : Z) (path : string) (max_font_size s0 : Z) :
  10 < s0 <= max_font_size ->
  fits getsize (PyStr.split text) max_width max_height path s0 = true ->
  let r := fit_text_to_area getsize text max_width max_height path
             max_font_size in
  let size := font_size (snd r) in
  snd r = truetype path size
  /\ s0 <= size <= max_font_size
  /\ (forall s, size < s <= max_font_size ->
        fits getsize (PyStr.split text) max_width max_height path s = false)
  /\ fst r = PyStr.join PyStr.LF
               (wrap_lines getsize (snd r) max_width (PyStr.split text))
  /\ total_height getsize (snd r)
       (wrap_lines getsize (snd r) max_width (PyStr.split text))
     <= max_height
  /\ PyStr.split (fst r) = PyStr.split text.
Proof.
  intros Hs0 Hfit0. unfold fit_text_to_area.
  pose proof (TextFitFacts.area_loop_result getsize (PyStr.split text)
                max_width max_height path (Z.to_nat (max_font_size - 10))
                max_font_size [] eq_refl) as H.
  pose proof (area_loop_skipped getsize (PyStr.split text)
                max_width max_height path (Z.to_nat (max_font_size - 10))
                max_font_size [] eq_refl) as Hskip.
  destruct (area_loop getsize (Z.to_nat (max_font_size - 10))
              (PyStr.split text) max_width max_height path max_font_size [])
    as [lines size].
  simpl in *.
  destruct H as [(_ & _ & Hno) | (Hsize & Hfit & ->)].
  - rewrite Hno in Hfit0 by exact Hs0. discriminate.
  - assert (s0 <= size) as Hle.
    { destruct (Z_le_gt_dec s0 size) as [Hle | Hgt]; [exact Hle |].
      rewrite Hskip in Hfit0 by lia. discriminate. }
    repeat split; try lia.
    + intros s Hs. apply Hskip; lia.
    + unfold fits in Hfit. lia.
    + apply TextFitFacts.wrap_lines_words.
Qed.

Lemma fit_text_to_area_picks_largest_size_witness :
  10 < 12 <= 30
  /\ fits mono_getsize (PyStr.split "hello world") 100 40 FONT_PATH 12 = true
  /\ (let r := fit_text_to_area mono_getsize "hello world" 100 40 FONT_PATH
                 30 in
      let size := font_size (snd r) in
      snd r = truetype FONT_PATH size
      /\ 12 <= size <= 30
      /\ (forall s, size < s <= 30 ->
            fits mono_getsize (PyStr.split "hello world") 100 40 FONT_PATH s
            = false)
      /\ fst r = PyStr.join PyStr.LF
                   (wrap_lines mono_getsize (snd r) 100
                      (PyStr.split "hello world"))
      /\ total_height mono_getsize (snd r)
           (wrap_lines mono_getsize (snd r) 100 (PyStr.split "hello world"))
         <= 40
      /\ PyStr.split (fst r) = PyStr.split "hello world").
Proof.
  split; [lia |]. split; [reflexivity |].
  apply (fit_text_to_area_picks_largest_size mono_getsize "hello world" 100 40
           FONT_PATH 30 12); [lia | reflexivity].
Defined.

End TextFitChoice.

(** ** Image archive: what a cleanup deletes *)
Module ArchiveOrder.

Import ImageGen.
#[local] Set Warnings "-clear-no-such-hyp".
#[local] Existing Instance ArchiveFacts.desc_trans.
#[local] Existing Instance ArchiveFacts.desc_antisymm.

Lemma length_images_of_cleanup_dir kind (dir : gset string) :
  (List.length (images_of kind (cleanup_dir kind dir)) <= MAX_IMAGES)%nat.
Proof.
  rewrite ArchiveFacts.images_of_cleanup_dir, length_take. lia.
Qed.

Lemma cleanup_dir_small kind (dir : gset string) :
  (List.length (images_of kind dir) <= MAX_IMAGES)%nat ->
  cleanup_dir kind dir = dir.
Proof.
  intros Hlen. unfold cleanup_dir.
  destruct (MAX_IMAGES <? List.length (images_of kind dir))%nat eqn:Hlt;
    [| reflexivity].
  apply Nat.ltb_lt in Hlt. lia.
Qed.

(** X5: [cleanup_old_images] only deletes files of its own kind, and
    only the lowest names: a file it deleted carries the prefix and
    sorts strictly below every file of the kind it kept. *)
Theorem cleanup_deletes_only_the_lowest_names
    (kind : string) (dir : gset string) (f g : string) :
  f ∈ dir -> f ∉ cleanup_dir kind dir ->
  g ∈ cleanup_dir kind dir -> PyStr.startswith g kind = true ->
  PyStr.startswith f kind = true
  /\ String.leb f g = true
  /\ f <> g
  /\ (MAX_IMAGES < List.length (images_of kind dir))%nat.
Proof.
  intros Hf Hgone Hg Hpre.
  assert (f ∈ drop MAX_IMAGES (images_of kind dir)) as Hdrop.
  { destruct (decide (f ∈ drop MAX_IMAGES (images_of kind dir)))
      as [Hin | Hout]; [exact Hin |].
    exfalso. apply Hgone. apply ArchiveFacts.elem_of_cleanup_dir. tauto. }
  assert (g ∈ take MAX_IMAGES (images_of kind dir)) as Htake.
  { rewrite <- ArchiveFacts.images_of_cleanup_dir.
    apply ArchiveFacts.elem_of_images_of. tauto. }
  pose proof (ArchiveFacts.sorted_images_of kind dir) as Hsorted.
  pose proof (ArchiveFacts.NoDup_images_of kind dir) as Hnodup.
  rewrite <- (take_drop MAX_IMAGES (images_of kind dir)) in Hsorted, Hnodup.
  repeat split.
  - assert (f ∈ images_of kind dir) as Hin.
    { rewrite <- (take_drop MAX_IMAGES). apply elem_of_app. right. exact Hdrop. }
    apply ArchiveFacts.elem_of_images_of in Hin. tauto.
  - apply (StronglySorted_app_1_elem_of desc _ _ g f Hsorted Htake Hdrop).
  - intros ->. apply NoDup_app in Hnodup as (_ & Hdisjoint & _).
    exact (Hdisjoint g Htake Hdrop).
  - destruct (decide (MAX_IMAGES < List.length (images_of kind dir))%nat)
      as [Hlt | Hge]; [exact Hlt |].
    rewrite drop_ge in Hdrop by lia. apply elem_of_nil in Hdrop. contradiction.
Qed.

Lemma cleanup_deletes_only_the_lowest_names_witness :
  ("news_20250101-120000.png" ∈ Samples.crowded_dir)
  /\ ("news_20250101-120000.png" ∉ cleanup_dir "news" Samples.crowded_dir)
  /\ ("news_20250101-120005.png" ∈ cleanup_dir "news" Samples.crowded_dir)
  /\ PyStr.startswith "news_20250101-120005.png" "news" = true
  /\ PyStr.startswith "news_20250101-120000.png" "news" = true
  /\ String.leb "news_20250101-120000.png" "news_20250101-120005.png" = true
  /\ "news_20250101-120000.png" <> "news_20250101-120005.png"
  /\ (MAX_IMAGES < List.length (images_of "news" Samples.crowded_dir))%nat.
Proof.
  assert ("news_20250101-120000.png" ∈ Samples.crowded_dir) as H1
    by (apply (bool_decide_unpack _); vm_compute; exact I).
  assert ("news_20250101-120000.png" ∉ cleanup_dir "news" Samples.crowded_dir)
    as H2 by (apply (bool_decide_unpack _); vm_compute; exact I).
  assert ("news_20250101-120005.png" ∈ cleanup_dir "news" Samples.crowded_dir)
    as H3 by (apply (bool_decide_unpack _); vm_compute; exact I).
  split; [exact H1 |]. split; [exact H2 |]. split; [exact H3 |].
  split; [reflexivity |].
  apply (cleanup_deletes_only_the_lowest_names "news" Samples.crowded_dir
           "news_20250101-120000.png" "news_20250101-120005.png" H1 H2 H3).
  reflexivity.
Defined.

(** X6: writing a second image of the same kind within the same second
    changes nothing: the file name is the same, the write lands on the
    file of the first store (or is deleted again at once), and the
    directory is the one the first store left. *)
Theorem store_twice_in_one_second
    (kind timestamp : string) (dir : gset string) :
  store kind timestamp (store kind timestamp dir) = store kind timestamp dir.
Proof.
  set (n := image_name kind timestamp).
  set (A := store kind timestamp dir).
  set (L := images_of kind ({[n]} ∪ dir)).
  assert (images_of kind A = take MAX_IMAGES L) as HA
    by apply ArchiveFacts.images_of_store.
  destruct (decide (n ∈ A)) as [Hin | Hout].
  - unfold store at 1. fold n. fold A.
    replace ({[n]} ∪ A) with A by set_solver.
    apply cleanup_dir_small. rewrite HA, length_take. lia.
  - assert (n ∈ drop MAX_IMAGES L) as Hdrop.
    { destruct (decide (n ∈ drop MAX_IMAGES L)) as [H | H]; [exact H |].
      exfalso. apply Hout. apply ArchiveFacts.elem_of_cleanup_dir.
      split; [set_solver | exact H]. }
    pose proof (ArchiveFacts.sorted_images_of kind ({[n]} ∪ dir)) as Hsorted.
    pose proof (ArchiveFacts.NoDup_images_of kind ({[n]} ∪ dir)) as Hnodup.
    fold L in Hsorted, Hnodup.
    rewrite <- (take_drop MAX_IMAGES L) in Hsorted, Hnodup.
    assert (List.length (take MAX_IMAGES L) = MAX_IMAGES) as Hten.
    { rewrite length_take. apply Nat.min_l.
      destruct (decide (MAX_IMAGES <= List.length L)%nat) as [H | H];
        [exact H |].
      rewrite drop_ge in Hdrop by lia. apply elem_of_nil in Hdrop.
      contradiction. }
    assert (images_of kind ({[n]} ∪ A) = (take MAX_IMAGES L ++ [n])%list)
      as Hlist.
    { apply (StronglySorted_unique desc).
      - apply ArchiveFacts.sorted_images_of.
      - apply StronglySorted_app_2.
        + intros x1 x2 Hx1 Hx2. apply list_elem_of_singleton in Hx2 as ->.
          apply (StronglySorted_app_1_elem_of desc _ _ x1 n Hsorted Hx1 Hdrop).
        + apply (StronglySorted_app_1_l desc _ _ Hsorted).
        + repeat constructor.
      - apply NoDup_Permutation.
        + apply ArchiveFacts.NoDup_images_of.
        + apply NoDup_app. split; [| split].
          * apply NoDup_app in Hnodup. tauto.
          * intros x Hx1 Hx2. apply list_elem_of_singleton in Hx2 as ->.
            apply NoDup_app in Hnodup as (_ & Hdisjoint & _).
            exact (Hdisjoint n Hx1 Hdrop).
          * apply NoDup_singleton.
        + intros x. rewrite ArchiveFacts.elem_of_images_of.
          rewrite elem_of_app, list_elem_of_singleton, <- HA.
          rewrite ArchiveFacts.elem_of_images_of.
          pose proof (ArchiveFacts.image_name_prefixed kind timestamp) as Hpre.
          fold n in Hpre. set_solver. }
    unfold store at 1. fold n. fold A. unfold cleanup_dir.
    rewrite Hlist, length_app, Hten. simpl.
    replace (MAX_IMAGES <? MAX_IMAGES + 1)%nat with true
      by (symmetry; apply Nat.ltb_lt; lia).
    rewrite drop_app_length' by (symmetry; exact Hten).
    simpl. set_solver.
Qed.

End ArchiveOrder.

(** ** Stock records: flat quotes, and what the ticker image needs *)
Module StockImage.

Import PIL Sys Stock Render Shapes.

Lemma rnd_diag (q : Q) : F64.rnd (q - q) = F64.Finite 0.
Proof.
  unfold F64.rnd.
  assert (Qcompare (q - q) 0 = Eq) as ->; [| reflexivity].
  apply Qeq_alt. ring.
Qed.

Lemma sub_diag (x : F64.float64) :
  F64.sub x x = if F64.finite x then F64.Finite 0 else F64.NaN.
Proof. destruct x as [q | | | |]; try reflexivity. apply rnd_diag. Qed.

(** Zero divided by a positive double, times 100. *)
Lemma percent_of_no_change (x : F64.float64) :
  F64.gt0 x = true -> F64.finite x = true ->
  F64.mul (F64.div (F64.Finite 0) x) (F64.Finite 100) = F64.Finite 0.
Proof.
  destruct x as [q | | | |]; try discriminate. intros Hpos _.
  unfold F64.gt0 in Hpos. apply negb_true_iff in Hpos.
  assert (~ q <= 0)%Q as Hq
    by (intros H; apply Qle_bool_iff in H; congruence).
  assert (Qle_bool 0 q = true) as Hle
    by (apply Qle_bool_iff, Qlt_le_weak, Qnot_le_lt; exact Hq).
  assert (Qeq_bool q 0 = false) as Hne.
  { destruct (Qeq_bool q 0) eqn:H; [| reflexivity].
    apply Qeq_bool_iff in H. exfalso. apply Hq. rewrite H. apply Qle_refl. }
  unfold F64.div. cbn [F64.negative F64.infinite F64.is_zero].
  rewrite Hle, Hne. reflexivity.
Qed.

(** X7: a usable table with a single row is quoted flat: the previous
    close is taken to be the current one, so the direction is always
    the down arrow, and for a finite close the change and the percent
    change are 0; a close that is NaN or infinite gives the change NaN. *)
Theorem single_row_table_gives_flat_quote
    (yahoo : string -> Response) (sym : string) (labels : list string)
    (row : list F64.float64) :
  yahoo sym = Frame {| columns := TextLabels labels; rows := [row] |} ->
  usable (yahoo sym) = true ->
  raises (yahoo sym) = false ->
  let close :=
    iloc_back 1 "close" (map PyStr.lower labels)
      {| columns := TextLabels labels; rows := [row] |} in
  exists r,
    fetch_one yahoo sym = Ok r
    /\ symbol r = sym
    /\ current_price r = PriceValue (F64.round2 close)
    /\ direction r = "▼"
    /\ (F64.finite close = true ->
        change r = F64.Finite 0 /\ percent_change r = F64.Finite 0)
    /\ (F64.finite close = false -> change r = F64.NaN).
Proof.
  intros Hframe Husable Hraises. cbv zeta.
  unfold fetch_one. rewrite Hframe in *.
  unfold usable in Husable. unfold raises in Hraises.
  cbn [str_lower columns] in *. rewrite Husable in *.
  cbn [andb] in Hraises. rewrite Hraises.
  eexists. split; [reflexivity |].
  unfold quote. cbn [rows List.length Nat.ltb Nat.leb].
  cbn [symbol current_price change percent_change direction].
  set (close := iloc_back 1 "close" _ _).
  rewrite sub_diag.
  split; [reflexivity |]. split; [reflexivity |].
  split; [destruct (F64.finite close); reflexivity |].
  split.
  - intros Hfinite. rewrite Hfinite. split; [reflexivity |].
    destruct (F64.gt0 close) eqn:Hpos; [| reflexivity].
    rewrite (percent_of_no_change close Hpos Hfinite). reflexivity.
  - intros Hfinite. rewrite Hfinite. reflexivity.
Qed.

Lemma single_row_table_gives_flat_quote_witness :
  Samples.one_day_quotes "TSLA"
  = Frame {| columns := TextLabels ["Open"; "Close"];
             rows := [[F64.Finite 10; F64.Finite 12]] |}
  /\ usable (Samples.one_day_quotes "TSLA") = true
  /\ raises (Samples.one_day_quotes "TSLA") = false
  /\ (let close :=
        iloc_back 1 "close" (map PyStr.lower ["Open"; "Close"])
          {| columns := TextLabels ["Open"; "Close"];
             rows := [[F64.Finite 10; F64.Finite 12]] |} in
      exists r,
        fetch_one Samples.one_day_quotes "TSLA" = Ok r
        /\ symbol r = "TSLA"
        /\ current_price r = PriceValue (F64.round2 close)
        /\ direction r = "▼"
        /\ (F64.finite close = true ->
            change r = F64.Finite 0 /\ percent_change r = F64.Finite 0)
        /\ (F64.finite close = false -> change r = F64.NaN)).
Proof.
  split; [reflexivity |]. split; [reflexivity |]. split; [reflexivity |].
  apply (single_row_table_gives_flat_quote Samples.one_day_quotes "TSLA"
           ["Open"; "Close"] [F64.Finite 10; F64.Finite 12]); reflexivity.
Defined.

Section Rendering.

Variable pil : Pillow.

(** Within the first ten records the row never reaches the sixth, so
    the loop ends only at the end of the list or on a price that cannot
    be formatted. *)
Lemma stock_loop_outcome stocks :
  forall index canvas,
    0 <= index -> index + Z.of_nat (List.length stocks) <= 10 ->
    if forallb numeric_price stocks
    then exists canvas', stock_loop pil index stocks canvas = Ok canvas'
    else stock_loop pil index stocks canvas = Raise Py.ValueError.
Proof.
  induction stocks as [|stock rest IH]; intros index canvas Hlow Hhigh.
  - simpl. eexists. reflexivity.
  - simpl in Hhigh. cbn [forallb stock_loop].
    assert (index / 2 < 5) as Hrow
      by (apply Z.div_lt_upper_bound; lia).
    replace (index / 2 >=? 5) with false by lia.
    unfold numeric_price at 1, format_price.
    destruct (current_price stock) as [q | s]; cbn [andb].
    + apply IH; lia.
    + reflexivity.
Qed.

End Rendering.

(** X8: given at least one record, [generate_stock_image] depends on
    the first ten only: when their prices are all numbers it returns the
    quantised 600 x 338 canvas and files it as a stock image; when one
    of them is text it raises [ValueError] and leaves the directory
    alone.  Records past the tenth are never read. *)
Theorem generate_stock_image_reads_ten_prices
    (pil : Pillow) (stock_data : list StockRecord) (w : World) :
  stock_data <> [] ->
  if forallb numeric_price (take 10 stock_data)
  then exists canvas w',
      generate_stock_image pil stock_data w
      = (Ok (Some (ImageGen.convert_to_6color pil
                     (RGBImage (600, 338) canvas))), w')
      /\ tmp_dir w'
         = ImageGen.store "stock" (clock w (reads w) "%Y%m%d-%H%M%S")
             (tmp_dir w)
      /\ epd w' = epd w
  else generate_stock_image pil stock_data w = (Raise Py.ValueError, w).
Proof.
  intros Hdata. unfold generate_stock_image.
  destruct stock_data as [|stock rest]; [contradiction |].
  pose proof (stock_loop_outcome pil (take 10 (stock :: rest)) 0
                (fun _ _ => BLACK) ltac:(lia)) as H.
  rewrite length_take in H. specialize (H ltac:(lia)).
  destruct (forallb numeric_price (take 10 (stock :: rest))).
  - destruct H as [canvas Hloop].
    unfold bind at 1, lift. rewrite Hloop.
    exists canvas. eexists. split; [reflexivity |]. split; reflexivity.
  - unfold bind at 1, lift. rewrite H. reflexivity.
Qed.

Lemma generate_stock_image_reads_ten_prices_witness :
  fetch_stock_data Samples.two_day_quotes <> []
  /\ if forallb numeric_price (take 10 (fetch_stock_data Samples.two_day_quotes))
     then exists canvas w',
         generate_stock_image Toy.toy_pillow
           (fetch_stock_data Samples.two_day_quotes) Toy.empty_world
         = (Ok (Some (ImageGen.convert_to_6color Toy.toy_pillow
                        (RGBImage (600, 338) canvas))), w')
         /\ tmp_dir w'
            = ImageGen.store "stock"
                (clock Toy.empty_world (reads Toy.empty_world)
                   "%Y%m%d-%H%M%S")
                (tmp_dir Toy.empty_world)
         /\ epd w' = epd Toy.empty_world
     else generate_stock_image Toy.toy_pillow
            (fetch_stock_data Samples.two_day_quotes) Toy.empty_world
          = (Raise Py.ValueError, Toy.empty_world).
Proof.
  assert (fetch_stock_data Samples.two_day_quotes <> []) as H
    by (vm_compute; discriminate).
  split; [exact H |].
  apply (generate_stock_image_reads_ten_prices Toy.toy_pillow
           (fetch_stock_data Samples.two_day_quotes) Toy.empty_world H).
Defined.

(** X9: producer and image together: when the loop body of the
    producer raises for no configured symbol (every symbol is answered
    with a table whose column labels are text and which, when valid,
    has a single close column), the ticker image is produced exactly
    when every table is usable (has rows, columns and a close column); a
    single unusable table puts a text price among the ten records and
    the generator raises. *)
Theorem stock_image_needs_every_table_usable
    (pil : Pillow) (yahoo : string -> Response) (w : World) :
  (forall sym, In sym STOCK_SYMBOLS -> raises (yahoo sym) = false) ->
  Py.is_ok (fst (generate_stock_image pil (fetch_stock_data yahoo) w)) = true
  <-> (forall sym, In sym STOCK_SYMBOLS -> usable (yahoo sym) = true).
Proof.
  intros Hanswers.
  assert (fetch_stock_data yahoo = map (record_of yahoo) STOCK_SYMBOLS)
    as Hdata.
  { unfold fetch_stock_data, fetch_symbols.
    pose proof (StockFacts.fetch_loop_spec yahoo STOCK_SYMBOLS []) as H.
    replace (forallb (fun s => negb (raises (yahoo s))) STOCK_SYMBOLS)
      with true in H.
    - rewrite H. reflexivity.
    - symmetry. apply forallb_forall. intros sym Hsym.
      rewrite (Hanswers sym Hsym). reflexivity. }
  assert (forall sym, numeric_price (record_of yahoo sym) = usable (yahoo sym))
    as Hprice.
  { intros sym. unfold record_of.
    destruct (yahoo sym) as [e| |price_data] eqn:Hsym; try reflexivity.
    destruct (usable (Frame price_data)); reflexivity. }
  pose proof (generate_stock_image_reads_ten_prices pil
                (fetch_stock_data yahoo) w) as H.
  rewrite Hdata in H |- *.
  specialize (H ltac:(discriminate)).
  change (take 10 (map (record_of yahoo) STOCK_SYMBOLS))
    with (map (record_of yahoo) STOCK_SYMBOLS) in H.
  destruct (forallb numeric_price (map (record_of yahoo) STOCK_SYMBOLS))
    eqn:Hall.
  - destruct H as (canvas & w' & -> & _). split; [| reflexivity].
    intros _ sym Hsym. rewrite <- Hprice.
    rewrite forallb_forall in Hall. apply Hall.
    apply in_map. exact Hsym.
  - rewrite H. split; [discriminate |].
    intros Husable. exfalso.
    assert (forallb numeric_price (map (record_of yahoo) STOCK_SYMBOLS)
            = true) as Hyes.
    { apply forallb_forall. intros r Hr.
      apply in_map_iff in Hr as (sym & <- & Hsym). rewrite Hprice.
      apply Husable. exact Hsym. }
    congruence.
Qed.

Lemma stock_image_needs_every_table_usable_witness :
  (forall sym, In sym STOCK_SYMBOLS ->
     raises (Samples.two_day_quotes sym) = false)
  /\ (Py.is_ok (fst (generate_stock_image Toy.toy_pillow
                      (fetch_stock_data Samples.two_day_quotes)
                      Toy.empty_world)) = true
      <-> (forall sym, In sym STOCK_SYMBOLS ->
             usable (Samples.two_day_quotes sym) = true)).
Proof.
  assert (forall sym, In sym STOCK_SYMBOLS ->
            raises (Samples.two_day_quotes sym) = false) as H
    by (intros sym _; reflexivity).
  split; [exact H |].
  apply (stock_image_needs_every_table_usable Toy.toy_pillow
           Samples.two_day_quotes Toy.empty_world H).
Defined.

End StockImage.

(** ** Weather and news images: when they are produced *)
Module BodyImages.

Import PIL Sys Render Shapes.

Section Rendering.

Variable pil : Pillow.
Variable py_format : pyval -> string.

Lemma weather_column_outcome i day canvas :
  Py.is_ok (weather_column pil py_format i day canvas)
  = drawable_day day && sun_icons pil.
Proof.
  unfold weather_column, drawable_day, sun_icons, text_or_absent.
  destruct day as [| b | n | q | s | l | d]; try reflexivity.
  unfold Py.get, as_text, as_str.
  destruct (Py.lookup d "date") as [[| b | n | q | s | l | d'] |];
    try reflexivity;
    (destruct (load_svg_icon pil "sunrise.svg") as [sunrise |];
     [| cbn; rewrite ?andb_false_r; reflexivity];
     destruct (Py.lookup d "sunrise") as [[| b1 | n1 | q1 | s1 | l1 | d1] |];
     try reflexivity;
     (destruct (load_svg_icon pil "sunset.svg") as [sunset |];
      [| cbn; rewrite ?andb_false_r; reflexivity];
      destruct (Py.lookup d "sunset") as [[| b2 | n2 | q2 | s2 | l2 | d2] |];
      try reflexivity;
      (destruct (Py.lookup d "moon_phase")
         as [[| b3 | n3 | q3 | s3 | l3 | d3] |];
       try reflexivity;
       cbn; destruct (PyStr.split s3); reflexivity))).
Qed.

Lemma weather_loop_outcome days :
  forall i canvas,
    Py.is_ok (weather_loop pil py_format i days canvas)
    = forallb (fun day => drawable_day day && sun_icons pil) days.
Proof.
  induction days as [|day rest IH]; intros i canvas; [reflexivity |].
  cbn [weather_loop forallb].
  rewrite <- weather_column_outcome with (i := i) (canvas := canvas).
  destruct (weather_column pil py_format i day canvas) as [canvas' | e];
    [apply IH | reflexivity].
Qed.

Lemma forallb_and_const {A} (f : A -> bool) (b : bool) (l : list A) :
  forall x,
    forallb (fun y => f y && b) (x :: l) = forallb f (x :: l) && b.
Proof.
  induction l as [|y l IH]; intros x.
  - simpl. rewrite !andb_true_r. reflexivity.
  - cbn [forallb] in *. rewrite IH.
    destruct (f x), (f y), (forallb f l), b; reflexivity.
Qed.

(** The canvas comes out exactly for a list of days that can all be
    drawn; text and objects in place of the list never do. *)
Lemma weather_canvas_outcome forecast n :
  Py.len forecast = Ok n -> 3 <= n ->
  Py.is_ok (weather_canvas pil py_format forecast)
  = match forecast with
    | Py.PyList l => forallb drawable_day (take 3 l) && sun_icons pil
    | _ => false
    end.
Proof.
  intros Hlen Hn. unfold weather_canvas, first_three.
  destruct forecast as [| b | k | q | s | l | d]; try reflexivity.
  - simpl in Hlen. inversion Hlen; subst n. clear Hlen.
    destruct s as [|c s]; [simpl in Hn; lia |].
    reflexivity.
  - simpl in Hlen. inversion Hlen; subst n. clear Hlen.
    rewrite weather_loop_outcome.
    destruct l as [|day l]; [simpl in Hn; lia |].
    change (take 3 (day :: l)) with (day :: take 2 l).
    apply forallb_and_const.
Qed.

End Rendering.

(** X10: [generate_weather_image] raises only when the forecast entry
    has no length (None, a number, a boolean), with the exception of
    [len]; every failure while drawing is swallowed and gives no image;
    and unless an image is returned nothing in the world has changed. *)
Theorem generate_weather_image_raises_only_on_length
    (pil : Pillow) (py_format : pyval -> string)
    (weather_data : Py.pydict) (w : World) :
  let out := generate_weather_image pil py_format weather_data w in
  (forall e,
     fst out = Raise e
     <-> exists forecast,
           Py.lookup weather_data "forecast" = Some forecast
           /\ Py.len forecast = Raise e)
  /\ ((exists image, fst out = Ok (Some image)) \/ snd out = w).
Proof.
  cbv zeta. unfold generate_weather_image.
  destruct (Py.lookup weather_data "forecast") as [forecast |].
  - unfold bind, lift.
    destruct (Py.len forecast) as [n | e'] eqn:Hlen; cbn beta iota.
    + destruct (n <? 3); cbn beta iota.
      * split; [| right; reflexivity].
        intros e. split; [discriminate |].
        intros (f & Hf & He). inversion Hf; subst f. congruence.
      * unfold try_except, bind, lift.
        destruct (weather_canvas pil py_format forecast) as [canvas | e'];
          cbn beta iota.
        -- split; [| left; eexists; reflexivity].
           intros e. split; [discriminate |].
           intros (f & Hf & He). inversion Hf; subst f. congruence.
        -- split; [| right; reflexivity].
           intros e. split; [discriminate |].
           intros (f & Hf & He). inversion Hf; subst f. congruence.
    + split; [| right; reflexivity].
      intros e. split.
      * intros He. inversion He; subst e'. exists forecast. tauto.
      * intros (f & Hf & He). inversion Hf; subst f.
        rewrite Hlen in He. inversion He. reflexivity.
  - split; [| right; reflexivity].
    intros e. split; [discriminate |].
    intros (f & Hf & _). discriminate.
Qed.

(** The two outcomes of [generate_weather_image] apart from raising. *)
Lemma generate_weather_image_outcome
    (pil : Pillow) (py_format : pyval -> string)
    (weather_data : Py.pydict) (w : World) :
  if drawable_forecast weather_data && sun_icons pil
  then exists canvas,
      generate_weather_image pil py_format weather_data w
      = (Ok (Some (ImageGen.convert_to_6color pil
                     (RGBImage (600, 338) canvas))),
         snd (ImageGen.save_image pil (RGBImage (600, 338) canvas)
                "weather" w))
  else forall image,
      fst (generate_weather_image pil py_format weather_data w)
      <> Ok (Some image).
Proof.
  unfold generate_weather_image, drawable_forecast.
  destruct (Py.lookup weather_data "forecast") as [forecast |];
    [| cbn [andb]; intros image; discriminate].
  unfold bind, lift.
  destruct (Py.len forecast) as [n | e] eqn:Hlen; cbn beta iota.
  - destruct (n <? 3) eqn:Hn; cbn beta iota.
    + destruct forecast as [| b | k | q | s | l | d];
        try (cbn [andb]; intros image; discriminate).
      simpl in Hlen. inversion Hlen; subst n.
      apply Z.ltb_lt in Hn.
      replace (3 <=? List.length l)%nat with false
        by (symmetry; apply Nat.leb_gt; lia).
      intros image. discriminate.
    + pose proof (weather_canvas_outcome pil py_format forecast n Hlen
                    ltac:(lia)) as Hcanvas.
      unfold try_except, bind, lift.
      destruct (weather_canvas pil py_format forecast) as [canvas | e];
        cbn beta iota.
      * destruct forecast as [| b | k | q | s | l | d]; try discriminate.
        simpl in Hlen. inversion Hlen; subst n.
        apply Z.ltb_ge in Hn.
        replace (3 <=? List.length l)%nat with true
          by (symmetry; apply Nat.leb_le; lia).
        cbn [andb]. rewrite <- Hcanvas. cbn [Py.is_ok].
        exists canvas. reflexivity.
      * destruct forecast as [| b | k | q | s | l | d];
          try (cbn [andb]; intros image; discriminate).
        rewrite <- andb_assoc, <- Hcanvas, andb_false_r.
        intros image. discriminate.
  - destruct forecast; try (simpl in Hlen; discriminate Hlen);
      cbn [andb]; intros image; discriminate.
Qed.

(** X11: [generate_weather_image] returns an image exactly when the
    forecast is a list of at least three days whose first three can be
    drawn (an object with text for date, sunrise and sunset where
    present, and a moon phase holding a word) and both sun icons load;
    the image is then filed as a weather image.  In particular no
    weather image is ever produced while sunrise.svg or sunset.svg is
    missing. *)
Theorem generate_weather_image_needs_three_drawable_days
    (pil : Pillow) (py_format : pyval -> string)
    (weather_data : Py.pydict) (w : World) :
  let out := generate_weather_image pil py_format weather_data w in
  ((exists image, fst out = Ok (Some image))
   <-> drawable_forecast weather_data && sun_icons pil = true)
  /\ ((exists image, fst out = Ok (Some image)) ->
      tmp_dir (snd out)
      = ImageGen.store "weather" (clock w (reads w) "%Y%m%d-%H%M%S")
          (tmp_dir w)).
Proof.
  cbv zeta.
  pose proof (generate_weather_image_outcome pil py_format weather_data w)
    as H.
  destruct (drawable_forecast weather_data && sun_icons pil).
  - destruct H as [canvas ->]. split.
    + split; [reflexivity | intros _; eexists; reflexivity].
    + intros _. reflexivity.
  - split.
    + split; [| discriminate]. intros [image Himage].
      exfalso. exact (H image Himage).
    + intros [image Himage]. exfalso. exact (H image Himage).
Qed.

(** X12: a news record whose thumbnail is not fetched or not received
    (no URL, an empty URL, a failed request) still gives its image:
    [generate_news_image] returns the quantised 600 x 400 canvas and
    files it as a news image. *)
Theorem news_image_survives_failed_download
    (pil : Pillow) (http_get : string -> HttpResponse)
    (news_data : NewsData) (w : World) :
  thumbnail_skipped http_get news_data = true ->
  exists canvas w',
    generate_news_image pil http_get (Some news_data) w
    = (Ok (Some (ImageGen.convert_to_6color pil
                   (RGBImage (600, 400) canvas))), w')
    /\ tmp_dir w'
       = ImageGen.store "news" (clock w (reads w) "%Y%m%d-%H%M%S") (tmp_dir w)
    /\ epd w' = epd w.
Proof.
  intros Hskip. unfold generate_news_image.
  destruct (TextFit.fit_text_to_width _ _ _ _ _) as [headline headline_font].
  destruct (getsize pil headline_font headline) as [hw hh].
  unfold bind at 1, lift.
  assert (forall y canvas,
            paste_thumbnail pil http_get news_data y canvas = Ok canvas)
    as Hpaste.
  { intros y canvas. unfold paste_thumbnail.
    unfold thumbnail_skipped in Hskip.
    destruct (thumbnail_url news_data) as [url |]; [| reflexivity].
    destruct (String.eqb url ""); [reflexivity |].
    destruct (http_get url); [reflexivity | discriminate]. }
  rewrite Hpaste.
  destruct (TextFit.fit_text_to_area _ _ _ _ _ _) as [fitted summary_font].
  do 2 eexists. split; [reflexivity |]. split; reflexivity.
Qed.

Lemma news_image_survives_failed_download_witness :
  thumbnail_skipped (fun _ => RequestError)
    {| title := "Title"; summary := "hello world";
       thumbnail_url := Some "http://example.org/a.png" |} = true
  /\ exists canvas w',
      generate_news_image Toy.toy_pillow (fun _ => RequestError)
        (Some {| title := "Title"; summary := "hello world";
                 thumbnail_url := Some "http://example.org/a.png" |})
        Toy.empty_world
      = (Ok (Some (ImageGen.convert_to_6color Toy.toy_pillow
                     (RGBImage (600, 400) canvas))), w')
      /\ tmp_dir w'
         = ImageGen.store "news"
             (clock Toy.empty_world (reads Toy.empty_world) "%Y%m%d-%H%M%S")
             (tmp_dir Toy.empty_world)
      /\ epd w' = epd Toy.empty_world.
Proof.
  split; [reflexivity |].
  apply (news_image_survives_failed_download Toy.toy_pillow
           (fun _ => RequestError)
           {| title := "Title"; summary := "hello world";
              thumbnail_url := Some "http://example.org/a.png" |}
           Toy.empty_world).
  reflexivity.
Defined.

(** X13: a thumbnail that was downloaded but is not an image, or that
    cannot be resampled, is not caught: the exception of [Image.open]
    or [resize] leaves [generate_news_image], and nothing is filed. *)
Theorem news_image_raises_on_bad_thumbnail
    (pil : Pillow) (http_get : string -> HttpResponse)
    (news_data : NewsData) (url : string) (decoded : result Image)
    (e : exn) (w : World) :
  thumbnail_url news_data = Some url -> url <> "" ->
  http_get url = Body decoded ->
  (decoded = Raise e
   \/ exists opened,
        decoded = Ok opened
        /\ resize pil (convert_RGB opened) (250, 150) = Raise e) ->
  generate_news_image pil http_get (Some news_data) w = (Raise e, w).
Proof.
  intros Hurl Hne Hget Hbad. unfold generate_news_image.
  destruct (TextFit.fit_text_to_width _ _ _ _ _) as [headline headline_font].
  destruct (getsize pil headline_font headline) as [hw hh].
  unfold bind at 1, lift.
  assert (forall y canvas,
            paste_thumbnail pil http_get news_data y canvas = Raise e)
    as Hpaste.
  { intros y canvas. unfold paste_thumbnail. rewrite Hurl.
    apply String.eqb_neq in Hne. rewrite Hne, Hget.
    destruct Hbad as [-> | (opened & -> & Hresize)]; [reflexivity |].
    rewrite Hresize. reflexivity. }
  rewrite Hpaste. reflexivity.
Qed.

Lemma news_image_raises_on_bad_thumbnail_witness :
  thumbnail_url
    {| title := "Title"; summary := "hello world";
       thumbnail_url := Some "http://example.org/a.svg" |}
  = Some "http://example.org/a.svg"
  /\ "http://example.org/a.svg" <> ""
  /\ Body (Raise Py.UnidentifiedImageError)
     = Body (Raise Py.UnidentifiedImageError)
  /\ (@Raise Image Py.UnidentifiedImageError
      = Raise Py.UnidentifiedImageError
      \/ exists opened,
           Raise Py.UnidentifiedImageError = Ok opened
           /\ resize Toy.toy_pillow (convert_RGB opened) (250, 150)
              = Raise Py.UnidentifiedImageError)
  /\ generate_news_image Toy.toy_pillow
       (fun _ => Body (Raise Py.UnidentifiedImageError))
       (Some {| title := "Title"; summary := "hello world";
                thumbnail_url := Some "http://example.org/a.svg" |})
       Toy.empty_world
     = (Raise Py.UnidentifiedImageError, Toy.empty_world).
Proof.
  split; [reflexivity |]. split; [discriminate |]. split; [reflexivity |].
  split; [left; reflexivity |].
  apply (news_image_raises_on_bad_thumbnail Toy.toy_pillow
           (fun _ => Body (Raise Py.UnidentifiedImageError))
           {| title := "Title"; summary := "hello world";
              thumbnail_url := Some "http://example.org/a.svg" |}
           "http://example.org/a.svg" (Raise Py.UnidentifiedImageError)
           Py.UnidentifiedImageError Toy.empty_world);
    [reflexivity | discriminate | reflexivity | left; reflexivity].
Defined.

End BodyImages.

(** ** The composed frame: header, body, panel *)
Module FrameLayout.

Import PIL Sys Display Shapes.

Section Compositor.

Variable pil : Pillow.
Variable py_format : pyval -> string.

Lemma header_ok_readable weather :
  header_ok py_format weather
  = readable_current weather && one_line_temperature py_format weather.
Proof.
  unfold header_ok, one_line_temperature, header_weather, readable_current.
  destruct weather as [[|entry d] |]; try reflexivity.
  destruct (Py.lookup (entry :: d) "current")
    as [[| b | n | q | s | l | current] |]; try reflexivity.
  unfold Py.get.
  destruct (Py.lookup current "condition") as [[| b | n | q | s | l | c] |];
    reflexivity.
Qed.

(** The header image and the frame, when the header goes through. *)
Lemma generate_table_of_header content weather (w : World) :
  header_ok py_format weather = true ->
  exists header w1,
    _generate_header pil py_format weather w = (Ok header, w1)
    /\ size header = (600, 62)
    /\ _generate_table pil py_format content weather w
       = (Ok (rotate_minus90_expand
                (RGBImage (600, 400)
                   (paste (paste (fun _ _ => (0, 0, 0)) header (0, 0))
                      (_generate_body pil content) (0, 62)))), w1).
Proof.
  unfold _generate_table, try_except, _generate_header, header_ok.
  unfold bind, strftime, lift, ret. simpl.
  destruct (header_weather py_format weather) as [[temperature condition]|e];
    simpl; [| discriminate].
  destruct (_get_weather_icon_path condition) as [icon_path|e]; simpl;
    [| discriminate].
  unfold text_length.
  destruct (has_line_feed temperature); simpl; [discriminate |].
  intros _. do 2 eexists. split; [reflexivity |]. split; reflexivity.
Qed.

End Compositor.

(** X14: [_generate_body] is a fault boundary: whatever it is given,
    it returns an RGB image of the body size 600 x 338, and when there
    is no content, or EXIF handling or resampling raises, that image is
    the blank black body. *)
Theorem generate_body_never_fails (pil : Pillow) (image : option Image) :
  let body := _generate_body pil image in
  size body = (600, 338)
  /\ mode body = "RGB"
  /\ (image = None -> body = new (600, 338) (0, 0, 0))
  /\ (forall raw e,
        image = Some raw -> exif_transpose pil raw = Raise e ->
        body = new (600, 338) (0, 0, 0))
  /\ (forall raw upright e,
        image = Some raw -> exif_transpose pil raw = Ok upright ->
        resize_image pil upright (600, 338) = Raise e ->
        body = new (600, 338) (0, 0, 0)).
Proof.
  cbv zeta. unfold _generate_body, body_of.
  split; [| split; [| split; [| split]]].
  - destruct image as [raw |]; [| reflexivity].
    destruct (exif_transpose pil raw) as [upright | e]; [| reflexivity].
    destruct (resize_image pil upright _) as [resized | e]; reflexivity.
  - destruct image as [raw |]; [| reflexivity].
    destruct (exif_transpose pil raw) as [upright | e]; [| reflexivity].
    destruct (resize_image pil upright _) as [resized | e]; reflexivity.
  - intros ->. reflexivity.
  - intros raw e -> ->. reflexivity.
  - intros raw upright e -> -> Hresize.
    change (DISPLAY_WIDTH, BODY_HEIGHT) with (600, 338).
    rewrite Hresize. reflexivity.
Qed.

(** X15: the frame [_generate_table] returns is the 400 x 600 portrait
    exactly when the header goes through: the weather record can be
    read (none, an empty one, one without "current", or one whose
    "current" is an object with a hashable condition) and the
    temperature text built from it holds no line feed, which
    [textlength] refuses; for every other record it is the blank
    600 x 400 fallback.  A missing or empty record never costs the
    frame. *)
Theorem frame_is_portrait_iff_weather_readable
    (pil : Pillow) (py_format : pyval -> string)
    (content : option Image) (weather : option Py.pydict) (w : World) :
  exists frame w',
    _generate_table pil py_format content weather w = (Ok frame, w')
    /\ size frame
       = (if readable_current weather
             && one_line_temperature py_format weather
          then (400, 600) else (600, 400))
    /\ (readable_current weather && one_line_temperature py_format weather
        = false ->
        frame = new (600, 400) (0, 0, 0))
    /\ readable_current None && one_line_temperature py_format None = true
    /\ readable_current (Some [])
       && one_line_temperature py_format (Some []) = true.
Proof.
  pose proof (DisplayFacts.generate_table_frame pil py_format content weather w)
    as (frame & w' & Htable & _ & _ & _ & Hsize).
  exists frame, w'. rewrite (header_ok_readable py_format) in Hsize.
  split; [exact Htable |]. split; [exact Hsize |].
  split; [| split; reflexivity].
  intros Hbad. rewrite <- (header_ok_readable py_format) in Hbad.
  revert Htable.
  unfold _generate_table, try_except, _generate_header, header_ok in *.
  unfold bind, strftime, lift, ret. simpl.
  destruct (header_weather py_format weather) as [[temperature condition]|e];
    simpl.
  - destruct (_get_weather_icon_path condition) as [icon_path|e]; simpl.
    + unfold text_length. simpl in Hbad.
      destruct (has_line_feed temperature); simpl; [| discriminate].
      intros H. inversion H. reflexivity.
    + intros H. inversion H. reflexivity.
  - intros H. inversion H. reflexivity.
Qed.

(** X16: layout of the frame.  When the header goes through, the
    landscape canvas holds the header in rows 0 to 61 and the body in
    rows 62 to 399, neither paste touching the other band, and the
    quarter turn sends canvas pixel (x, y) to frame pixel (399 - y, x). *)
Theorem frame_shows_header_above_body
    (pil : Pillow) (py_format : pyval -> string)
    (content : option Image) (weather : option Py.pydict) (w : World) :
  readable_current weather = true ->
  one_line_temperature py_format weather = true ->
  exists header frame w',
    _generate_header pil py_format weather w = (Ok header, w')
    /\ _generate_table pil py_format content weather w = (Ok frame, w')
    /\ size frame = (400, 600)
    /\ (forall x y, 0 <= x < 600 -> 0 <= y < 62 ->
          getcolor frame (399 - y) x = getcolor header x y)
    /\ (forall x y, 0 <= x < 600 -> 62 <= y < 400 ->
          getcolor frame (399 - y) x
          = getcolor (_generate_body pil content) x (y - 62)).
Proof.
  intros Hread Hline.
  assert (header_ok py_format weather = true) as Hok
    by (rewrite header_ok_readable, Hread, Hline; reflexivity).
  destruct (generate_table_of_header pil py_format content weather w Hok)
    as (header & w1 & Hheader & Hsize & Htable).
  exists header. eexists. exists w1.
  split; [exact Hheader |]. split; [exact Htable |].
  split; [reflexivity |].
  pose proof (DisplayFacts.generate_body_size pil content) as Hbody.
  split; intros x y Hx Hy; simpl.
  - unfold paste. rewrite Hbody, Hsize. unfold inside. simpl.
    rewrite !Z.sub_0_r.
    replace (400 - 1 - (399 - y)) with y by lia.
    replace (0 <=? x) with true by lia. replace (x <? 600) with true by lia.
    replace (0 <=? y - 62) with false by lia.
    replace (0 <=? y) with true by lia. replace (y <? 62) with true by lia.
    rewrite andb_false_r. reflexivity.
  - unfold paste at 1. rewrite Hbody. unfold inside. simpl.
    rewrite !Z.sub_0_r.
    replace (400 - 1 - (399 - y) - 62) with (y - 62) by lia.
    replace (0 <=? x) with true by lia. replace (x <? 600) with true by lia.
    replace (0 <=? y - 62) with true by lia.
    replace (y - 62 <? 338) with true by lia.
    reflexivity.
Qed.

Lemma frame_shows_header_above_body_witness :
  readable_current (Some Toy.unavailable) = true
  /\ one_line_temperature Toy.toy_format (Some Toy.unavailable) = true
  /\ exists header frame w',
      _generate_header Toy.toy_pillow Toy.toy_format (Some Toy.unavailable)
        Toy.empty_world
      = (Ok header, w')
      /\ _generate_table Toy.toy_pillow Toy.toy_format (Some Toy.grey_photo)
           (Some Toy.unavailable) Toy.empty_world
         = (Ok frame, w')
      /\ size frame = (400, 600)
      /\ (forall x y, 0 <= x < 600 -> 0 <= y < 62 ->
            getcolor frame (399 - y) x = getcolor header x y)
      /\ (forall x y, 0 <= x < 600 -> 62 <= y < 400 ->
            getcolor frame (399 - y) x
            = getcolor (_generate_body Toy.toy_pillow (Some Toy.grey_photo))
                x (y - 62)).
Proof.
  split; [reflexivity |]. split; [reflexivity |].
  apply (frame_shows_header_above_body Toy.toy_pillow Toy.toy_format
           (Some Toy.grey_photo) (Some Toy.unavailable) Toy.empty_world);
    reflexivity.
Defined.

Lemma display_image_typed
    (pil : Pillow) (py_format : pyval -> string)
    (content : option Image) (kind : string) (weather : option Py.pydict)
    (w : World) :
  exists frame w1 w',
    _generate_table pil py_format content weather w = (Ok frame, w1)
    /\ display_image pil py_format content (Some kind) weather w = (Ok tt, w')
    /\ epd w' = Sys.Display frame :: GetBuffer frame :: epd w
    /\ tmp_dir w'
       = ImageGen.store kind (clock w (2 + reads w)%nat "%Y%m%d-%H%M%S")
           (tmp_dir w)
    /\ reads w' = (3 + reads w)%nat
    /\ naps w' = naps w.
Proof.
  destruct (DisplayFacts.generate_table_run pil py_format content weather w)
    as (frame & Htable & _).
  exists frame. eexists. eexists. split; [exact Htable |].
  unfold display_image, try_except, bind. rewrite Htable.
  unfold _save_debug_image, _cleanup_old_images.
  unfold bind, strftime, listdir, set_tmp_dir, epd_call, ret. simpl.
  split; [reflexivity |]. repeat split.
Qed.

(** X17: with a content type, [display_image] never raises and always
    reaches the panel: it composes the frame, files it under the type
    (keeping the ten greatest names of that type), then hands that same
    frame to [getbuffer] and [display], once each; it reads the clock
    three times and never sleeps. *)
Theorem display_image_files_then_shows
    (pil : Pillow) (py_format : pyval -> string)
    (content : option Image) (kind : string) (weather : option Py.pydict)
    (w : World) :
  exists frame w1 w',
    _generate_table pil py_format content weather w = (Ok frame, w1)
    /\ display_image pil py_format content (Some kind) weather w = (Ok tt, w')
    /\ epd w' = Sys.Display frame :: GetBuffer frame :: epd w
    /\ tmp_dir w'
       = ImageGen.store kind (clock w (2 + reads w)%nat "%Y%m%d-%H%M%S")
           (tmp_dir w)
    /\ reads w' = (3 + reads w)%nat
    /\ naps w' = naps w.
Proof. apply display_image_typed. Qed.

End FrameLayout.

(** ** The loop: cycling, dwell times, what a tick leaves behind *)
Module LoopFacts.

Import PIL Sys Display Scheduler Shapes.

Section Loop.

Variable pil : Pillow.
Variable py_format : pyval -> string.
Variable cfg : Config.

(** The generators neither sleep nor touch the panel. *)
Lemma generate_stock_image_quiet stock_data (w : World) :
  let out := Render.generate_stock_image pil stock_data w in
  naps (snd out) = naps w /\ epd (snd out) = epd w.
Proof.
  cbv zeta. unfold Render.generate_stock_image.
  destruct stock_data as [|stock rest]; [split; reflexivity |].
  unfold bind, lift.
  destruct (Render.stock_loop _ _ _ _); split; reflexivity.
Qed.

Lemma generate_news_image_quiet http news (w : World) :
  let out := Render.generate_news_image pil http news w in
  naps (snd out) = naps w /\ epd (snd out) = epd w.
Proof.
  cbv zeta. unfold Render.generate_news_image.
  destruct news as [news |]; [| split; reflexivity].
  destruct (TextFit.fit_text_to_width _ _ _ _ _) as [headline headline_font].
  destruct (getsize pil headline_font headline) as [hw hh].
  unfold bind, lift.
  destruct (Render.paste_thumbnail _ _ _ _ _) as [canvas | e];
    [| split; reflexivity].
  destruct (TextFit.fit_text_to_area _ _ _ _ _ _) as [fitted summary_font].
  split; reflexivity.
Qed.

Lemma generate_weather_image_quiet weather (w : World) :
  let out := Render.generate_weather_image pil py_format weather w in
  naps (snd out) = naps w /\ epd (snd out) = epd w.
Proof.
  cbv zeta. unfold Render.generate_weather_image.
  destruct (Py.lookup weather "forecast") as [forecast |];
    [| split; reflexivity].
  unfold bind, lift.
  destruct (Py.len forecast) as [n | e]; [| split; reflexivity].
  destruct (n <? 3); [split; reflexivity |].
  unfold try_except, bind, lift.
  destruct (Render.weather_canvas _ _ _); split; reflexivity.
Qed.

Lemma fetch_and_prepare_content_quiet feeds mode (w : World) :
  let out := fetch_and_prepare_content pil py_format cfg feeds mode w in
  naps (snd out) = naps w /\ epd (snd out) = epd w.
Proof.
  cbv zeta. unfold fetch_and_prepare_content.
  destruct (_ && _).
  { destruct (Stock.fetch_stock_data (yahoo feeds)) as [|stock rest];
      [split; reflexivity |].
    unfold bind.
    pose proof (generate_stock_image_quiet (stock :: rest) w) as H.
    destruct (Render.generate_stock_image pil (stock :: rest) w)
      as [[[im |] | e] w1]; exact H. }
  destruct (_ && _).
  { destruct (fetch_news feeds) as [news |]; [| split; reflexivity].
    unfold bind.
    pose proof (generate_news_image_quiet (http_get feeds) (Some news) w) as H.
    destruct (Render.generate_news_image pil (http_get feeds) (Some news) w)
      as [[[im |] | e] w1]; exact H. }
  destruct (_ && _).
  { destruct (fetch_next_image feeds); split; reflexivity. }
  destruct (_ && _); [| split; reflexivity].
  destruct (truthy_dict (get_weather feeds)); [| split; reflexivity].
  unfold bind.
  pose proof (generate_weather_image_quiet (get_weather feeds) w) as H.
  destruct (Render.generate_weather_image pil py_format (get_weather feeds) w)
    as [[[im |] | e] w1]; exact H.
Qed.

(** [display_image] always returns, and never sleeps. *)
Lemma display_image_returns content content_type weather (w : World) :
  exists w',
    display_image pil py_format content content_type weather w = (Ok tt, w')
    /\ naps w' = naps w.
Proof.
  destruct content_type as [kind |].
  - destruct (FrameLayout.display_image_typed pil py_format content
                kind weather w)
      as (frame & w1 & w' & _ & Hshow & _ & _ & _ & Hnaps).
    exists w'. split; assumption.
  - destruct (SchedulerFacts.display_image_without_type pil py_format content
                weather w) as (w' & Hshow & _ & Hnaps).
    exists w'. split; assumption.
Qed.

(** One tick: either the content step or the sleep raises, and nothing
    was slept; or the tick completes, moves to the next mode and sleeps
    the time looked up for the mode it showed. *)
Lemma tick_outcome feeds st (w : World) :
  let mode := nth (current_mode_index st) (display_modes cfg) "" in
  match tick pil py_format cfg feeds st w with
  | (Ok st', w') =>
      current_mode_index st'
      = (S (current_mode_index st) mod List.length (display_modes cfg))%nat
      /\ naps w' = sleep_time cfg mode :: naps w
  | (Raise e, w') => naps w' = naps w
  end.
Proof.
  cbv zeta. unfold tick.
  set (mode := nth (current_mode_index st) (display_modes cfg) "").
  pose proof (fetch_and_prepare_content_quiet feeds mode w) as Hquiet.
  unfold bind at 1.
  destruct (fetch_and_prepare_content pil py_format cfg feeds mode w)
    as [[prepared | e] w1]; simpl in Hquiet; [| tauto].
  destruct Hquiet as [Hnaps _].
  destruct prepared as [content content_type | content content_type fresh].
  - destruct (display_image_returns content content_type
                (if ENABLE_WEATHER cfg then weather_data st else None) w1)
      as (w2 & Hshow & Hnaps2).
    unfold bind at 1. rewrite Hshow. unfold bind, sleep, ret.
    destruct ((sleep_time cfg mode <? - MAX_SLEEP)
              || (MAX_SLEEP <? sleep_time cfg mode)); [simpl; congruence |].
    destruct (sleep_time cfg mode <? 0); [simpl; congruence |].
    simpl. split; [reflexivity | congruence].
  - destruct (display_image_returns content content_type (Some fresh) w1)
      as (w2 & Hshow & Hnaps2).
    unfold bind at 1. rewrite Hshow. unfold bind, sleep, ret.
    destruct ((sleep_time cfg mode <? - MAX_SLEEP)
              || (MAX_SLEEP <? sleep_time cfg mode)); [simpl; congruence |].
    destruct (sleep_time cfg mode <? 0); [simpl; congruence |].
    simpl. split; [reflexivity | congruence].
Qed.

(** The modes in use, with their dwell times. *)
Lemma sleep_time_configured mode :
  In mode (display_modes cfg) ->
  In (mode, sleep_time cfg mode)
    [("image", IMAGE_DISPLAY_TIME cfg); ("stock", STOCK_DISPLAY_TIME cfg);
     ("news", NEWS_DISPLAY_TIME cfg); ("weather", WEATHER_DISPLAY_TIME cfg)].
Proof.
  unfold display_modes.
  destruct (ENABLE_IMAGES cfg), (ENABLE_STOCKS cfg), (ENABLE_NEWS cfg),
    (ENABLE_WEATHER cfg); simpl; intros H;
    repeat (destruct H as [<- | H]; [simpl; tauto |]); contradiction.
Qed.

(** The dwell times slept while showing [count] modes in turn, starting
    at position [start], latest first. *)
Lemma ticks_running feeds :
  forall k st (w : World) st' w',
    (current_mode_index st < List.length (display_modes cfg))%nat ->
    ticks pil py_format cfg k feeds st w = (Running st', w') ->
    current_mode_index st'
    = ((current_mode_index st + List.length feeds)
       mod List.length (display_modes cfg))%nat
    /\ naps w'
       = (rev (map (fun j =>
                     sleep_time cfg
                       (nth ((current_mode_index st + j)
                             mod List.length (display_modes cfg))%nat
                          (display_modes cfg) ""))
                (seq 0 (List.length feeds))) ++ naps w)%list.
Proof.
  induction feeds as [|f rest IH]; intros k st w st' w' Hindex Hrun.
  - simpl in Hrun. inversion Hrun; subst. simpl.
    rewrite Nat.add_0_r, Nat.mod_small by exact Hindex. tauto.
  - cbn [ticks] in Hrun.
    pose proof (tick_outcome f st w) as Htick. cbv zeta in Htick.
    destruct (tick pil py_format cfg f st w) as [[st1 | e] w1];
      [| discriminate].
    destruct Htick as (Hnext & Hnaps).
    assert (List.length (display_modes cfg) <> 0)%nat as Hmodes by lia.
    assert (current_mode_index st1 < List.length (display_modes cfg))%nat
      as Hindex1 by (rewrite Hnext; apply Nat.mod_upper_bound; exact Hmodes).
    destruct (IH (S k) st1 w1 st' w' Hindex1 Hrun) as [Hlast Hslept].
    split.
    + rewrite Hlast, Hnext.
      rewrite Nat.Div0.add_mod_idemp_l. f_equal. simpl. lia.
    + rewrite Hslept, Hnaps. cbn [List.length seq map rev].
      rewrite <- seq_shift, map_map.
      rewrite Nat.add_0_r, (Nat.mod_small _ _ Hindex).
      rewrite <- app_assoc. cbn [app]. f_equal. f_equal.
      apply map_ext. intros j. rewrite Hnext.
      rewrite Nat.Div0.add_mod_idemp_l. do 3 f_equal. lia.
Qed.

Lemma ticks_never_refuse feeds :
  forall k st (w : World),
    fst (ticks pil py_format cfg k feeds st w) <> Refused.
Proof.
  induction feeds as [|f rest IH]; intros k st w; simpl; [discriminate |].
  destruct (tick pil py_format cfg f st w) as [[st1 | e] w1];
    [apply IH | discriminate].
Qed.

Lemma mode_enabled i mode :
  nth i (display_modes cfg) "" = mode -> mode <> "" ->
  In mode (display_modes cfg).
Proof.
  intros Hnth Hmode.
  destruct (nth_in_or_default i (display_modes cfg) "") as [Hin | Hdefault].
  - rewrite Hnth in Hin. exact Hin.
  - congruence.
Qed.

Lemma image_mode_enabled i :
  nth i (display_modes cfg) "" = "image" -> ENABLE_IMAGES cfg = true.
Proof.
  intros Hnth. apply mode_enabled in Hnth; [| discriminate].
  revert Hnth. unfold display_modes.
  destruct (ENABLE_IMAGES cfg); [reflexivity |].
  destruct (ENABLE_STOCKS cfg), (ENABLE_NEWS cfg), (ENABLE_WEATHER cfg);
    simpl; intros H;
    repeat (destruct H as [H | H]; [discriminate |]); contradiction.
Qed.

Lemma weather_mode_enabled i :
  nth i (display_modes cfg) "" = "weather" -> ENABLE_WEATHER cfg = true.
Proof.
  intros Hnth. apply mode_enabled in Hnth; [| discriminate].
  revert Hnth. unfold display_modes.
  destruct (ENABLE_WEATHER cfg); [reflexivity |].
  destruct (ENABLE_IMAGES cfg), (ENABLE_STOCKS cfg), (ENABLE_NEWS cfg);
    simpl; intros H;
    repeat (destruct H as [H | H]; [discriminate |]); contradiction.
Qed.

(** Only the weather branch returns three items. *)
Lemma fetch_pair_outside_weather_mode feeds mode (w w1 : World) prepared :
  mode <> "weather" ->
  fetch_and_prepare_content pil py_format cfg feeds mode w
  = (Ok prepared, w1) ->
  exists content content_type, prepared = Pair content content_type.
Proof.
  intros Hmode. apply String.eqb_neq in Hmode.
  unfold fetch_and_prepare_content. rewrite Hmode. cbn [andb].
  destruct (_ && _).
  { destruct (Stock.fetch_stock_data (yahoo feeds)) as [|stock rest].
    - intros H. inversion H. eauto.
    - unfold bind.
      destruct (Render.generate_stock_image pil (stock :: rest) w)
        as [[[im |] | e] w2]; intros H; inversion H; eauto. }
  destruct (_ && _).
  { destruct (fetch_news feeds) as [news |].
    - unfold bind.
      destruct (Render.generate_news_image pil (http_get feeds) (Some news) w)
        as [[[im |] | e] w2]; intros H; inversion H; eauto.
    - intros H. inversion H. eauto. }
  destruct (_ && _).
  { destruct (fetch_next_image feeds); intros H; inversion H; eauto. }
  intros H. inversion H. eauto.
Qed.

End Loop.

(** X18: while [main_loop] keeps running, it shows the enabled modes
    in the fixed order image, stock, news, weather, cyclically from the
    first: after k ticks the index is k modulo the number of modes, and
    the sleeps made are, tick by tick, the display time configured for
    the mode shown (the default of 10 seconds is never used). *)
Theorem main_loop_cycles_through_modes
    (pil : Pillow) (py_format : pyval -> string) (cfg : Config)
    (initial_weather : Py.pydict) (feeds : list Feeds) (w : World)
    (st' : State) :
  fst (main_loop pil py_format cfg initial_weather feeds w) = Running st' ->
  let modes := display_modes cfg in
  let w' := snd (main_loop pil py_format cfg initial_weather feeds w) in
  modes <> []
  /\ current_mode_index st'
     = (List.length feeds mod List.length modes)%nat
  /\ naps w'
     = (rev (map (fun j =>
                   sleep_time cfg
                     (nth (j mod List.length modes)%nat modes ""))
              (seq 0 (List.length feeds))) ++ naps w)%list
  /\ (forall mode, In mode modes ->
        In (mode, sleep_time cfg mode)
          [("image", IMAGE_DISPLAY_TIME cfg);
           ("stock", STOCK_DISPLAY_TIME cfg);
           ("news", NEWS_DISPLAY_TIME cfg);
           ("weather", WEATHER_DISPLAY_TIME cfg)]).
Proof.
  cbv zeta. unfold main_loop.
  destruct (display_modes cfg) as [|mode modes] eqn:Hmodes;
    [discriminate |].
  rewrite <- Hmodes. intros Hrun.
  split; [rewrite Hmodes; discriminate |].
  destruct (ticks pil py_format cfg 0 feeds _ w) as [outcome w'] eqn:Hticks.
  simpl in Hrun. subst outcome.
  apply ticks_running in Hticks; [| rewrite Hmodes; simpl; lia].
  simpl in Hticks. destruct Hticks as [Hindex Hnaps].
  split; [exact Hindex |]. split; [exact Hnaps |].
  apply sleep_time_configured.
Qed.

Lemma main_loop_cycles_through_modes_witness :
  fst (main_loop Toy.toy_pillow Toy.toy_format (Toy.dwell true false false true)
         Toy.unavailable [Toy.two_day_feeds; Toy.two_day_feeds;
                          Toy.two_day_feeds] Toy.empty_world)
  = Running {| current_mode_index := 1;
               weather_data := Some Toy.unavailable |}
  /\ (let modes := display_modes (Toy.dwell true false false true) in
      let w' :=
        snd (main_loop Toy.toy_pillow Toy.toy_format
               (Toy.dwell true false false true) Toy.unavailable
               [Toy.two_day_feeds; Toy.two_day_feeds; Toy.two_day_feeds]
               Toy.empty_world) in
      modes <> []
      /\ current_mode_index
           {| current_mode_index := 1; weather_data := Some Toy.unavailable |}
         = (List.length [Toy.two_day_feeds; Toy.two_day_feeds;
                         Toy.two_day_feeds] mod List.length modes)%nat
      /\ naps w'
         = (rev (map (fun j =>
                       sleep_time (Toy.dwell true false false true)
                         (nth (j mod List.length modes)%nat modes ""))
                  (seq 0 (List.length [Toy.two_day_feeds; Toy.two_day_feeds;
                                       Toy.two_day_feeds])))
            ++ naps Toy.empty_world)%list
      /\ (forall mode, In mode modes ->
            In (mode, sleep_time (Toy.dwell true false false true) mode)
              [("image", IMAGE_DISPLAY_TIME (Toy.dwell true false false true));
               ("stock", STOCK_DISPLAY_TIME (Toy.dwell true false false true));
               ("news", NEWS_DISPLAY_TIME (Toy.dwell true false false true));
               ("weather",
                WEATHER_DISPLAY_TIME (Toy.dwell true false false true))])).
Proof.
  assert (fst (main_loop Toy.toy_pillow Toy.toy_format
                 (Toy.dwell true false false true) Toy.unavailable
                 [Toy.two_day_feeds; Toy.two_day_feeds; Toy.two_day_feeds]
                 Toy.empty_world)
          = Running {| current_mode_index := 1;
                       weather_data := Some Toy.unavailable |}) as H
    by (vm_compute; reflexivity).
  split; [exact H |].
  apply (main_loop_cycles_through_modes Toy.toy_pillow Toy.toy_format
           (Toy.dwell true false false true) Toy.unavailable
           [Toy.two_day_feeds; Toy.two_day_feeds; Toy.two_day_feeds]
           Toy.empty_world _ H).
Defined.

(** X19: [main_loop] returns at once exactly when no display mode is
    enabled, and then it has done nothing: no file, no panel call, no
    sleep, no reading of the clock. *)
Theorem main_loop_refuses_iff_nothing_enabled
    (pil : Pillow) (py_format : pyval -> string) (cfg : Config)
    (initial_weather : Py.pydict) (feeds : list Feeds) (w : World) :
  let out := main_loop pil py_format cfg initial_weather feeds w in
  (fst out = Refused
   <-> ENABLE_IMAGES cfg || ENABLE_STOCKS cfg || ENABLE_NEWS cfg
       || ENABLE_WEATHER cfg = false)
  /\ (fst out = Refused -> snd out = w).
Proof.
  cbv zeta. unfold main_loop.
  destruct (display_modes cfg) as [|mode modes] eqn:Hmodes.
  - split; [| reflexivity]. split; [| reflexivity]. intros _.
    revert Hmodes. unfold display_modes.
    destruct (ENABLE_IMAGES cfg), (ENABLE_STOCKS cfg), (ENABLE_NEWS cfg),
      (ENABLE_WEATHER cfg); simpl; intros H; try discriminate H; reflexivity.
  - split.
    + split.
      * intros H. exfalso. exact (ticks_never_refuse pil py_format cfg _ _ _ _ H).
      * intros H. exfalso. revert Hmodes. unfold display_modes.
        destruct (ENABLE_IMAGES cfg), (ENABLE_STOCKS cfg), (ENABLE_NEWS cfg),
          (ENABLE_WEATHER cfg); simpl in *; discriminate.
    + intros H. exfalso. exact (ticks_never_refuse pil py_format cfg _ _ _ _ H).
Qed.

(** X20: outside weather mode a tick leaves the weather record for the
    header as it was, when weather is enabled, and drops it for good
    when weather is disabled (so from the first tick on the header shows
    no temperature, although a record was fetched before the loop). *)
Theorem tick_keeps_weather_outside_weather_mode
    (pil : Pillow) (py_format : pyval -> string) (cfg : Config)
    (feeds : Feeds) (st st' : State) (w : World) :
  nth (current_mode_index st) (display_modes cfg) "" <> "weather" ->
  fst (tick pil py_format cfg feeds st w) = Ok st' ->
  weather_data st'
  = (if ENABLE_WEATHER cfg then weather_data st else None).
Proof.
  intros Hmode. unfold tick.
  set (mode := nth (current_mode_index st) (display_modes cfg) "") in *.
  unfold bind at 1.
  destruct (fetch_and_prepare_content pil py_format cfg feeds mode w)
    as [[prepared | e] w1] eqn:Hfetch; [| discriminate].
  destruct (fetch_pair_outside_weather_mode pil py_format cfg feeds mode w w1
              prepared Hmode Hfetch) as (content & content_type & ->).
  destruct (display_image_returns pil py_format content content_type
              (if ENABLE_WEATHER cfg then weather_data st else None) w1)
    as (w2 & Hshow & _).
  unfold bind at 1. rewrite Hshow. unfold bind, sleep, ret.
  destruct ((sleep_time cfg mode <? - MAX_SLEEP)
            || (MAX_SLEEP <? sleep_time cfg mode)); [discriminate |].
  destruct (sleep_time cfg mode <? 0); [discriminate |].
  simpl. intros H. inversion H. reflexivity.
Qed.

Lemma tick_keeps_weather_outside_weather_mode_witness :
  nth (current_mode_index Toy.first_tick) (display_modes Toy.photos_only) ""
  <> "weather"
  /\ fst (tick Toy.toy_pillow Toy.toy_format Toy.photos_only Toy.two_day_feeds
            Toy.first_tick Toy.empty_world)
     = Ok {| current_mode_index := 0; weather_data := None |}
  /\ weather_data {| current_mode_index := 0; weather_data := None |}
     = (if ENABLE_WEATHER Toy.photos_only
        then weather_data Toy.first_tick else None).
Proof.
  assert (fst (tick Toy.toy_pillow Toy.toy_format Toy.photos_only
                 Toy.two_day_feeds Toy.first_tick Toy.empty_world)
          = Ok {| current_mode_index := 0; weather_data := None |}) as H
    by (vm_compute; reflexivity).
  split; [vm_compute; discriminate |]. split; [exact H |].
  apply (tick_keeps_weather_outside_weather_mode Toy.toy_pillow Toy.toy_format
           Toy.photos_only Toy.two_day_feeds Toy.first_tick _ Toy.empty_world);
    [vm_compute; discriminate | exact H].
Defined.

(** X21: once the photo source has answered, and with an image
    display time that [time.sleep] accepts (not negative, not beyond the
    range of the clock), a tick in image mode cannot fail: it completes
    and sleeps the image display time; with a photo the panel receives
    one frame, filed as an image, whatever the photo is (a body that
    cannot be laid out is shown blank); without one the panel is not
    called. *)
Theorem photo_tick_always_completes
    (pil : Pillow) (py_format : pyval -> string) (cfg : Config)
    (feeds : Feeds) (st : State) (w : World) :
  nth (current_mode_index st) (display_modes cfg) "" = "image" ->
  0 <= IMAGE_DISPLAY_TIME cfg <= MAX_SLEEP ->
  exists st' w',
    tick pil py_format cfg feeds st w = (Ok st', w')
    /\ naps w' = IMAGE_DISPLAY_TIME cfg :: naps w
    /\ match fetch_next_image feeds with
       | Some photo =>
           exists frame,
             epd w' = Sys.Display frame :: GetBuffer frame :: epd w
             /\ tmp_dir w'
                = ImageGen.store "image"
                    (clock w (2 + reads w)%nat "%Y%m%d-%H%M%S") (tmp_dir w)
       | None => epd w' = epd w
       end.
Proof.
  intros Hmode Hdwell. unfold tick. rewrite Hmode.
  unfold bind at 1. rewrite SchedulerFacts.fetch_photo.
  rewrite (image_mode_enabled cfg _ Hmode).
  assert (sleep_time cfg "image" = IMAGE_DISPLAY_TIME cfg) as Htime
    by reflexivity.
  destruct (fetch_next_image feeds) as [photo |].
  - destruct (FrameLayout.display_image_typed pil py_format (Some photo)
                "image"
                (if ENABLE_WEATHER cfg then weather_data st else None) w)
      as (frame & w1 & w2 & _ & Hshow & Hepd & Hdir & _ & Hnaps).
    unfold bind at 1. rewrite Hshow. unfold bind at 1.
    rewrite Htime, (SchedulerFacts.sleep_within_bounds _ _ Hdwell).
    unfold ret.
    do 2 eexists. split; [reflexivity |]. simpl.
    split; [rewrite Hnaps; reflexivity |].
    exists frame. split; assumption.
  - destruct (SchedulerFacts.display_image_without_type pil py_format None
                (if ENABLE_WEATHER cfg then weather_data st else None) w)
      as (w2 & Hshow & Hepd & Hnaps).
    unfold bind at 1. rewrite Hshow. unfold bind at 1.
    rewrite Htime, (SchedulerFacts.sleep_within_bounds _ _ Hdwell).
    unfold ret.
    do 2 eexists. split; [reflexivity |]. simpl.
    split; [rewrite Hnaps; reflexivity | exact Hepd].
Qed.

Lemma photo_tick_always_completes_witness :
  nth (current_mode_index Toy.first_tick) (display_modes Toy.photos_only) ""
  = "image"
  /\ 0 <= IMAGE_DISPLAY_TIME Toy.photos_only <= MAX_SLEEP
  /\ exists st' w',
      tick Toy.toy_pillow Toy.toy_format Toy.photos_only Toy.two_day_feeds
        Toy.first_tick Toy.empty_world
      = (Ok st', w')
      /\ naps w' = IMAGE_DISPLAY_TIME Toy.photos_only :: naps Toy.empty_world
      /\ match fetch_next_image Toy.two_day_feeds with
         | Some photo =>
             exists frame,
               epd w'
               = Sys.Display frame :: GetBuffer frame :: epd Toy.empty_world
               /\ tmp_dir w'
                  = ImageGen.store "image"
                      (clock Toy.empty_world (2 + reads Toy.empty_world)%nat
                         "%Y%m%d-%H%M%S")
                      (tmp_dir Toy.empty_world)
         | None => epd w' = epd Toy.empty_world
         end.
Proof.
  split; [reflexivity |]. split; [vm_compute; split; discriminate |].
  apply (photo_tick_always_completes Toy.toy_pillow Toy.toy_format
           Toy.photos_only Toy.two_day_feeds Toy.first_tick Toy.empty_world);
    [reflexivity | vm_compute; split; discriminate].
Defined.

(** X22: with a weather display time that [time.sleep] accepts, a
    weather tick whose forecast can be drawn refreshes the header record
    with the one just fetched, puts one frame on the panel, sleeps the
    weather display time, and files two weather images: the forecast
    image stored by the generator, then the composed frame stored by the
    display manager, named after the first and the fourth reading of the
    clock. *)
Theorem weather_tick_refreshes_header
    (pil : Pillow) (py_format : pyval -> string) (cfg : Config)
    (feeds : Feeds) (st : State) (w : World) :
  nth (current_mode_index st) (display_modes cfg) "" = "weather" ->
  drawable_forecast (get_weather feeds) && sun_icons pil = true ->
  0 <= WEATHER_DISPLAY_TIME cfg <= MAX_SLEEP ->
  exists st' w' frame,
    tick pil py_format cfg feeds st w = (Ok st', w')
    /\ weather_data st' = Some (get_weather feeds)
    /\ epd w' = Sys.Display frame :: GetBuffer frame :: epd w
    /\ tmp_dir w'
       = ImageGen.store "weather" (clock w (3 + reads w)%nat "%Y%m%d-%H%M%S")
           (ImageGen.store "weather" (clock w (reads w) "%Y%m%d-%H%M%S")
              (tmp_dir w))
    /\ naps w' = WEATHER_DISPLAY_TIME cfg :: naps w.
Proof.
  intros Hmode Hdraw Hdwell. unfold tick. rewrite Hmode.
  assert (sleep_time cfg "weather" = WEATHER_DISPLAY_TIME cfg) as Htime
    by reflexivity.
  unfold fetch_and_prepare_content.
  change ("weather" =? "stock")%string with false.
  change ("weather" =? "news")%string with false.
  change ("weather" =? "image")%string with false.
  change ("weather" =? "weather")%string with true.
  cbn [andb]. rewrite (weather_mode_enabled cfg _ Hmode).
  assert (truthy_dict (get_weather feeds) = true) as Htruthy.
  { apply andb_true_iff in Hdraw as [Hdraw _].
    unfold drawable_forecast in Hdraw.
    destruct (get_weather feeds); [discriminate | reflexivity]. }
  rewrite Htruthy.
  pose proof (BodyImages.generate_weather_image_outcome pil py_format
                (get_weather feeds) w) as Himage.
  rewrite Hdraw in Himage. destruct Himage as [canvas Himage].
  unfold bind at 1. unfold bind at 1. rewrite Himage.
  set (image := ImageGen.convert_to_6color pil (RGBImage (600, 338) canvas)).
  set (w1 := snd (ImageGen.save_image pil (RGBImage (600, 338) canvas)
                    "weather" w)).
  unfold ret at 1.
  destruct (FrameLayout.display_image_typed pil py_format (Some image)
              "weather" (Some (get_weather feeds)) w1)
    as (frame & w2 & w3 & _ & Hshow & Hepd & Hdir & _ & Hnaps).
  unfold bind at 1. rewrite Hshow. unfold bind at 1.
  rewrite Htime, (SchedulerFacts.sleep_within_bounds _ _ Hdwell).
  unfold ret.
  do 2 eexists. exists frame. split; [reflexivity |]. simpl.
  split; [reflexivity |]. split; [exact Hepd |].
  split; [exact Hdir | rewrite Hnaps; reflexivity].
Qed.

Lemma weather_tick_refreshes_header_witness :
  nth (current_mode_index Toy.first_tick) (display_modes Toy.weather_only) ""
  = "weather"
  /\ drawable_forecast
       (get_weather (Toy.feeds_with Toy.no_quotes Samples.three_days))
     && sun_icons Samples.icon_pillow = true
  /\ 0 <= WEATHER_DISPLAY_TIME Toy.weather_only <= MAX_SLEEP
  /\ exists st' w' frame,
      tick Samples.icon_pillow Toy.toy_format Toy.weather_only
        (Toy.feeds_with Toy.no_quotes Samples.three_days) Toy.first_tick
        Toy.empty_world
      = (Ok st', w')
      /\ weather_data st'
         = Some (get_weather (Toy.feeds_with Toy.no_quotes Samples.three_days))
      /\ epd w' = Sys.Display frame :: GetBuffer frame :: epd Toy.empty_world
      /\ tmp_dir w'
         = ImageGen.store "weather"
             (clock Toy.empty_world (3 + reads Toy.empty_world)%nat
                "%Y%m%d-%H%M%S")
             (ImageGen.store "weather"
                (clock Toy.empty_world (reads Toy.empty_world)
                   "%Y%m%d-%H%M%S")
                (tmp_dir Toy.empty_world))
      /\ naps w'
         = WEATHER_DISPLAY_TIME Toy.weather_only :: naps Toy.empty_world.
Proof.
  split; [reflexivity |]. split; [reflexivity |].
  split; [vm_compute; split; discriminate |].
  apply (weather_tick_refreshes_header Samples.icon_pillow Toy.toy_format
           Toy.weather_only (Toy.feeds_with Toy.no_quotes Samples.three_days)
           Toy.first_tick Toy.empty_world);
    [reflexivity | reflexivity | vm_compute; split; discriminate].
Defined.

End LoopFacts.

(** ** Photo source: which files, in which order *)
Module FetcherFacts.

Import PIL Fetcher.

#[local] Instance asc_trans : Transitive asc.
Proof.
  intros a b c Hab Hbc. unfold asc in *.
  eapply ArchiveFacts.leb_trans; eassumption.
Qed.

Lemma insert_asc_perm x l : insert_asc x l ≡ₚ x :: l.
Proof.
  induction l as [|y l IH]; simpl; [reflexivity |].
  destruct (String.leb x y); [reflexivity |].
  rewrite IH. apply perm_swap.
Qed.

Lemma sorted_perm l : sorted l ≡ₚ l.
Proof.
  induction l as [|x l IH]; simpl; [reflexivity |].
  rewrite insert_asc_perm, IH. reflexivity.
Qed.

Lemma insert_asc_sorted x l : Sorted asc l -> Sorted asc (insert_asc x l).
Proof.
  induction 1 as [|y l Hl IH Hhd]; simpl.
  - repeat constructor.
  - destruct (String.leb x y) eqn:Hxy.
    + constructor; [constructor; assumption |]. constructor. exact Hxy.
    + constructor; [exact IH |].
      assert (asc y x) as Hd.
      { unfold asc. destruct (String.leb_total x y); congruence. }
      destruct Hhd as [|z l' Hz]; simpl.
      * constructor. exact Hd.
      * destruct (String.leb x z); constructor; assumption.
Qed.

Lemma sorted_sorted l : StronglySorted asc (sorted l).
Proof.
  apply Sorted_StronglySorted; [apply asc_trans |].
  induction l as [|x l IH]; simpl; [constructor |].
  apply insert_asc_sorted, IH.
Qed.

Section Opening.

Variable open : string -> result Image.

Lemma fetch_many_empty count (self : ImageFetcher) :
  image_files self = [] ->
  fetch_many open count self = (repeat (Ok None) count, self).
Proof.
  intros Hfiles.
  induction count as [|count IH]; simpl; [reflexivity |].
  unfold fetch_next_image. rewrite Hfiles. rewrite IH. reflexivity.
Qed.

(** From any position within the list, [count] calls open the files at
    the following positions, wrapping around, and never run past the
    end of the list. *)
Lemma fetch_many_cycle count :
  forall self : ImageFetcher,
    (current_index self < List.length (image_files self))%nat ->
    fetch_many open count self
    = (map (fun j =>
              match open (nth ((current_index self + j)
                               mod List.length (image_files self))%nat
                            (image_files self) "") with
              | Ok image => Ok (Some image)
              | Raise e => Raise e
              end)
         (seq 0 count),
       {| image_files := image_files self;
          current_index :=
            ((current_index self + count)
             mod List.length (image_files self))%nat |}).
Proof.
  induction count as [|count IH]; intros [files i] Hi;
    cbn [image_files current_index] in *.
  - cbn [fetch_many seq map].
    rewrite Nat.add_0_r, Nat.mod_small by exact Hi. reflexivity.
  - cbn [fetch_many]. unfold fetch_next_image.
    cbn [image_files current_index].
    destruct files as [|f files']; [simpl in Hi; lia |].
    set (all := f :: files') in *.
    rewrite (nth_error_nth' all "" Hi).
    assert (List.length all <> 0)%nat as Hlen by (subst all; simpl; lia).
    rewrite IH
      by (cbn [image_files current_index];
          apply Nat.mod_upper_bound; exact Hlen).
    cbn [image_files current_index seq map].
    rewrite Nat.add_0_r, (Nat.mod_small _ _ Hi).
    f_equal.
    + f_equal. rewrite <- seq_shift, map_map. apply map_ext. intros j.
      rewrite Nat.Div0.add_mod_idemp_l.
      replace (i + 1 + j)%nat with (i + S j)%nat by lia. reflexivity.
    + f_equal. rewrite Nat.Div0.add_mod_idemp_l. f_equal. lia.
Qed.

End Opening.

(** X23: the photo source is a round robin over its file list.  With
    no image file, every call returns None and opens nothing.  With n
    files, the k-th call (from 0) opens the file at position k mod n,
    so each file comes once per cycle and after n calls the sequence
    starts over; the index never leaves the list, even when opening a
    file raises. *)
Theorem fetch_next_image_round_robin
    (open : string -> result Image) (listing : option (list string))
    (count : nat) :
  let files := _get_image_files listing in
  let out := fetch_many open count (init listing) in
  image_files (snd out) = files
  /\ match files with
     | [] =>
         fst out = repeat (Ok None) count /\ current_index (snd out) = 0%nat
     | _ :: _ =>
         fst out
         = map (fun k =>
                  match open (nth (k mod List.length files)%nat files "") with
                  | Ok image => Ok (Some image)
                  | Raise e => Raise e
                  end)
             (seq 0 count)
         /\ current_index (snd out) = (count mod List.length files)%nat
     end.
Proof.
  cbv zeta. unfold init.
  destruct (_get_image_files listing) as [|f files] eqn:Hfiles.
  - rewrite fetch_many_empty by reflexivity.
    cbn [fst snd image_files current_index]. tauto.
  - rewrite fetch_many_cycle by (cbn [image_files current_index length]; lia).
    cbn [fst snd image_files current_index]. rewrite Nat.add_0_l.
    split; [reflexivity |]. split; [| reflexivity].
    apply map_ext. intros k. rewrite Nat.add_0_l. reflexivity.
Qed.

(** X24: the file list of the photo source holds exactly the entries
    of the directory whose name ends, in any letter case, in .png,
    .jpg, .jpeg or .bmp, each once and under the directory path, in
    ascending order of path; a missing directory gives the empty list. *)
Theorem get_image_files_selects_and_sorts (names : list string) :
  let files := _get_image_files (Some names) in
  (forall path,
     In path files
     <-> exists f,
           path = IMAGE_DIR +:+ "/" +:+ f /\ In f names
           /\ is_image_name f = true)
  /\ List.length files = List.length (List.filter is_image_name names)
  /\ StronglySorted asc files
  /\ _get_image_files None = [].
Proof.
  cbv zeta. unfold _get_image_files.
  split; [| split; [| split]].
  - intros path. split.
    + intros Hin.
      apply (Permutation_in _ (sorted_perm _)) in Hin.
      apply in_map_iff in Hin as (f & <- & Hf). apply filter_In in Hf.
      exists f. split; [reflexivity | exact Hf].
    + intros (f & -> & Hf).
      apply (Permutation_in _ (Permutation_sym (sorted_perm _))).
      apply in_map_iff. exists f. split; [reflexivity |].
      apply filter_In. exact Hf.
  - rewrite (Permutation_length
               (sorted_perm (map image_path (List.filter is_image_name names)))).
    apply length_map.
  - apply sorted_sorted.
  - reflexivity.
Qed.

End FetcherFacts.

(** ** Weather source: cache file, freshness, fallback *)
Module WeatherCacheFacts.

Import WeatherCache Shapes.






Section Clock.

Variable age : pyval -> result Z.

(** A cache content is served only if it is an object with a timestamp
    less than an hour old. *)
Lemma fresh_content_served (v served : pyval) :
  fresh_content age v = Ok (Some served) ->
  served = v
  /\ exists d t elapsed,
      v = Py.PyDict d /\ Py.lookup d "timestamp" = Some t
      /\ age t = Ok elapsed /\ elapsed < CACHE_EXPIRY.
Proof.
  unfold fresh_content.
  destruct (falsy v); [discriminate |].
  destruct v as [| b | n | q | s | l | d]; simpl; try discriminate.
  - destruct (contains "timestamp" s); discriminate.
  - destruct (existsb _ l); discriminate.
  - destruct (Py.lookup d "timestamp") as [t |] eqn:Ht; simpl;
      [| discriminate].
    destruct (age t) as [elapsed | e] eqn:Hage; [| discriminate].
    destruct (elapsed <? CACHE_EXPIRY) eqn:Hfresh; [| discriminate].
    intros H. inversion H. split; [reflexivity |].
    exists d, t, elapsed. apply Z.ltb_lt in Hfresh. tauto.
Qed.

Lemma get_cached_weather_served (file : CacheFile) (served : pyval) :
  get_cached_weather age file = Some served ->
  file = Content served
  /\ exists d t elapsed,
      served = Py.PyDict d /\ Py.lookup d "timestamp" = Some t
      /\ age t = Ok elapsed /\ elapsed < CACHE_EXPIRY.
Proof.
  unfold get_cached_weather.
  destruct file as [| e | v]; try discriminate.
  destruct (fresh_content age v) as [[r |] | e] eqn:Hfresh; try discriminate.
  intros H. inversion H; subst r.
  destruct (fresh_content_served v served Hfresh) as [-> Hshape].
  split; [reflexivity | exact Hshape].
Qed.

Lemma get_cached_weather_fresh (d : Py.pydict) (t : pyval) (elapsed : Z) :
  Py.lookup d "timestamp" = Some t -> age t = Ok elapsed ->
  get_cached_weather age (Content (Py.PyDict d))
  = if elapsed <? CACHE_EXPIRY then Some (Py.PyDict d) else None.
Proof.
  intros Ht Hage. unfold get_cached_weather, fresh_content.
  destruct d as [|entry d]; [discriminate |].
  simpl falsy. cbn iota. unfold has_timestamp, timestamp_of.
  rewrite Ht. cbn. rewrite Hage.
  destruct (elapsed <? CACHE_EXPIRY); reflexivity.
Qed.

End Clock.

(** X26: [get_weather] always answers with a non-empty object, never
    with None: the cached record when the cache file holds an object
    with a timestamp less than an hour old (then no request is made and
    nothing is written), else the record just fetched, else the
    placeholder, which is returned exactly when the cache cannot be
    used and the fetch fails. *)
Theorem get_weather_always_answers
    (age : pyval -> result Z) (now_iso : string) (api : ApiAnswer)
    (write : WriteOutcome) (st : Store) :
  let out := get_weather age now_iso api write st in
  (exists d, fst out = Py.PyDict d /\ d <> [])
  /\ (fst out = Py.PyDict PLACEHOLDER
      <-> get_cached_weather age (cache st) = None
          /\ fst (fetch_weather now_iso api write st) = None)
  /\ (forall served,
        get_cached_weather age (cache st) = Some served ->
        out = (served, st))
  /\ (get_cached_weather age (cache st) = None ->
      fetches (snd out) = S (fetches st)).
Proof.
  cbv zeta. unfold get_weather.
  destruct (get_cached_weather age (cache st)) as [served |] eqn:Hcache.
  - destruct (get_cached_weather_served age (cache st) served Hcache)
      as (_ & d & t & elapsed & -> & Ht & _).
    split; [| split; [| split]].
    + exists d. split; [reflexivity |]. intros ->. discriminate.
    + split; [| intros [H _]; discriminate].
      intros H. inversion H; subst d. discriminate.
    + intros served H. inversion H. reflexivity.
    + discriminate.
  - unfold fetch_weather.
    destruct api as [e | | forecast]; cbn.
    + split; [eexists; split; [reflexivity | discriminate] |].
      split; [tauto |]. split; [discriminate | reflexivity].
    + split; [eexists; split; [reflexivity | discriminate] |].
      split; [tauto |]. split; [discriminate | reflexivity].
    + destruct write as [| e debris]; cbn.
      * split; [eexists; split; [reflexivity | discriminate] |].
        split; [| split; [discriminate | reflexivity]].
        split; [discriminate | intros [_ H]; discriminate].
      * split; [eexists; split; [reflexivity | discriminate] |].
        split; [tauto |]. split; [discriminate | reflexivity].
Qed.

(** X27: write and read back.  When the cache cannot be used and the
    service answers, [get_weather] returns the record built from the
    answer and caches it; as long as its timestamp is less than an hour
    old, later calls return that same record from the cache file, make
    no request and write nothing, whatever the service would answer;
    once the hour is over the cache is passed by and a new request is
    made. *)
Theorem fetched_weather_is_served_from_cache
    (age : pyval -> result Z) (now_iso : string) (forecast : Forecast)
    (st : Store)
    (age' : pyval -> result Z) (now_iso' : string) (api' : ApiAnswer)
    (write' : WriteOutcome) (elapsed : Z) :
  get_cached_weather age (cache st) = None ->
  age' (Py.PyStr now_iso) = Ok elapsed ->
  let first := get_weather age now_iso (ApiForecast forecast) Written st in
  let second := get_weather age' now_iso' api' write' (snd first) in
  fst first = Py.PyDict (format_weather forecast now_iso)
  /\ fetches (snd first) = S (fetches st)
  /\ (elapsed < CACHE_EXPIRY -> second = first)
  /\ (CACHE_EXPIRY <= elapsed ->
      fetches (snd second) = S (S (fetches st))).
Proof.
  intros Hcache Hage. cbv zeta.
  assert (get_weather age now_iso (ApiForecast forecast) Written st
          = (Py.PyDict (format_weather forecast now_iso),
             {| cache := Content (Py.PyDict (format_weather forecast now_iso));
                fetches := S (fetches st) |})) as Hfirst
    by (unfold get_weather; rewrite Hcache; reflexivity).
  rewrite Hfirst. cbn [fst snd fetches].
  split; [reflexivity |]. split; [reflexivity |].
  unfold get_weather. cbn [cache].
  rewrite (get_cached_weather_fresh age' (format_weather forecast now_iso)
             (Py.PyStr now_iso) elapsed eq_refl Hage).
  split; intros Helapsed.
  - replace (elapsed <? CACHE_EXPIRY) with true by lia. reflexivity.
  - replace (elapsed <? CACHE_EXPIRY) with false by lia.
    unfold fetch_weather.
    destruct api' as [e | | forecast']; try reflexivity.
    destruct write' as [| e debris]; reflexivity.
Qed.

Lemma fetched_weather_is_served_from_cache_witness :
  get_cached_weather Samples.ten_minutes_ago (cache Samples.no_cache) = None
  /\ Samples.ten_minutes_ago (Py.PyStr "2025-01-01T12:00:00")
     = Ok (600 * 1000000)
  /\ (let first :=
        get_weather Samples.ten_minutes_ago "2025-01-01T12:00:00"
          (ApiForecast Samples.sunny_week) Written Samples.no_cache in
      let second :=
        get_weather Samples.ten_minutes_ago "2025-01-01T12:10:00"
          (ApiRaises Py.RequestException) Written (snd first) in
      fst first
      = Py.PyDict (format_weather Samples.sunny_week "2025-01-01T12:00:00")
      /\ fetches (snd first) = S (fetches Samples.no_cache)
      /\ (600 * 1000000 < CACHE_EXPIRY -> second = first)
      /\ (CACHE_EXPIRY <= 600 * 1000000 ->
          fetches (snd second) = S (S (fetches Samples.no_cache)))).
Proof.
  split; [reflexivity |]. split; [reflexivity |].
  apply (fetched_weather_is_served_from_cache Samples.ten_minutes_ago
           "2025-01-01T12:00:00" Samples.sunny_week Samples.no_cache
           Samples.ten_minutes_ago "2025-01-01T12:10:00"
           (ApiRaises Py.RequestException) Written (600 * 1000000));
    reflexivity.
Defined.

Lemma daily_forecast_drawable (daily : Daily) :
  drawable_day (daily_forecast daily) = named_phase daily.
Proof.
  unfold drawable_day, daily_forecast, named_phase, text_or_absent. cbn.
  destruct (moon_phase daily) as [name |]; reflexivity.
Qed.

(** X28: the records of the weather source against their two readers.
    A record built by [fetch_weather] from at least three daily
    forecasts whose moon phases are named can be drawn by
    [generate_weather_image], and its current conditions can be read by
    the header when the description is plain; the placeholder returned
    when the service is down can be read by the header too, but it has
    no forecast, so it gives no weather image. *)
Theorem fetched_forecast_is_drawable
    (forecast : Forecast) (now_iso : string) :
  (3 <= List.length (daily_forecasts forecast))%nat ->
  forallb named_phase (take 3 (daily_forecasts forecast)) = true ->
  drawable_forecast (format_weather forecast now_iso) = true
  /\ readable_current (Some (format_weather forecast now_iso))
     = plain_description forecast
  /\ drawable_forecast PLACEHOLDER = false
  /\ Render.short_forecast PLACEHOLDER = true
  /\ readable_current (Some PLACEHOLDER) = true.
Proof.
  intros Hdays Hnamed.
  split; [| split; [| repeat split]].
  - unfold drawable_forecast.
    change (Py.lookup (format_weather forecast now_iso) "forecast")
      with (Some (Py.PyList
                    (map daily_forecast (take 3 (daily_forecasts forecast))))).
    cbv beta iota.
    rewrite length_map, length_take.
    replace (3 <=? Nat.min 3 (List.length (daily_forecasts forecast)))%nat
      with true by (symmetry; apply Nat.leb_le; lia).
    cbn [andb].
    rewrite take_ge by (rewrite length_map, length_take; lia).
    rewrite forallb_forall in Hnamed. apply forallb_forall.
    intros day Hday. apply in_map_iff in Hday as (daily & <- & Hdaily).
    rewrite daily_forecast_drawable. apply Hnamed. exact Hdaily.
  - unfold readable_current, format_weather, plain_description. cbn.
    destruct (description forecast) as [[| b | n | q | s | l | d] |];
      reflexivity.
Qed.

Lemma fetched_forecast_is_drawable_witness :
  (3 <= List.length (daily_forecasts Samples.sunny_week))%nat
  /\ forallb named_phase (take 3 (daily_forecasts Samples.sunny_week)) = true
  /\ drawable_forecast
       (format_weather Samples.sunny_week "2025-01-01T12:00:00") = true
  /\ readable_current
       (Some (format_weather Samples.sunny_week "2025-01-01T12:00:00"))
     = plain_description Samples.sunny_week
  /\ drawable_forecast PLACEHOLDER = false
  /\ Render.short_forecast PLACEHOLDER = true
  /\ readable_current (Some PLACEHOLDER) = true.
Proof.
  split; [simpl; lia |]. split; [reflexivity |].
  apply (fetched_forecast_is_drawable Samples.sunny_week
           "2025-01-01T12:00:00"); [simpl; lia | reflexivity].
Defined.

End WeatherCacheFacts.

(** ** News source: the summary that reaches the image *)
Module NewsFacts.

Import News.

Section Services.

Variable json_loads : string -> option pyval.
Variable post : string -> Response.

(** Whatever the server does, the summary is the text given or an
    answer that passed the validation. *)
Lemma summarize_text_outcome (text : string) :
  summarize_text json_loads post text = text
  \/ valid_summary (summarize_text json_loads post text) = true.
Proof.
  unfold summarize_text, summarize_try.
  destruct (post _) as [e | status_code body]; [left; reflexivity |].
  destruct (status_code =? 200); [| left; reflexivity].
  destruct (json_loads _) as [response_data |]; [| left; reflexivity].
  destruct (Py.get response_data "response" (Py.PyStr "")) as [r | e];
    [| left; reflexivity].
  destruct (Render.as_str r) as [s | e]; [| left; reflexivity].
  cbn beta iota zeta.
  destruct (valid_summary (PyStr.strip s)) eqn:Hvalid;
    [right; exact Hvalid | left; reflexivity].
Qed.

Lemma valid_summary_words (s : string) :
  valid_summary s = true -> (5 <= List.length (PyStr.split s))%nat.
Proof.
  unfold valid_summary. intros H.
  apply andb_true_iff in H as [H _]. apply andb_true_iff in H as [_ H].
  apply negb_true_iff, Nat.ltb_ge in H. exact H.
Qed.

End Services.

(** X29: [summarize_text] never loses the article: it returns the text
    it was given whenever the request raises, the status is not 200,
    the last line of the answer is not JSON, or the answer is not an
    object with a text under "response"; and every other result is an
    answer of the server that is non-empty, has at least five words and
    does not contain "I need to summarize". *)
Theorem summarize_text_falls_back_to_text
    (json_loads : string -> option pyval) (post : string -> Response)
    (text : string) :
  let prompt :=
    "Summarize this news article in one sentence:" +:+ PyStr.LF +:+ text in
  let out := summarize_text json_loads post text in
  (out = text
   \/ (out <> ""
       /\ (5 <= List.length (PyStr.split out))%nat
       /\ WeatherCache.contains "I need to summarize" out = false))
  /\ (forall e, post prompt = PostFails e -> out = text)
  /\ (forall status_code body,
        post prompt = Reply status_code body -> status_code <> 200 ->
        out = text)
  /\ (forall body,
        post prompt = Reply 200 body ->
        json_loads (List.last (split_lines (PyStr.strip body)) "") = None ->
        out = text)
  /\ (forall body response_data,
        post prompt = Reply 200 body ->
        json_loads (List.last (split_lines (PyStr.strip body)) "")
        = Some response_data ->
        (forall s, Py.get response_data "response" (Py.PyStr "")
                   <> Ok (Py.PyStr s)) ->
        out = text).
Proof.
  cbv zeta. split; [| split; [| split; [| split]]].
  - destruct (summarize_text_outcome json_loads post text) as [H | H];
      [left; exact H | right].
    pose proof (valid_summary_words _ H) as Hwords.
    unfold valid_summary in H.
    apply andb_true_iff in H as [H Hphrase].
    apply andb_true_iff in H as [Hempty _].
    apply negb_true_iff in Hphrase, Hempty.
    apply String.eqb_neq in Hempty. tauto.
  - intros e Hpost. unfold summarize_text, summarize_try.
    rewrite Hpost. reflexivity.
  - intros status_code body Hpost Hstatus.
    unfold summarize_text, summarize_try. rewrite Hpost.
    apply Z.eqb_neq in Hstatus. rewrite Hstatus. reflexivity.
  - intros body Hpost Hjson. unfold summarize_text, summarize_try.
    rewrite Hpost. cbn [Z.eqb Pos.eqb]. rewrite Hjson. reflexivity.
  - intros body response_data Hpost Hjson Hshape.
    unfold summarize_text, summarize_try.
    rewrite Hpost. cbn [Z.eqb Pos.eqb]. rewrite Hjson.
    destruct (Py.get response_data "response" (Py.PyStr "")) as [r | e];
      [| reflexivity].
    destruct r as [| b | n | q | s | l | d]; try reflexivity.
    exfalso. exact (Hshape s eq_refl).
Qed.

(** X30: every news record [fetch_news] returns comes from the first
    entry of the feed: its title is the entry's title stripped, its
    thumbnail the first picture of the description, and its summary,
    the paragraphs of the description or the server's rewording of
    them, is never empty and has at least five words.  An empty feed,
    or an entry without title or description, gives no record. *)
Theorem fetch_news_summary_has_five_words
    (json_loads : string -> option pyval) (post : string -> Response)
    (paragraphs : string -> result (list string))
    (first_img_src : string -> result (option string))
    (feed : result (list Entry)) (news : Render.NewsData) :
  fetch_news json_loads post paragraphs first_img_src feed = Some news ->
  (exists entry rest t description,
     feed = Ok (entry :: rest)
     /\ entry_title entry = Some t
     /\ entry_description entry = Some description
     /\ Render.title news = PyStr.strip t
     /\ Render.thumbnail_url news
        = extract_image_url first_img_src description
     /\ Render.summary news
        = summarize_text json_loads post
            (extract_rss_summary paragraphs entry))
  /\ (5 <= List.length (PyStr.split (Render.summary news)))%nat
  /\ Render.summary news <> "".
Proof.
  unfold fetch_news, fetch_news_try.
  destruct feed as [[|entry rest] | e]; try discriminate.
  destruct (entry_title entry) as [t |] eqn:Htitle; [| discriminate].
  destruct (entry_description entry) as [description |] eqn:Hdescription;
    [| discriminate].
  destruct (_ || _) eqn:Hshort; [discriminate |].
  intros H. inversion H; subst news. clear H. cbn [Render.summary].
  apply orb_false_iff in Hshort as [_ Hwords].
  apply Nat.ltb_ge in Hwords.
  assert (5 <= List.length
                 (PyStr.split
                    (summarize_text json_loads post
                       (extract_rss_summary paragraphs entry))))%nat
    as Hsummary.
  { destruct (summarize_text_outcome json_loads post
                (extract_rss_summary paragraphs entry)) as [-> | Hvalid];
      [exact Hwords | apply valid_summary_words; exact Hvalid]. }
  split; [| split; [exact Hsummary |]].
  - exists entry, rest, t, description. rewrite Htitle, Hdescription.
    repeat split; reflexivity.
  - intros Hempty. rewrite Hempty in Hsummary. simpl in Hsummary. lia.
Qed.

Lemma fetch_news_summary_has_five_words_witness :
  fetch_news Samples.no_json Samples.server_down Samples.one_paragraph
    Samples.no_picture Samples.one_article
  = Some {| Render.title := "Rain expected";
            Render.summary := "Heavy rain is expected over the weekend.";
            Render.thumbnail_url := None |}
  /\ (exists entry rest t description,
        Samples.one_article = Ok (entry :: rest)
        /\ entry_title entry = Some t
        /\ entry_description entry = Some description
        /\ "Rain expected" = PyStr.strip t
        /\ None = extract_image_url Samples.no_picture description
        /\ "Heavy rain is expected over the weekend."
           = summarize_text Samples.no_json Samples.server_down
               (extract_rss_summary Samples.one_paragraph entry))
  /\ (5 <= List.length
             (PyStr.split "Heavy rain is expected over the weekend."))%nat
  /\ "Heavy rain is expected over the weekend." <> "".
Proof.
  split; [reflexivity |].
  apply (fetch_news_summary_has_five_words Samples.no_json Samples.server_down
           Samples.one_paragraph Samples.no_picture Samples.one_article
           {| Render.title := "Rain expected";
              Render.summary := "Heavy rain is expected over the weekend.";
              Render.thumbnail_url := None |}).
  reflexivity.
Defined.

End NewsFacts.
